(** * branch-deploy: command interpretation and deployment lifecycle

    A shallow embedding of the three source files of the action
    (environment-targets, post-deploy and main) together with the
    properties of the specification that concern them.

    Strings are JavaScript strings represented by their UTF-8 bytes.
    The helper modules that the sources import but that are not part
    of the verified files (trigger-check, context-check, react-emote,
    action-status, deployment, prechecks, valid-permissions, help,
    identical-commit-check), the octokit client and the dedent library
    are supplied as parameters; what dedent-js does to one string is
    modelled as well, for the texts that the comments show. *)

From Stdlib Require Import String Ascii List Bool Arith Lia ZArith.
From Stdlib Require Import DecimalString.
Import ListNotations.
Open Scope string_scope.

(** ** JavaScript values and string primitives *)

Module JS.

(** The values that reach the modelled functions. A number is an
    integer that a double holds exactly and that a template literal
    prints in full, which is every id and count of the platform. *)
Inductive jsval : Type :=
| VUndefined
| VNull
| VBool (b : bool)
| VNum (n : Z)
| VStr (s : string).

(** ToBoolean. *)
Definition truthy (v : jsval) : bool :=
  match v with
  | VUndefined | VNull => false
  | VBool b => b
  | VNum n => negb (Z.eqb n 0)
  | VStr s => negb (s =? "")
  end.

(** ToString, as performed by a template literal. *)
Definition toString (v : jsval) : string :=
  match v with
  | VUndefined => "undefined"
  | VNull => "null"
  | VBool true => "true"
  | VBool false => "false"
  | VNum n => NilZero.string_of_int (Z.to_int n)
  | VStr s => s
  end.

(** [v.length] for a value that is not null or undefined: the number of
    bytes decides emptiness exactly as the number of code units does. *)
Definition lengthOf (v : jsval) : option nat :=
  match v with
  | VStr s => Some (String.length s)
  | _ => None
  end.

(** [v.length === 0] *)
Definition length_is_0 (v : jsval) : bool :=
  match lengthOf v with Some 0 => true | _ => false end.

(** [v.length > 0] *)
Definition length_gt_0 (v : jsval) : bool :=
  match lengthOf v with Some (S _) => true | _ => false end.

(** [v === 'lit'] *)
Definition strictEqStr (v : jsval) (lit : string) : bool :=
  match v with VStr s => s =? lit | _ => false end.

(** *** White space, as String.prototype.trim sees it

    WhiteSpace and LineTerminator of ECMAScript: TAB, LF, VT, FF, CR,
    SP, U+00A0, U+1680, U+2000..U+200A, U+2028, U+2029, U+202F, U+205F,
    U+3000 and U+FEFF, in their UTF-8 encodings. *)

Definition code (c : ascii) : nat := nat_of_ascii c.

Definition ws1 (c : ascii) : bool :=
  match code c with
  | 9 | 10 | 11 | 12 | 13 | 32 => true
  | _ => false
  end.

Definition ws2 (c1 c2 : ascii) : bool :=
  (code c1 =? 194)%nat && (code c2 =? 160)%nat.

Definition ws3 (c1 c2 c3 : ascii) : bool :=
  let a := code c1 in
  let b := code c2 in
  let c := code c3 in
  ((a =? 225) && (b =? 154) && (c =? 128))%nat
  || ((a =? 226) && (b =? 128) &&
      (((128 <=? c) && (c <=? 138)) || (c =? 168) || (c =? 169) || (c =? 175)))%nat
  || ((a =? 226) && (b =? 129) && (c =? 159))%nat
  || ((a =? 227) && (b =? 128) && (c =? 128))%nat
  || ((a =? 239) && (b =? 187) && (c =? 191))%nat.

Fixpoint trimStart (s : string) : string :=
  match s with
  | EmptyString => s
  | String c1 r1 =>
      if ws1 c1 then trimStart r1
      else
        match r1 with
        | EmptyString => s
        | String c2 r2 =>
            if ws2 c1 c2 then trimStart r2
            else
              match r2 with
              | EmptyString => s
              | String c3 r3 => if ws3 c1 c2 c3 then trimStart r3 else s
              end
        end
  end.

(** A string made of white space only. *)
Definition blank (s : string) : bool :=
  match trimStart s with
  | EmptyString => true
  | String _ _ => false
  end.

Fixpoint trimEnd (s : string) : string :=
  match s with
  | EmptyString => EmptyString
  | String c r => if blank s then EmptyString else String c (trimEnd r)
  end.

(** [s.trim()] *)
Definition trim (s : string) : string := trimEnd (trimStart s).

(** The line feed and the tab that the sources write as escapes. *)
Definition nl : string := String (ascii_of_nat 10) EmptyString.
Definition tab : string := String (ascii_of_nat 9) EmptyString.

(** *** Searching and replacing *)

(** [stripPrefix p s] is the rest of [s] after its prefix [p]. *)
Fixpoint stripPrefix (p s : string) : option string :=
  match p with
  | EmptyString => Some s
  | String a p' =>
      match s with
      | EmptyString => None
      | String b s' => if Ascii.eqb a b then stripPrefix p' s' else None
      end
  end.

(** [s.startsWith(p)] *)
Definition startsWith (s p : string) : bool :=
  match stripPrefix p s with Some _ => true | None => false end.

(** [s.includes(p)] *)
Fixpoint includes (s p : string) : bool :=
  if startsWith s p then true
  else match s with
       | EmptyString => false
       | String _ r => includes r p
       end.

(** [s.replace(pat, rep)] for a string pattern and a replacement that
    holds no [$]: the first occurrence only. *)
Fixpoint replace (s pat rep : string) : string :=
  match stripPrefix pat s with
  | Some rest => rep ++ rest
  | None =>
      match s with
      | EmptyString => EmptyString
      | String c r => String c (replace r pat rep)
      end
  end.

(** [s.replace(/\\x/g, rep)]: every occurrence of a backslash followed
    by the letter [x]. *)
Fixpoint unescape (x : ascii) (rep : string) (s : string) : string :=
  match s with
  | EmptyString => EmptyString
  | String a t =>
      match t with
      | EmptyString => s
      | String b r =>
          if (code a =? 92)%nat && Ascii.eqb b x
          then rep ++ unescape x rep r
          else String a (unescape x rep t)
      end
  end.

(** [s.split(c)] for a one-character separator. *)
Fixpoint split (c : ascii) (s : string) : list string :=
  match s with
  | EmptyString => [EmptyString]
  | String a r =>
      if Ascii.eqb a c then EmptyString :: split c r
      else
        match split c r with
        | h :: t => String a h :: t
        | [] => [String a EmptyString]
        end
  end.

(** [xs.join(',')] *)
Fixpoint join (sep : string) (xs : list string) : string :=
  match xs with
  | [] => EmptyString
  | [x] => x
  | x :: rest => x ++ sep ++ join sep rest
  end.

(** *** The dedent-js library, called on one string

    The library works in four steps: it drops a last line break that
    only tabs and spaces follow, collects the runs of tabs and spaces
    that follow a line feed, removes behind every line feed as many of
    them as the shortest run holds, and drops a line break at the very
    start. A line feed that nothing indents has no run and does not
    count for the shortest one. *)

Definition isLineFeed (c : ascii) : bool := Ascii.eqb c "010".
Definition isReturn (c : ascii) : bool := Ascii.eqb c "013".
Definition isTabOrSpace (c : ascii) : bool := Ascii.eqb c "009" || Ascii.eqb c " ".

Fixpoint allTabsOrSpaces (s : string) : bool :=
  match s with
  | EmptyString => true
  | String c r => isTabOrSpace c && allTabsOrSpaces r
  end.

(** The whole of [s] is one line break, with or without a carriage
    return before the line feed, and tabs and spaces after it. *)
Definition isLastBreak (s : string) : bool :=
  match s with
  | String a r =>
      if isLineFeed a then allTabsOrSpaces r
      else if isReturn a then
        match r with
        | String b r' => isLineFeed b && allTabsOrSpaces r'
        | EmptyString => false
        end
      else false
  | EmptyString => false
  end.

(** Step 1: the first place from which the rest of the text is such a
    last line break, if there is one, ends the text. *)
Fixpoint dropLastBreak (s : string) : string :=
  if isLastBreak s then EmptyString
  else match s with
       | EmptyString => EmptyString
       | String c r => String c (dropLastBreak r)
       end.

(** The number of tabs and spaces at the start of [s]. *)
Fixpoint indentRun (s : string) : nat :=
  match s with
  | String c r => if isTabOrSpace c then S (indentRun r) else 0
  | EmptyString => 0
  end.

(** Step 2: every line feed followed by at least one tab or space,
    with the number of tabs and spaces that follow it. *)
Fixpoint indents (s : string) : list nat :=
  match s with
  | EmptyString => []
  | String c r =>
      if isLineFeed c then
        match indentRun r with
        | 0 => indents r
        | S n => S n :: indents r
        end
      else indents r
  end.

(** [Math.min(...ns)] of a list that is not empty. *)
Definition smallest (n : nat) (ns : list nat) : nat := fold_left Nat.min ns n.

(** Step 3: behind every line feed that at least [size] tabs and
    spaces follow, [size] of them are dropped; [skip] counts those of
    the current line that are still to be dropped. *)
Fixpoint unindent (size skip : nat) (s : string) : string :=
  match s with
  | EmptyString => EmptyString
  | String c r =>
      match skip with
      | S k => unindent size k r
      | 0 =>
          if isLineFeed c && (size <=? indentRun r)%nat
          then String c (unindent size size r)
          else String c (unindent size 0 r)
      end
  end.

(** Step 4: a line break at the very start is dropped. *)
Definition dropFirstBreak (s : string) : string :=
  match s with
  | String a r =>
      if isLineFeed a then r
      else if isReturn a then
        match r with
        | String b r' => if isLineFeed b then r' else s
        | EmptyString => s
        end
      else s
  | EmptyString => s
  end.

(** [dedent(s)] for a string [s]: a call with one template that holds
    its values already. *)
Definition dedentJs (s : string) : string :=
  let s := dropLastBreak s in
  let s :=
    match indents s with
    | [] => s
    | n :: ns => unindent (smallest n ns) 0 s
    end in
  dropFirstBreak s.

(** [parseInt(v)] for a value that is a number already or a string of
    decimal digits, as the reaction ids of the platform are. *)
Definition parseIntDigits (v : jsval) : jsval :=
  match v with
  | VStr (String c r) =>
      match NilZero.uint_of_string (String c r) with
      | Some n => VNum (Z.of_uint n)
      | None => v
      end
  | _ => v
  end.

End JS.

(** ** Effects: the toolkit state, the log and the platform calls *)

Module Core.
Import JS.

(** An [Error] object: its name and its message; its stack is logged
    as the object itself. *)
Record error : Type := mkError { errName : string; errMessage : string }.

(** What a [throw] or a rejected promise carries: an [Error] object,
    or any other value. A value that is not an [Error] object has
    neither a [stack] nor a [message]; reading them gives [undefined],
    and fails on [null] and [undefined]. *)
Inductive thrown : Type :=
| Err (e : error)
| Raw (v : jsval).

Coercion Err : error >-> thrown.

Record deploymentRequest : Type := mkDeploymentRequest {
  dr_ref : jsval;
  dr_auto_merge : bool;
  dr_required_contexts : list string;
  dr_environment : jsval;
  dr_production_environment : bool
}.

(** Everything a run does that can be observed from outside, in the
    order in which it happens. *)
Inductive event : Type :=
| SaveState (name : string) (value : jsval)
| SetOutput (name : string) (value : jsval)
| Debug (msg : string)
| Info (msg : string)
| Warning (msg : string)
| ErrorLog (e : error)
| ErrorLogRaw (v : jsval)
| SetFailed (msg : jsval)
| IdenticalCommitCheck (environment : string)
| ReactEmote (reaction : string)
| ActionStatus (reactionId message success : jsval)
| Help (reactionId : jsval)
| CreateComment (body : string)
| CreateDeployment (req : deploymentRequest)
| CreateDeploymentStatus (ref : jsval) (state : string)
    (deployment_id environment environment_url : jsval).

(** The calls that create a deployment record or change its status. *)
Definition touchesDeployment (ev : event) : bool :=
  match ev with
  | CreateDeployment _ | CreateDeploymentStatus _ _ _ _ _ => true
  | _ => false
  end.

(** The calls that reach the platform at all. *)
Definition platformCall (ev : event) : bool :=
  match ev with
  | IdenticalCommitCheck _ | ReactEmote _ | ActionStatus _ _ _ | Help _
  | CreateComment _ | CreateDeployment _ | CreateDeploymentStatus _ _ _ _ _ => true
  | _ => false
  end.

(** A trace without any deployment call. *)
Definition noDeployment (t : list event) : bool :=
  forallb (fun ev => negb (touchesDeployment ev)) t.

(** A trace without any platform call. *)
Definition noPlatformCall (t : list event) : bool :=
  forallb (fun ev => negb (platformCall ev)) t.

Inductive result (A : Type) : Type :=
| Ret (a : A)
| Throw (e : thrown).
Arguments Ret {A} a.
Arguments Throw {A} e.

(** A computation: the events it produced and how it ended. *)
Definition M (A : Type) : Type := (list event * result A)%type.

Definition ret {A} (a : A) : M A := ([], Ret a).
Definition throw {A} (e : thrown) : M A := ([], Throw e).
Definition emit (ev : event) : M unit := ([ev], Ret tt).

Definition bind {A B} (m : M A) (f : A -> M B) : M B :=
  match m with
  | (t, Ret a) => let '(t', r) := f a in ((t ++ t')%list, r)
  | (t, Throw e) => (t, Throw e)
  end.

(** A call that leaves the process: it is recorded, then it answers. *)
Definition call {A} (ev : event) (answer : result A) : M A := ([ev], answer).

(** A query of a helper: only its answer matters. *)
Definition ask {A} (answer : result A) : M A := ([], answer).

(** [try { m } catch (error) { h error }] *)
Definition tryCatch {A} (m : M A) (h : thrown -> M A) : M A :=
  match m with
  | (t, Ret a) => (t, Ret a)
  | (t, Throw e) => let '(t', r) := h e in ((t ++ t')%list, r)
  end.

Definition events {A} (m : M A) : list event := fst m.
Definition outcome {A} (m : M A) : result A := snd m.

(** A computation that makes no deployment call. *)
Definition quiet {A} (m : M A) : Prop := noDeployment (events m) = true.

Module Notations.
Notation "x <- m ;; k" := (bind m (fun x => k))
  (at level 61, m at next level, right associativity).
Notation "m ;;; k" := (bind m (fun _ => k))
  (at level 61, right associativity).
End Notations.

(** The last value saved under [name], as [core.getState] of the
    completion phase would find it. *)
Fixpoint savedState (name : string) (t : list event) : option jsval :=
  match t with
  | [] => None
  | ev :: rest =>
      match savedState name rest with
      | Some v => Some v
      | None =>
          match ev with
          | SaveState n v => if n =? name then Some v else None
          | _ => None
          end
      end
  end.

(** The last value set for the output [name]. *)
Fixpoint output (name : string) (t : list event) : option jsval :=
  match t with
  | [] => None
  | ev :: rest =>
      match output name rest with
      | Some v => Some v
      | None =>
          match ev with
          | SetOutput n v => if n =? name then Some v else None
          | _ => None
          end
      end
  end.

(** A computation that, when it returns ['failure'], has saved the
    bypass state as ['true']. *)
Definition flagged (m : M jsval) : Prop :=
  outcome m = Ret (VStr "failure") ->
  savedState "bypass" (events m) = Some (VStr "true").

Definition typeError (msg : string) : error := mkError "TypeError" msg.
Definition referenceError (msg : string) : error := mkError "ReferenceError" msg.

(** [core.getInput(name, {required})] of the actions toolkit over the
    raw input table. *)
Definition getInput (inputs : string -> string) (name : string)
    (required : bool) : M string :=
  let val := inputs name in
  if required && (val =? "")
  then throw (mkError "Error" ("Input required and not supplied: " ++ name))
  else ret (trim val).

Record precheckResults : Type := mkPrecheckResults {
  pr_status : bool;
  pr_message : jsval;
  pr_ref : jsval;
  pr_sha : jsval;
  pr_noopMode : bool
}.

Record createDeployData : Type := mkCreateDeployData {
  cd_id : jsval;
  cd_message : jsval
}.

Record comment : Type := mkComment {
  c_body : string;
  c_id : jsval;
  c_user_login : option jsval
}.

(** The event context of the run. *)
Record context : Type := mkContext {
  actor : jsval;
  payload_comment : option comment;
  payload_issue_number : option jsval;
  repo : option (string * string);
  issue_number : jsval
}.

(** The collaborators of the verified files. Each answers with a value
    or throws; what a call does on the platform is recorded as one
    event, and the state and the outputs of a run are those that the
    verified files write themselves. *)
Record externals : Type := mkExternals {
  dedent : string -> string;
  parseInt : jsval -> jsval;
  getOctokit : string -> result unit;
  contextCheck : context -> result bool;
  triggerCheck : bool -> string -> string -> result bool;
  reactEmote : string -> result (option jsval);
  validPermissions : result jsval;
  actionStatus : jsval -> jsval -> jsval -> result unit;
  help : jsval -> result unit;
  prechecks : string -> jsval -> result precheckResults;
  createComment : string -> result unit;
  createDeployment : deploymentRequest -> result createDeployData;
  createDeploymentStatus :
    jsval -> string -> jsval -> jsval -> jsval -> result unit
}.

End Core.

(** ** environment-targets: which environment a comment asks for *)

Module EnvironmentTargets.
Import JS Core Core.Notations.

(** [onDeploymentChecks]: the environment target named by the comment,
    or [None] where the source returns [false]. The candidates are
    tried in the configured order and the first rule that accepts one
    ends the search. *)
Fixpoint onDeploymentChecks (environment_targets_sanitized : list string)
    (body trigger noop_trigger stable_branch environment : string)
    : M (option string) :=
  match environment_targets_sanitized with
  | [] => ret None
  | target :: rest =>
      if trim (replace body trigger "") =? target then
        emit (Debug ("Found environment target for branch deploy: " ++ target)) ;;;
        ret (Some target)
      else if trim (replace body (trigger ++ " " ++ noop_trigger) "") =? target then
        emit (Debug ("Found environment target for noop trigger: " ++ target)) ;;;
        ret (Some target)
      else if trim (replace body trigger "") =? "to " ++ target then
        emit (Debug ("Found environment target for branch deploy (with 'to'): "
                     ++ target)) ;;;
        ret (Some target)
      else if trim (replace body (trigger ++ " " ++ noop_trigger) "")
              =? "to " ++ target then
        emit (Debug ("Found environment target for noop trigger (with 'to'): "
                     ++ target)) ;;;
        ret (Some target)
      else if trim (replace body (trigger ++ " " ++ stable_branch) "")
              =? "to " ++ target then
        emit (Debug ("Found environment target for stable branch deploy (with 'to'): "
                     ++ target)) ;;;
        ret (Some target)
      else if trim (replace body (trigger ++ " " ++ stable_branch) "") =? target then
        emit (Debug ("Found environment target for stable branch deploy: "
                     ++ target)) ;;;
        ret (Some target)
      else if trim body =? trigger then
        emit (Debug "Using default environment for branch deployment") ;;;
        ret (Some environment)
      else if trim body =? trigger ++ " " ++ noop_trigger then
        emit (Debug "Using default environment for noop trigger") ;;;
        ret (Some environment)
      else if trim body =? trigger ++ " " ++ stable_branch then
        emit (Debug "Using default environment for stable branch deployment") ;;;
        ret (Some environment)
      else
        onDeploymentChecks rest body trigger noop_trigger stable_branch environment
  end.

(** The six rules of the loop that return the candidate itself. *)
Definition namesTarget (target body trigger noop_trigger stable_branch : string)
    : bool :=
  (trim (replace body trigger "") =? target)
  || (trim (replace body (trigger ++ " " ++ noop_trigger) "") =? target)
  || (trim (replace body trigger "") =? "to " ++ target)
  || (trim (replace body (trigger ++ " " ++ noop_trigger) "") =? "to " ++ target)
  || (trim (replace body (trigger ++ " " ++ stable_branch) "") =? "to " ++ target)
  || (trim (replace body (trigger ++ " " ++ stable_branch) "") =? target).

(** The three rules of the loop that return the default environment. *)
Definition barePhrase (body trigger noop_trigger stable_branch : string) : bool :=
  (trim body =? trigger)
  || (trim body =? trigger ++ " " ++ noop_trigger)
  || (trim body =? trigger ++ " " ++ stable_branch).

(** [/^https?:\/\//] *)
Definition matchesHttpSchema (url : string) : bool :=
  startsWith url "http://" || startsWith url "https://".

(** The loop of [findEnvironmentUrl] over the comma-separated pairs. *)
Fixpoint findEnvironmentUrlLoop (environment : string)
    (environment_urls_array : list string) : M jsval :=
  match environment_urls_array with
  | [] =>
      emit (Warning ("no valid environment URL found for environment: "
                     ++ environment
                     ++ " - setting environment URL to 'null' - please check your 'environment_urls' input")) ;;;
      emit (SaveState "environment_url" (VStr "null")) ;;;
      emit (SetOutput "environment_url" (VStr "null")) ;;;
      ret VNull
  | entry :: rest =>
      let environment_url_array := split "|" (trim entry) in
      match nth_error environment_url_array 0 with
      | Some name =>
          if name =? environment then
            match nth_error environment_url_array 1 with
            | None =>
                (* [undefined === 'disabled'] is false, then
                   [undefined.match] *)
                throw (typeError
                  "Cannot read properties of undefined (reading 'match')")
            | Some environment_url =>
                if environment_url =? "disabled" then
                  emit (Info ("environment url for " ++ environment
                              ++ " is explicitly disabled")) ;;;
                  emit (SaveState "environment_url" (VStr "null")) ;;;
                  emit (SetOutput "environment_url" (VStr "null")) ;;;
                  ret VNull
                else if negb (matchesHttpSchema environment_url) then
                  emit (Warning ("environment url does not match http(s) schema: "
                                 ++ environment_url)) ;;;
                  findEnvironmentUrlLoop environment rest
                else
                  emit (SaveState "environment_url" (VStr environment_url)) ;;;
                  emit (SetOutput "environment_url" (VStr environment_url)) ;;;
                  emit (Info ("environment url detected: " ++ environment_url)) ;;;
                  ret (VStr environment_url)
            end
          else findEnvironmentUrlLoop environment rest
      | None => findEnvironmentUrlLoop environment rest
      end
  end.

(** [findEnvironmentUrl(environment, environment_urls)] *)
Definition findEnvironmentUrl (environment : string) (environment_urls : jsval)
    : M jsval :=
  match environment_urls with
  | VNull => ret VNull
  | VStr s =>
      if trim s =? "" then ret VNull
      else findEnvironmentUrlLoop environment (split "," (trim s))
  | VUndefined =>
      throw (typeError "Cannot read properties of undefined (reading 'trim')")
  | VBool _ | VNum _ =>
      throw (typeError "environment_urls.trim is not a function")
  end.

Record environmentObj : Type := mkEnvironmentObj {
  eo_environment : jsval;
  eo_environmentUrl : jsval
}.

Definition noTargetMessage (x : externals) (environment_targets_joined : string)
    : string :=
  dedent x
    (nl ++ "      No matching environment target found. Please check your command and try again. You can read more about environment targets in the README of this Action."
     ++ nl ++ nl
     ++ "      > The following environment targets are available: `"
     ++ environment_targets_joined ++ "`" ++ nl ++ "    ").

(** [environmentTargets]: the environment of the run and its URL. The
    parameter [environment_urls] defaults to [null]. The file imports
    the toolkit and dedent only, so the name [actionStatus] that the
    branch for a comment without a target calls is not bound: the call
    fails with a ReferenceError before anything is sent, and the
    [return] that follows it is never reached. *)
Definition environmentTargets (x : externals) (inputs : string -> string)
    (environment body trigger alt_trigger stable_branch : string)
    (reactionId : jsval) (environment_urls : jsval) : M environmentObj :=
  let environment_urls :=
    match environment_urls with VUndefined => VNull | v => v end in
  environment_targets <- getInput inputs "environment_targets" false ;;
  let environment_targets_sanitized := map trim (split "," environment_targets) in
  let environment_targets_joined := join "," environment_targets_sanitized in
  environmentDetected <-
    onDeploymentChecks environment_targets_sanitized body trigger alt_trigger
      stable_branch environment ;;
  match environmentDetected with
  | None =>
      let message := noTargetMessage x environment_targets_joined in
      emit (Warning message) ;;;
      emit (SaveState "bypass" (VStr "true")) ;;;
      throw (referenceError "actionStatus is not defined")
  | Some detected =>
      environmentUrl <- findEnvironmentUrl detected environment_urls ;;
      ret (mkEnvironmentObj (VStr detected) environmentUrl)
  end.

End EnvironmentTargets.

(** ** post-deploy: the completion phase *)

Module PostDeploy.
Import JS Core Core.Notations.

(** [!v || v.length === 0] *)
Definition notProvided (v : jsval) : bool := negb (truthy v) || length_is_0 v.

(** A value that was not passed, or passed as the empty string. *)
Definition missingOrEmpty (v : jsval) : Prop :=
  v = VUndefined \/ v = VNull \/ v = VStr "".

(** An environment URL that is present and not blank. *)
Definition urlPresent (v : jsval) : Prop :=
  exists s, v = VStr s /\ trim s <> "".

(** The input checks that open [postDeploy]. *)
Definition checkInputs (comment_id status ref noop deployment_id environment : jsval)
    : M unit :=
  if notProvided comment_id then throw (mkError "Error" "no comment_id provided")
  else if notProvided status then throw (mkError "Error" "no status provided")
  else if notProvided ref then throw (mkError "Error" "no ref provided")
  else if notProvided noop then throw (mkError "Error" "no noop value provided")
  else if negb (strictEqStr noop "true") then
    if notProvided deployment_id then
      throw (mkError "Error" "no deployment_id provided")
    else if notProvided environment then
      throw (mkError "Error" "no environment provided")
    else ret tt
  else ret tt.

(** [success]: whether the deployment succeeded. *)
Definition successOf (status : jsval) : bool := strictEqStr status "success".

Definition deployTypeString (noop : jsval) : string :=
  if strictEqStr noop "true" then " **noop** " else " ".

(** The sentence of the comment and the mark that goes with it. *)
Definition statusMessage (ctx : context) (status ref noop environment : jsval)
    : string * string :=
  if strictEqStr status "success" then
    ("**" ++ toString (actor ctx) ++ "** successfully" ++ deployTypeString noop
       ++ "deployed branch `" ++ toString ref ++ "` to **"
       ++ toString environment ++ "**",
     "✅")
  else if strictEqStr status "failure" then
    ("**" ++ toString (actor ctx) ++ "** had a failure when" ++ deployTypeString noop
       ++ "deploying branch `" ++ toString ref ++ "` to **"
       ++ toString environment ++ "**",
     "❌")
  else
    ("Warning:" ++ deployTypeString noop
       ++ "deployment status is unknown, please use caution",
     "⚠️").

(** The body of the comment before the environment URL is considered. *)
Definition messageBody (x : externals) (ctx : context)
    (status customMessage ref noop environment : jsval) : string :=
  let '(message, deployStatus) := statusMessage ctx status ref noop environment in
  if truthy customMessage && length_gt_0 customMessage then
    let customMessageFmt :=
      unescape "t" tab (unescape "n" nl (toString customMessage)) in
    dedent x
      (nl ++ "    ### Deployment Results " ++ deployStatus ++ nl
       ++ nl
       ++ "    " ++ message ++ nl
       ++ "  " ++ nl
       ++ "    <details><summary>Show Results</summary>" ++ nl
       ++ "  " ++ nl
       ++ "    " ++ customMessageFmt ++ nl
       ++ "  " ++ nl
       ++ "    </details>" ++ nl
       ++ "    ")
  else
    dedent x
      (nl ++ "    ### Deployment Results " ++ deployStatus ++ nl
       ++ "  " ++ nl
       ++ "    " ++ message ++ nl
       ++ "    ").

(** [environment_url.trim() !== ''], once the value is known to have a
    positive length. *)
Definition trimsToNonEmpty (v : jsval) : bool :=
  match v with
  | VStr s => negb (trim s =? "")
  | _ => false
  end.

(** The condition under which the environment URL joins the comment. *)
Definition showsEnvironmentUrl
    (status noop environment_url environment_url_in_comment : jsval) : bool :=
  truthy environment_url
  && length_gt_0 environment_url
  && trimsToNonEmpty environment_url
  && strictEqStr status "success"
  && negb (strictEqStr noop "true")
  && match environment_url_in_comment with VBool true => true | _ => false end.

Definition environment_url_short (environment_url : string) : string :=
  replace (replace environment_url "https://" "") "http://" "".

(** The line that [message_fmt +=] appends. *)
Definition environmentUrlLine (environment_url : string) : string :=
  nl ++ nl ++ "> **Environment URL:** [" ++ environment_url_short environment_url
     ++ "](" ++ environment_url ++ ")".

(** [message_fmt] as handed to [actionStatus]. *)
Definition message_fmt (x : externals) (ctx : context)
    (status customMessage ref noop environment environment_url
     environment_url_in_comment : jsval) : string :=
  let body := messageBody x ctx status customMessage ref noop environment in
  if showsEnvironmentUrl status noop environment_url environment_url_in_comment
  then body ++ environmentUrlLine (toString environment_url)
  else body.

(** [postDeploy] *)
Definition postDeploy (x : externals) (ctx : context)
    (comment_id reaction_id status customMessage ref noop deployment_id
     environment environment_url environment_url_in_comment : jsval)
    : M string :=
  checkInputs comment_id status ref noop deployment_id environment ;;;
  let success := successOf status in
  let message :=
    message_fmt x ctx status customMessage ref noop environment environment_url
      environment_url_in_comment in
  call (ActionStatus (parseInt x reaction_id) (VStr message) (VBool success))
       (actionStatus x (parseInt x reaction_id) (VStr message) (VBool success)) ;;;
  let deploymentStatus := if success then "success" else "failure" in
  if strictEqStr noop "true" then ret "success - noop"
  else
    call (CreateDeploymentStatus ref deploymentStatus deployment_id environment
            environment_url)
         (createDeploymentStatus x ref deploymentStatus deployment_id environment
            environment_url) ;;;
    ret "success".

End PostDeploy.

(** ** main: the first phase of a run *)

Module Main.
Import JS Core Core.Notations EnvironmentTargets.

(** The process environment variables that [run] reads. *)
Record processEnv : Type := mkProcessEnv {
  GITHUB_SERVER_URL : jsval;
  GITHUB_RUN_ID : jsval
}.

(** The loop of [run] over [[isDeploy, isHelp]]: [Some r] when the loop
    returns [r] from [run], [None] when it runs to its end. *)
Fixpoint multipleTriggersLoop (triggers : list bool) (multipleTriggers : bool)
    (body : string) : M (option jsval) :=
  match triggers with
  | [] => ret None
  | trigger :: rest =>
      if trigger then
        if multipleTriggers then
          emit (SaveState "bypass" (VStr "true")) ;;;
          emit (SetOutput "triggered" (VStr "false")) ;;;
          emit (Info ("body: " ++ body)) ;;;
          emit (SetFailed
                  (VStr "IssueOps message contains multiple commands, only one is allowed")) ;;;
          ret (Some (VStr "failure"))
        else multipleTriggersLoop rest true body
      else multipleTriggersLoop rest multipleTriggers body
  end.

(** The help branch of [run]. *)
Definition helpCommand (x : externals) (reactionId : jsval) : M jsval :=
  emit (Debug "help command detected") ;;;
  validPermissionsRes <- ask (validPermissions x) ;;
  match validPermissionsRes with
  | VBool true =>
      call (Help reactionId) (help x reactionId) ;;;
      emit (SaveState "bypass" (VStr "true")) ;;;
      ret (VStr "safe-exit")
  | _ =>
      call (ActionStatus reactionId validPermissionsRes VUndefined)
           (actionStatus x reactionId validPermissionsRes VUndefined) ;;;
      emit (SaveState "bypass" (VStr "true")) ;;;
      emit (SetFailed validPermissionsRes) ;;;
      ret (VStr "failure")
  end.

Definition commentBody (x : externals) (ctx : context) (penv : processEnv)
    (owner repoName : string) (deploymentType : string) (environment : jsval)
    (ref : jsval) : string :=
  let log_url :=
    toString (GITHUB_SERVER_URL penv) ++ "/" ++ owner ++ "/" ++ repoName
    ++ "/actions/runs/" ++ toString (GITHUB_RUN_ID penv) in
  dedent x
    (nl ++ "      ### Deployment Triggered 🚀" ++ nl
     ++ nl
     ++ "      __" ++ toString (actor ctx) ++ "__, started a __" ++ deploymentType
     ++ "__ deployment to __" ++ toString environment ++ "__" ++ nl
     ++ nl
     ++ "      You can watch the progress [here](" ++ log_url ++ ") 🔗" ++ nl
     ++ nl
     ++ "      > __Branch__: `" ++ toString ref ++ "`" ++ nl
     ++ "    ").

Definition mergeMessage (x : externals) (message : jsval) : string :=
  dedent x
    (nl ++ "        ### ⚠️ Deployment Warning" ++ nl
     ++ nl
     ++ "        - Message: " ++ toString message ++ nl
     ++ "        - Note: If you have required CI checks, you may need to manually push a commit to re-run them" ++ nl
     ++ nl
     ++ "        > Deployment will not continue. Please try again once this branch is up-to-date with the base branch" ++ nl
     ++ "        ").

(** [typeof createDeploy.id === 'undefined' &&
     createDeploy.message.includes('Auto-merged')] *)
Definition mergeRequired (createDeploy : createDeployData) : M bool :=
  match cd_id createDeploy with
  | VUndefined =>
      match cd_message createDeploy with
      | VStr m => ret (includes m "Auto-merged")
      | VUndefined | VNull =>
          throw (typeError
            "Cannot read properties of undefined (reading 'includes')")
      | VBool _ | VNum _ =>
          throw (typeError "createDeploy.message.includes is not a function")
      end
  | _ => ret false
  end.

(** The part of [run] that follows the deployment comment when the
    prechecks did not report noop mode. *)
Definition createAndStart (x : externals) (ctx : context)
    (required_contexts production_environment update_branch : string)
    (environment : jsval) (environmentUrl : jsval) (reactionId : jsval)
    (precheckResults : precheckResults) : M jsval :=
  let requiredContexts :=
    if truthy (VStr required_contexts) && negb (required_contexts =? "")
       && negb (required_contexts =? "false")
    then map trim (split "," required_contexts)
    else [] in
  let productionEnvironment := strictEqStr environment (trim production_environment) in
  emit (Debug ("production_environment: "
               ++ toString (VBool productionEnvironment))) ;;;
  let auto_merge := if update_branch =? "disabled" then false else true in
  let req :=
    mkDeploymentRequest (pr_ref precheckResults) auto_merge requiredContexts
      environment productionEnvironment in
  createDeploy <- call (CreateDeployment req) (createDeployment x req) ;;
  emit (SetOutput "deployment_id" (cd_id createDeploy)) ;;;
  emit (SaveState "deployment_id" (cd_id createDeploy)) ;;;
  merge <- mergeRequired createDeploy ;;
  if merge then
    let mergeMessage := mergeMessage x (cd_message createDeploy) in
    call (ActionStatus reactionId (VStr mergeMessage) VUndefined)
         (actionStatus x reactionId (VStr mergeMessage) VUndefined) ;;;
    emit (Warning mergeMessage) ;;;
    emit (SaveState "bypass" (VStr "true")) ;;;
    ret (VStr "safe-exit")
  else
    call (CreateDeploymentStatus (pr_ref precheckResults) "in_progress"
            (cd_id createDeploy) environment environmentUrl)
         (createDeploymentStatus x (pr_ref precheckResults) "in_progress"
            (cd_id createDeploy) environment environmentUrl) ;;;
    emit (SetOutput "continue" (VStr "true")) ;;;
    ret (VStr "success").

(** The deploy branch of [run], from the environment lookup on. *)
Definition deployCommand (x : externals) (inputs : string -> string)
    (ctx : context) (penv : processEnv) (owner repoName : string)
    (environment body trigger noop_trigger stable_branch : string)
    (required_contexts production_environment update_branch : string)
    (environment_urls : string) (reactionId : jsval) : M jsval :=
  environmentObj <-
    environmentTargets x inputs environment body trigger noop_trigger
      stable_branch reactionId (VStr environment_urls) ;;
  let environment := eo_environment environmentObj in
  if negb (truthy environment) then
    emit (Debug "No valid environment targets found") ;;;
    ret (VStr "safe-exit")
  else
    emit (Info ("environment: " ++ toString environment)) ;;;
    emit (SaveState "environment" environment) ;;;
    emit (SetOutput "environment" environment) ;;;
    precheckResults <- ask (prechecks x body environment) ;;
    emit (SetOutput "ref" (pr_ref precheckResults)) ;;;
    emit (SaveState "ref" (pr_ref precheckResults)) ;;;
    emit (SetOutput "sha" (pr_sha precheckResults)) ;;;
    if negb (pr_status precheckResults) then
      call (ActionStatus reactionId (pr_message precheckResults) VUndefined)
           (actionStatus x reactionId (pr_message precheckResults) VUndefined) ;;;
      emit (SaveState "bypass" (VStr "true")) ;;;
      emit (SetFailed (pr_message precheckResults)) ;;;
      ret (VStr "failure")
    else
      let deploymentType := if pr_noopMode precheckResults then "noop" else "branch" in
      let commentBody :=
        commentBody x ctx penv owner repoName deploymentType environment
          (pr_ref precheckResults) in
      call (CreateComment commentBody) (createComment x commentBody) ;;;
      if pr_noopMode precheckResults then
        emit (SetOutput "noop" (VStr "true")) ;;;
        emit (SetOutput "continue" (VStr "true")) ;;;
        emit (SaveState "noop" (VStr "true")) ;;;
        emit (Info "noop mode detected") ;;;
        ret (VStr "success - noop")
      else
        emit (SetOutput "noop" (VStr "false")) ;;;
        emit (SaveState "noop" (VStr "false")) ;;;
        createAndStart x ctx required_contexts production_environment update_branch
          environment (eo_environmentUrl environmentObj) reactionId precheckResults.

(** The [try] block of [run]. *)
Definition runTry (x : externals) (inputs : string -> string) (ctx : context)
    (penv : processEnv) : M jsval :=
  trigger <- getInput inputs "trigger" false ;;
  reaction <- getInput inputs "reaction" false ;;
  prefix_only <- getInput inputs "prefix_only" false ;;
  let prefixOnly := prefix_only =? "true" in
  token <- getInput inputs "github_token" true ;;
  environment <- getInput inputs "environment" true ;;
  stable_branch <- getInput inputs "stable_branch" false ;;
  noop_trigger <- getInput inputs "noop_trigger" false ;;
  production_environment <- getInput inputs "production_environment" false ;;
  environment_targets <- getInput inputs "environment_targets" false ;;
  help_trigger <- getInput inputs "help_trigger" false ;;
  update_branch <- getInput inputs "update_branch" false ;;
  required_contexts <- getInput inputs "required_contexts" false ;;
  allow_forks <- getInput inputs "allow_forks" false ;;
  skipCi <- getInput inputs "skip_ci" false ;;
  skipReviews <- getInput inputs "skip_reviews" false ;;
  merge_deploy_mode <- getInput inputs "merge_deploy_mode" false ;;
  let mergeDeployMode := merge_deploy_mode =? "true" in
  admins <- getInput inputs "admins" false ;;
  environment_urls <- getInput inputs "environment_urls" false ;;
  ask (getOctokit x token) ;;;
  emit (SaveState "isPost" (VStr "true")) ;;;
  emit (SaveState "actionsToken" (VStr token)) ;;;
  if mergeDeployMode then
    emit (IdenticalCommitCheck environment) ;;;
    emit (SaveState "bypass" (VStr "true")) ;;;
    ret (VStr "success - merge deploy mode")
  else
    cmt <- match payload_comment ctx with
           | Some c => ret c
           | None => throw (typeError
                       "Cannot read properties of undefined (reading 'body')")
           end ;;
    let body := trim (c_body cmt) in
    validContext <- ask (contextCheck x ctx) ;;
    if negb validContext then ret (VStr "safe-exit")
    else
      issue_number <- match payload_issue_number ctx with
                      | Some n => ret n
                      | None => throw (typeError
                          "Cannot read properties of undefined (reading 'number')")
                      end ;;
      ownerRepo <- match repo ctx with
                   | Some p => ret p
                   | None => throw (mkError "Error"
                       "context.repo requires a GITHUB_REPOSITORY environment variable like 'owner/repo'")
                   end ;;
      let '(owner, repoName) := ownerRepo in
      isDeploy <- ask (triggerCheck x prefixOnly body trigger) ;;
      isHelp <- ask (triggerCheck x prefixOnly body help_trigger) ;;
      early <- multipleTriggersLoop [isDeploy; isHelp] false body ;;
      match early with
      | Some r => ret r
      | None =>
          if negb isDeploy && negb isHelp then
            emit (SaveState "bypass" (VStr "true")) ;;;
            emit (SetOutput "triggered" (VStr "false")) ;;;
            emit (Info "no trigger detected in comment - exiting") ;;;
            ret (VStr "safe-exit")
          else
            emit (SetOutput "type" (VStr (if isDeploy then "deploy" else "help"))) ;;;
            emit (SetOutput "triggered" (VStr "true")) ;;;
            reactRes <- call (ReactEmote reaction) (reactEmote x reaction) ;;
            emit (SetOutput "comment_id" (c_id cmt)) ;;;
            emit (SaveState "comment_id" (c_id cmt)) ;;;
            reactionId <- match reactRes with
                          | Some id => ret id
                          | None => throw (typeError
                              "Cannot read properties of undefined (reading 'data')")
                          end ;;
            emit (SetOutput "initial_reaction_id" reactionId) ;;;
            emit (SaveState "reaction_id" reactionId) ;;;
            login <- match c_user_login cmt with
                     | Some l => ret l
                     | None => throw (typeError
                         "Cannot read properties of undefined (reading 'login')")
                     end ;;
            emit (SetOutput "actor_handle" login) ;;;
            if isHelp then helpCommand x reactionId
            else
              deployCommand x inputs ctx penv owner repoName environment body
                trigger noop_trigger stable_branch required_contexts
                production_environment update_branch environment_urls reactionId
      end.

(** The [catch] block of [run]. It reads [error.stack] and
    [error.message]: of a thrown [null] or [undefined] that read fails,
    and the block throws; of any other value that is not an [Error]
    object both are [undefined]. *)
Definition catchBlock (error : thrown) : M jsval :=
  emit (SaveState "bypass" (VStr "true")) ;;;
  match error with
  | Err e =>
      emit (ErrorLog e) ;;;
      emit (SetFailed (VStr (errMessage e))) ;;;
      ret VUndefined
  | Raw VUndefined =>
      throw (typeError "Cannot read properties of undefined (reading 'stack')")
  | Raw VNull =>
      throw (typeError "Cannot read properties of null (reading 'stack')")
  | Raw _ =>
      emit (ErrorLogRaw VUndefined) ;;;
      emit (SetFailed VUndefined) ;;;
      ret VUndefined
  end.

(** [run]: the value it returns, [undefined] after a caught error. *)
Definition run (x : externals) (inputs : string -> string) (ctx : context)
    (penv : processEnv) : M jsval :=
  tryCatch (runTry x inputs ctx penv) catchBlock.

End Main.

(** ** A concrete setting for the scenarios *)

Module Scenario.
Import JS Core.

(** Sample collaborators that answer every call without an error:
    texts are dedented as dedent-js does, a trigger is found at the
    start of the comment or anywhere in it, the prechecks pass and
    report noop mode when the comment holds the word, a deployment gets
    the id 42. *)
Definition collaborators : externals :=
  {| dedent := dedentJs;
     parseInt := parseIntDigits;
     getOctokit := fun _ => Ret tt;
     contextCheck := fun _ => Ret true;
     triggerCheck := fun prefixOnly body trigger =>
       Ret (if prefixOnly then startsWith body trigger else includes body trigger);
     reactEmote := fun _ => Ret (Some (VNum 7));
     validPermissions := Ret (VBool true);
     actionStatus := fun _ _ _ => Ret tt;
     help := fun _ => Ret tt;
     prechecks := fun body _ =>
       Ret (mkPrecheckResults true (VStr "ok") (VStr "feature") (VStr "abc123")
              (includes body "noop"));
     createComment := fun _ => Ret tt;
     createDeployment := fun _ => Ret (mkCreateDeployData (VNum 42) VUndefined);
     createDeploymentStatus := fun _ _ _ _ _ => Ret tt |}.

(** A pull request comment by [monalisa]. *)
Definition commentContext (body : string) : context :=
  {| actor := VStr "monalisa";
     payload_comment := Some (mkComment body (VNum 1001) (Some (VStr "monalisa")));
     payload_issue_number := Some (VNum 5);
     repo := Some ("octo", "app");
     issue_number := VNum 5 |}.

(** The inputs of a workflow that sets the token, the default
    environment and the list of environment targets, and keeps the
    usual trigger phrases. *)
Definition workflowInputs (environment_targets : string) (name : string) : string :=
  if name =? "trigger" then ".deploy"
  else if name =? "help_trigger" then ".help"
  else if name =? "noop_trigger" then "noop"
  else if name =? "stable_branch" then "main"
  else if name =? "reaction" then "eyes"
  else if name =? "prefix_only" then "true"
  else if name =? "github_token" then "token"
  else if name =? "environment" then "production"
  else if name =? "production_environment" then "production"
  else if name =? "environment_targets" then environment_targets
  else if name =? "update_branch" then "warn"
  else "".

End Scenario.

(** ** Well-formed inputs and shapes of traces *)

Module Shapes.
Import JS Core EnvironmentTargets.

(** The six phrasings that name a target. *)
Definition phrasing (body trigger noop_trigger stable_branch e : string) : Prop :=
  body = trigger ++ " " ++ e
  \/ body = trigger ++ " to " ++ e
  \/ body = trigger ++ " " ++ noop_trigger ++ " " ++ e
  \/ body = trigger ++ " " ++ noop_trigger ++ " to " ++ e
  \/ body = trigger ++ " " ++ stable_branch ++ " " ++ e
  \/ body = trigger ++ " " ++ stable_branch ++ " to " ++ e.

(** A computation none of whose events satisfies [p]. *)
Definition avoids {A} (p : event -> bool) (m : M A) : Prop :=
  forallb (fun ev => negb (p ev)) (events m) = true.

(** A printable ASCII character other than the space. *)
Definition visible (c : ascii) : bool :=
  (33 <=? code c)%nat && (code c <=? 126)%nat.

(** A visible character that is neither of the two separators of the
    [environment_urls] input. *)
Definition plainChar (c : ascii) : bool :=
  visible c && negb (Ascii.eqb c ",") && negb (Ascii.eqb c "|").

Fixpoint allChars (p : ascii -> bool) (s : string) : bool :=
  match s with
  | EmptyString => true
  | String c r => p c && allChars p r
  end.

(** A name or URL as it can stand in a pair: visible characters, no
    comma and no bar. *)
Definition plain (s : string) : bool := allChars plainChar s.

(** The input text of a list of (environment, URL) pairs. *)
Definition renderPair (p : string * string) : string := fst p ++ "|" ++ snd p.
Definition renderPairs (ps : list (string * string)) : string :=
  join "," (map renderPair ps).

(** A pair whose name and URL are both plain. *)
Definition plainPair (p : string * string) : Prop :=
  plain (fst p) = true /\ plain (snd p) = true.

(** The lookup read on the list of pairs: the first pair of the
    environment decides, unless its URL lacks the http(s) schema, in
    which case the search goes on. *)
Fixpoint lookupUrl (environment : string) (ps : list (string * string)) : jsval :=
  match ps with
  | [] => VNull
  | (name, url) :: rest =>
      if name =? environment then
        if url =? "disabled" then VNull
        else if matchesHttpSchema url then VStr url
        else lookupUrl environment rest
      else lookupUrl environment rest
  end.

(** What the lookup leaves in the state and in the outputs for the value
    [v] that it returns. *)
Definition recorded (v : jsval) : jsval :=
  match v with
  | VStr url => VStr url
  | _ => VStr "null"
  end.

(** A custom message as a sequence of plain text and escapes. *)
Inductive piece : Type :=
| Text (s : string)
| EscapedNewline
| EscapedTab.

Definition backslash : ascii := ascii_of_nat 92.

(** The message as the workflow writes it, with [\n] and [\t]. *)
Fixpoint written (ps : list piece) : string :=
  match ps with
  | [] => EmptyString
  | Text s :: rest => s ++ written rest
  | EscapedNewline :: rest => String backslash (String "n" (written rest))
  | EscapedTab :: rest => String backslash (String "t" (written rest))
  end.

(** The message as the comment shows it. *)
Fixpoint shown (ps : list piece) : string :=
  match ps with
  | [] => EmptyString
  | Text s :: rest => s ++ shown rest
  | EscapedNewline :: rest => nl ++ shown rest
  | EscapedTab :: rest => tab ++ shown rest
  end.

(** The message after the first of the two replacements: the newline
    escapes are gone, the tab escapes are still there. *)
Fixpoint afterNewlines (ps : list piece) : string :=
  match ps with
  | [] => EmptyString
  | Text s :: rest => s ++ afterNewlines rest
  | EscapedNewline :: rest => nl ++ afterNewlines rest
  | EscapedTab :: rest => String backslash (String "t" (afterNewlines rest))
  end.

Definition noBackslash (s : string) : bool :=
  allChars (fun c => negb (Ascii.eqb c backslash)) s.

Definition textWithoutBackslash (p : piece) : bool :=
  match p with
  | Text s => noBackslash s
  | _ => true
  end.

(** A text without a line break. *)
Definition oneLine (s : string) : bool :=
  allChars (fun c => negb (isLineFeed c) && negb (isReturn c)) s.

(** A text none of whose line feeds is followed by a tab or a space. *)
Fixpoint flushLeft (s : string) : bool :=
  match s with
  | EmptyString => true
  | String c r =>
      (if isLineFeed c then (indentRun r =? 0)%nat else true) && flushLeft r
  end.

(** A text whose last character is a carriage return. *)
Fixpoint endsWithReturn (s : string) : bool :=
  match s with
  | EmptyString => false
  | String c EmptyString => isReturn c
  | String _ r => endsWithReturn r
  end.

(** A thrown value of which nothing can be read: [null] or
    [undefined]. *)
Definition nullish (t : thrown) : bool :=
  match t with
  | Raw VNull | Raw VUndefined => true
  | _ => false
  end.

(** An event that saves the bypass state. *)
Definition savesBypass (ev : event) : bool :=
  match ev with
  | SaveState name _ => name =? "bypass"
  | _ => false
  end.

Definition noBypass (t : list event) : bool :=
  forallb (fun ev => negb (savesBypass ev)) t.

Definition hasState (name : string) (t : list event) : bool :=
  match savedState name t with
  | Some _ => true
  | None => false
  end.

(** The values that [run] documents as its results, and [undefined]
    for the end of its [catch] block. *)
Definition documentedReturn (v : jsval) : bool :=
  match v with
  | VUndefined => true
  | VStr s =>
      (s =? "success") || (s =? "success - noop")
      || (s =? "success - merge deploy mode") || (s =? "failure")
      || (s =? "safe-exit")
  | _ => false
  end.

(** The order of the deployment calls of a run: nothing yet (0), a
    deployment requested (1), its status set (2). A trace is in order
    when a deployment is requested at most once and the only status
    call follows it and sets ['in_progress']. *)
Fixpoint deploymentOrder (stage : nat) (t : list event) : bool :=
  match t with
  | [] => true
  | CreateDeployment _ :: rest =>
      match stage with
      | 0 => deploymentOrder 1 rest
      | _ => false
      end
  | CreateDeploymentStatus _ state _ _ _ :: rest =>
      match stage with
      | 1 => (state =? "in_progress") && deploymentOrder 2 rest
      | _ => false
      end
  | _ :: rest => deploymentOrder stage rest
  end.

(** A computation that has saved the state [name] whenever it returns
    the text [r]. *)
Definition keeps (name r : string) (m : M jsval) : Prop :=
  outcome m = Ret (VStr r) -> hasState name (events m) = true.

(** A computation that hands over to the completion phase: it returns
    ['success'] or ['success - noop']. *)
Definition handsOver (m : M jsval) : Prop :=
  outcome m = Ret (VStr "success") \/ outcome m = Ret (VStr "success - noop").

(** A computation that has not saved the bypass state when it hands
    over. *)
Definition ready (m : M jsval) : Prop :=
  handsOver m -> noBypass (events m) = true.

(** A computation that returns documented values only. *)
Definition documented (m : M jsval) : Prop :=
  forall v, outcome m = Ret v -> documentedReturn v = true.

(** A computation whose deployment calls are in order. *)
Definition ordered (m : M jsval) : Prop :=
  deploymentOrder 0 (events m) = true.

(** The events of [run] up to the choice between the help and the
    deploy branch. *)
Definition triggeredPrefix (token type reaction : string)
    (commentId reactionId login : jsval) : list event :=
  [SaveState "isPost" (VStr "true");
   SaveState "actionsToken" (VStr token);
   SetOutput "type" (VStr type);
   SetOutput "triggered" (VStr "true");
   ReactEmote reaction;
   SetOutput "comment_id" commentId;
   SaveState "comment_id" commentId;
   SetOutput "initial_reaction_id" reactionId;
   SaveState "reaction_id" reactionId;
   SetOutput "actor_handle" login].

End Shapes.

(** ** Collaborators that answer differently *)

Module Variants.
Import JS Core.

(** [x] with other prechecks. *)
Definition withPrechecks (x : externals)
    (p : string -> jsval -> result precheckResults) : externals :=
  {| dedent := dedent x;
     parseInt := parseInt x;
     getOctokit := getOctokit x;
     contextCheck := contextCheck x;
     triggerCheck := triggerCheck x;
     reactEmote := reactEmote x;
     validPermissions := validPermissions x;
     actionStatus := actionStatus x;
     help := help x;
     prechecks := p;
     createComment := createComment x;
     createDeployment := createDeployment x;
     createDeploymentStatus := createDeploymentStatus x |}.

(** [x] with another answer to the deployment request. *)
Definition withCreateDeployment (x : externals)
    (c : deploymentRequest -> result createDeployData) : externals :=
  {| dedent := dedent x;
     parseInt := parseInt x;
     getOctokit := getOctokit x;
     contextCheck := contextCheck x;
     triggerCheck := triggerCheck x;
     reactEmote := reactEmote x;
     validPermissions := validPermissions x;
     actionStatus := actionStatus x;
     help := help x;
     prechecks := prechecks x;
     createComment := createComment x;
     createDeployment := c;
     createDeploymentStatus := createDeploymentStatus x |}.

(** Prechecks that reject the deployment. *)
Definition rejecting : externals :=
  withPrechecks Scenario.collaborators
    (fun _ _ =>
       Ret (mkPrecheckResults false (VStr "checks are failing") (VStr "feature")
              (VStr "abc123") false)).

(** A platform that asks for a merge of the base branch first. *)
Definition mergePending : externals :=
  withCreateDeployment Scenario.collaborators
    (fun _ =>
       Ret (mkCreateDeployData VUndefined
              (VStr "Auto-merged main into feature on deployment."))).

End Variants.

(** ** Facts about the string primitives *)

Module JSFacts.
Import JS.

Lemma stripPrefix_app (p s : string) : stripPrefix p (p ++ s) = Some s.
Proof.
  induction p as [|a p IH]; cbn; [reflexivity|].
  now rewrite Ascii.eqb_refl.
Qed.

Lemma replace_unfold (s pat rep : string) :
  replace s pat rep =
  match stripPrefix pat s with
  | Some rest => rep ++ rest
  | None =>
      match s with
      | EmptyString => EmptyString
      | String c r => String c (replace r pat rep)
      end
  end.
Proof. destruct s; reflexivity. Qed.

(** Removing a phrase from a text that starts with it leaves the rest. *)
Lemma replace_prefix (p s : string) : replace (p ++ s) p "" = s.
Proof. now rewrite replace_unfold, stripPrefix_app. Qed.

Lemma replace_self (p : string) : replace p p "" = "".
Proof.
  rewrite replace_unfold.
  replace (stripPrefix p p) with (stripPrefix p (p ++ "")).
  - now rewrite stripPrefix_app.
  - f_equal. induction p as [|a p IH]; cbn; congruence.
Qed.

Lemma stripPrefix_length (p s r : string) :
  stripPrefix p s = Some r -> String.length s = String.length p + String.length r.
Proof.
  revert s; induction p as [|a p IH]; intros s H; cbn in *.
  - now inversion H.
  - destruct s as [|b s]; [discriminate|].
    destruct (Ascii.eqb a b); [|discriminate].
    cbn. now rewrite (IH _ H).
Qed.

(** A phrase longer than the text does not occur in it. *)
Lemma replace_too_long (s pat rep : string) :
  String.length s < String.length pat -> replace s pat rep = s.
Proof.
  induction s as [|c s IH]; intros Hlen; rewrite replace_unfold.
  - destruct (stripPrefix pat "") eqn:E; [|reflexivity].
    apply stripPrefix_length in E. cbn in *. lia.
  - destruct (stripPrefix pat (String c s)) eqn:E.
    + apply stripPrefix_length in E. cbn in *. lia.
    + rewrite IH; [reflexivity|]. cbn in Hlen. lia.
Qed.

Lemma replace_absent (s pat : string) :
  includes s pat = false -> replace s pat "" = s.
Proof.
  induction s as [|c s IH]; intros H; rewrite replace_unfold;
    cbn [includes] in H; unfold startsWith in H.
  - destruct (stripPrefix pat ""); [discriminate|reflexivity].
  - destruct (stripPrefix pat (String c s)); [discriminate|].
    now rewrite IH.
Qed.

Lemma length_app (s t : string) :
  String.length (s ++ t) = String.length s + String.length t.
Proof. induction s as [|c s IH]; cbn; congruence. Qed.

Lemma app_same_l (s t : string) : s = s ++ t -> t = "".
Proof.
  intros H. apply (f_equal String.length) in H. rewrite length_app in H.
  destruct t; [reflexivity|]. cbn in H. lia.
Qed.

(** [trimStart] returns a suffix: it is shorter, or nothing was cut. *)
Lemma trimStart_shorter_or_same (n : nat) :
  forall s, String.length s <= n ->
    trimStart s = s \/ String.length (trimStart s) < String.length s.
Proof.
  induction n as [|n IH]; intros s Hn.
  - destruct s; [now left|cbn in Hn; lia].
  - destruct s as [|c1 r1]; [now left|].
    cbn [trimStart]. cbn [String.length] in *.
    destruct (ws1 c1).
    { right. destruct (IH r1) as [E|L]; [lia|rewrite E|]; lia. }
    destruct r1 as [|c2 r2]; [now left|]. cbn [String.length] in *.
    destruct (ws2 c1 c2).
    { right. destruct (IH r2) as [E|L]; [lia|rewrite E|]; lia. }
    destruct r2 as [|c3 r3]; [now left|]. cbn [String.length] in *.
    destruct (ws3 c1 c2 c3); [|now left].
    right. destruct (IH r3) as [E|L]; [lia|rewrite E|]; lia.
Qed.

Lemma trimStart_length (s : string) :
  String.length (trimStart s) <= String.length s.
Proof.
  destruct (trimStart_shorter_or_same (String.length s) s) as [E|L];
    [lia|rewrite E|]; lia.
Qed.

Lemma trimEnd_length (s : string) :
  String.length (trimEnd s) <= String.length s.
Proof.
  induction s as [|c s IH]; [cbn; lia|].
  cbn [trimEnd]. destruct (blank (String c s)); cbn; lia.
Qed.

(** A string that [trim] leaves alone has no white space at either end. *)
Lemma trim_fixed (e : string) :
  trim e = e -> trimStart e = e /\ trimEnd e = e.
Proof.
  unfold trim. intros H.
  assert (Hs : trimStart e = e).
  { destruct (trimStart_shorter_or_same (String.length e) e) as [E|L];
      [lia|exact E|].
    pose proof (trimEnd_length (trimStart e)) as Hle.
    rewrite H in Hle. lia. }
  split; [exact Hs|]. now rewrite Hs in H.
Qed.

Lemma trimEnd_fixed_not_blank (e : string) :
  e <> "" -> trimEnd e = e -> blank e = false.
Proof.
  destruct e as [|c r]; [congruence|].
  intros _. cbn [trimEnd]. destruct (blank (String c r)); [discriminate|reflexivity].
Qed.

(** The remainder [" to e"] of a comment trims to ["to e"]. *)
Lemma trim_to (e : string) :
  e <> "" -> trim e = e -> trim (" to " ++ e) = "to " ++ e.
Proof.
  intros Hne Ht. destruct (trim_fixed e Ht) as [Hs He].
  pose proof (trimEnd_fixed_not_blank e Hne He) as Hb.
  assert (Hb' : blank (String " " e) = false) by exact Hb.
  unfold trim.
  change (trimStart (" to " ++ e)) with ("to " ++ e).
  change ("to " ++ e) with (String "t" (String "o" (String " " e))).
  cbn [trimEnd].
  change (blank (String "t" (String "o" (String " " e)))) with false.
  assert (Ho : blank (String "o" (String " " e)) = false)
    by (destruct e; [congruence|reflexivity]).
  rewrite Ho, Hb'. now rewrite He.
Qed.

End JSFacts.

(** ** Facts about dedent-js *)

Module DedentFacts.
Import JS Shapes.

Lemma append_nil_r (s : string) : s ++ "" = s.
Proof. induction s as [|c s IH]; cbn; [reflexivity|now rewrite IH]. Qed.

Lemma allTabsOrSpaces_app (a b : string) :
  allTabsOrSpaces (a ++ b) = allTabsOrSpaces a && allTabsOrSpaces b.
Proof.
  induction a as [|c a IH]; cbn; [reflexivity|].
  now rewrite IH, andb_assoc.
Qed.

Lemma endsWithReturn_cons (c : ascii) (s : string) :
  endsWithReturn (String c s) = false -> endsWithReturn s = false.
Proof. destruct s; [reflexivity|]. cbn. trivial. Qed.

Lemma oneLine_app (a b : string) : oneLine (a ++ b) = oneLine a && oneLine b.
Proof.
  unfold oneLine. induction a as [|c a IH]; cbn; [reflexivity|].
  now rewrite IH, andb_assoc.
Qed.

Lemma oneLine_endsWithReturn (s : string) :
  oneLine s = true -> endsWithReturn s = false.
Proof.
  unfold oneLine. induction s as [|c s IH]; [reflexivity|].
  cbn [allChars]. rewrite !andb_true_iff, !negb_true_iff.
  intros [[_ Hr] Hs]. destruct s; [exact Hr|]. cbn. apply IH, Hs.
Qed.

(** Step 1 leaves a text alone as long as something other than tabs and
    spaces follows. *)
Lemma dropLastBreak_app (a b : string) :
  allTabsOrSpaces b = false -> isLastBreak (String "013" b) = false ->
  dropLastBreak (a ++ b) = a ++ dropLastBreak b.
Proof.
  intros Hb Hr. induction a as [|c a IH]; [reflexivity|].
  cbn [append].
  assert (E : isLastBreak (String c (a ++ b)) = false).
  { unfold isLastBreak. destruct (isLineFeed c).
    - now rewrite allTabsOrSpaces_app, Hb, andb_false_r.
    - destruct (isReturn c); [|reflexivity].
      destruct a as [|d a]; [exact Hr|].
      cbn [append]. now rewrite allTabsOrSpaces_app, Hb, !andb_false_r. }
  cbn [dropLastBreak]. rewrite E. now rewrite IH.
Qed.

(** The same for a text that does not end in a carriage return. *)
Lemma dropLastBreak_text (a b : string) :
  allTabsOrSpaces b = false -> endsWithReturn a = false ->
  dropLastBreak (a ++ b) = a ++ dropLastBreak b.
Proof.
  intros Hb. induction a as [|c a IH]; intros Ha; [reflexivity|].
  cbn [append].
  assert (E : isLastBreak (String c (a ++ b)) = false).
  { unfold isLastBreak. destruct (isLineFeed c).
    - now rewrite allTabsOrSpaces_app, Hb, andb_false_r.
    - destruct (isReturn c) eqn:Hc; [|reflexivity].
      destruct a as [|d a]; [cbn in Ha; congruence|].
      cbn [append]. now rewrite allTabsOrSpaces_app, Hb, !andb_false_r. }
  cbn [dropLastBreak]. rewrite E. rewrite IH; [reflexivity|].
  now apply endsWithReturn_cons in Ha.
Qed.

Lemma allTabsOrSpaces_nl (a w : string) : allTabsOrSpaces (a ++ nl ++ w) = false.
Proof. rewrite allTabsOrSpaces_app. apply andb_false_r. Qed.

(** Step 1 removes the last line break and the indentation behind it. *)
Lemma dropLastBreak_end (a w : string) :
  allTabsOrSpaces w = true -> endsWithReturn a = false ->
  dropLastBreak (a ++ nl ++ w) = a.
Proof.
  intros Hw. induction a as [|c a IH]; intros Ha.
  - cbn. now rewrite Hw.
  - cbn [append].
    assert (E : isLastBreak (String c (a ++ nl ++ w)) = false).
    { unfold isLastBreak. destruct (isLineFeed c).
      - apply allTabsOrSpaces_nl.
      - destruct (isReturn c) eqn:Hc; [|reflexivity].
        destruct a as [|d a]; [cbn in Ha; congruence|].
        cbn [append]. now rewrite allTabsOrSpaces_nl, andb_false_r. }
    cbn [dropLastBreak]. rewrite E. rewrite IH; [reflexivity|].
    now apply endsWithReturn_cons in Ha.
Qed.

Lemma indentRun_app_0 (a b : string) :
  indentRun a = 0 -> indentRun b = 0 -> indentRun (a ++ b) = 0.
Proof.
  destruct a as [|c a]; [trivial|]. cbn. destruct (isTabOrSpace c); trivial.
  discriminate.
Qed.

(** Step 2 finds nothing in a text that is flush left. *)
Lemma indents_flush (a b : string) :
  flushLeft a = true -> indentRun b = 0 -> indents (a ++ b) = indents b.
Proof.
  intros Ha Hb. induction a as [|c a IH]; [reflexivity|].
  cbn [flushLeft] in Ha. apply andb_true_iff in Ha. destruct Ha as [Hc Ha].
  cbn [append indents]. rewrite (IH Ha).
  destruct (isLineFeed c); [|reflexivity].
  apply Nat.eqb_eq in Hc. now rewrite (indentRun_app_0 _ _ Hc Hb).
Qed.

Lemma indents_line (a b : string) :
  oneLine a = true -> indents (a ++ b) = indents b.
Proof.
  unfold oneLine. induction a as [|c a IH]; [reflexivity|].
  cbn [allChars]. rewrite !andb_true_iff, !negb_true_iff.
  intros [[Hc _] Hs]. cbn [append indents]. now rewrite Hc, IH.
Qed.

Lemma indents_line_end (a : string) : oneLine a = true -> indents a = [].
Proof.
  intros H. rewrite <- (append_nil_r a). now rewrite indents_line.
Qed.

(** Step 3 passes over a text that is flush left. *)
Lemma unindent_flush (size : nat) (a b : string) :
  flushLeft a = true -> indentRun b = 0 -> 0 < size ->
  unindent size 0 (a ++ b) = a ++ unindent size 0 b.
Proof.
  intros Ha Hb Hs. induction a as [|c a IH]; [reflexivity|].
  cbn [flushLeft] in Ha. apply andb_true_iff in Ha. destruct Ha as [Hc Ha].
  cbn [append unindent]. rewrite (IH Ha).
  destruct (isLineFeed c); [|reflexivity].
  apply Nat.eqb_eq in Hc. rewrite (indentRun_app_0 _ _ Hc Hb).
  destruct size; [lia|reflexivity].
Qed.

Lemma unindent_line (size : nat) (a b : string) :
  oneLine a = true -> unindent size 0 (a ++ b) = a ++ unindent size 0 b.
Proof.
  unfold oneLine. induction a as [|c a IH]; [reflexivity|].
  cbn [allChars]. rewrite !andb_true_iff, !negb_true_iff.
  intros [[Hc _] Hs]. cbn [append unindent]. now rewrite Hc, IH.
Qed.

Lemma unindent_line_end (size : nat) (a : string) :
  oneLine a = true -> unindent size 0 a = a.
Proof.
  intros H. rewrite <- (append_nil_r a) at 1.
  rewrite unindent_line by exact H. cbn. apply append_nil_r.
Qed.

Lemma indents_nl_flush (r : string) :
  indentRun r = 0 -> indents (nl ++ r) = indents r.
Proof. intros H. cbn. now rewrite H. Qed.

Lemma indents_nl_indented (k : nat) (r : string) :
  indentRun r = S k -> indents (nl ++ r) = S k :: indents r.
Proof. intros H. cbn. now rewrite H. Qed.

Lemma unindent_nl_flush (size : nat) (r : string) :
  (size <=? indentRun r)%nat = false ->
  unindent size 0 (nl ++ r) = nl ++ unindent size 0 r.
Proof. intros H. cbn. now rewrite H. Qed.

Lemma unindent_nl_indented (size : nat) (r : string) :
  (size <=? indentRun r)%nat = true ->
  unindent size 0 (nl ++ r) = nl ++ unindent size size r.
Proof. intros H. cbn. now rewrite H. Qed.

Lemma unindent_skip (size k : nat) (c : ascii) (a r : string) :
  unindent size (S k) (String c a ++ r) = unindent size k (a ++ r).
Proof. reflexivity. Qed.

Lemma unindent_skipped (size : nat) (r : string) :
  unindent size 0 ("" ++ r) = unindent size 0 r.
Proof. reflexivity. Qed.

(** The side conditions of the lemmas above, for the texts of the
    comments. *)
Ltac inked :=
  first [ reflexivity
        | match goal with
          | |- allTabsOrSpaces (?a ++ _) = false => apply (allTabsOrSpaces_nl a)
          end
        | match goal with
          | |- allTabsOrSpaces (_ ++ ?a ++ _) = false =>
              rewrite allTabsOrSpaces_app, (allTabsOrSpaces_nl a); apply andb_false_r
          end ].

Ltac unbroken :=
  first [ reflexivity | apply oneLine_endsWithReturn; assumption ].

Ltac pass_break :=
  repeat match goal with
         | |- context [dropLastBreak (?a ++ _)] =>
             first [ rewrite (dropLastBreak_text a); [|inked|unbroken]
                   | rewrite (dropLastBreak_app a); [|reflexivity|reflexivity] ]
         end.

Ltac pass_indents :=
  repeat match goal with
         | |- context [indents (nl ++ ?r)] =>
             first [ rewrite (indents_nl_flush r) by reflexivity
                   | erewrite (indents_nl_indented _ r) by reflexivity ]
         | |- context [indents (?a ++ _)] =>
             first [ rewrite (indents_line a) by (reflexivity || assumption)
                   | rewrite (indents_flush a) by (reflexivity || assumption) ]
         end.

Ltac pass_unindent :=
  repeat match goal with
         | |- context [unindent ?n 0 (nl ++ ?r)] =>
             first [ rewrite (unindent_nl_indented n r) by reflexivity
                   | rewrite (unindent_nl_flush n r) by reflexivity ]
         | |- context [unindent _ (S _) (String _ _ ++ _)] => rewrite unindent_skip
         | |- context [unindent _ 0 (EmptyString ++ _)] => rewrite unindent_skipped
         | |- context [unindent ?n 0 (?a ++ _)] =>
             first [ rewrite (unindent_line n a) by (reflexivity || assumption)
                   | rewrite (unindent_flush n a) by (reflexivity || assumption || lia) ]
         end.

Ltac shortest k :=
  match goal with
  | |- context [unindent ?n 0 _] => change n with k
  end.

(** The results comment without a custom message, dedented. *)
Lemma dedent_results (mark sentence : string) :
  oneLine mark = true -> oneLine sentence = true ->
  dedentJs (nl ++ "    ### Deployment Results " ++ mark ++ nl
            ++ "  " ++ nl
            ++ "    " ++ sentence ++ nl
            ++ "    ")
  = "  ### Deployment Results " ++ mark ++ nl ++ nl ++ "  " ++ sentence.
Proof.
  intros Hm Hs. unfold dedentJs. pass_break.
  change (dropLastBreak (nl ++ "    ")) with "". rewrite (append_nil_r sentence).
  pass_indents. rewrite (indents_line_end sentence) by exact Hs.
  shortest 2. pass_unindent.
  rewrite (unindent_line_end 2 sentence) by exact Hs.
  reflexivity.
Qed.

(** The results comment with a custom message, dedented: the message
    stands in it as it is when none of its line feeds is followed by a
    tab or a space. *)
Lemma dedent_results_custom (mark sentence custom : string) :
  oneLine mark = true -> oneLine sentence = true -> flushLeft custom = true ->
  dedentJs (nl ++ "    ### Deployment Results " ++ mark ++ nl
            ++ nl
            ++ "    " ++ sentence ++ nl
            ++ "  " ++ nl
            ++ "    <details><summary>Show Results</summary>" ++ nl
            ++ "  " ++ nl
            ++ "    " ++ custom ++ nl
            ++ "  " ++ nl
            ++ "    </details>" ++ nl
            ++ "    ")
  = "  ### Deployment Results " ++ mark ++ nl
    ++ nl
    ++ "  " ++ sentence ++ nl
    ++ nl
    ++ "  <details><summary>Show Results</summary>" ++ nl
    ++ nl
    ++ "  " ++ custom ++ nl
    ++ nl
    ++ "  </details>".
Proof.
  intros Hm Hs Hc. unfold dedentJs. pass_break.
  change ("    </details>" ++ dropLastBreak (nl ++ "    ")) with "    </details>".
  pass_indents.
  change (indents "    </details>") with (@nil nat).
  shortest 2. pass_unindent.
  reflexivity.
Qed.

End DedentFacts.

(** ** Environment resolution *)

Module Resolution.
Import JS Core Core.Notations EnvironmentTargets JSFacts.

Ltac split_conditions :=
  repeat match goal with
         | |- context [if ?c then _ else _] => destruct c eqn:?; cbn
         end.

(** What the loop does with its first candidate: the candidate when one
    of the six explicit rules accepts it, else the default environment
    when the comment is a bare phrase, else the rest of the list. *)
Lemma onDeploymentChecks_cons
    (target : string) (rest : list string)
    (body trigger noop_trigger stable_branch environment : string) :
  outcome (onDeploymentChecks (target :: rest) body trigger noop_trigger
             stable_branch environment) =
  if namesTarget target body trigger noop_trigger stable_branch
  then Ret (Some target)
  else if barePhrase body trigger noop_trigger stable_branch
       then Ret (Some environment)
       else outcome (onDeploymentChecks rest body trigger noop_trigger
                       stable_branch environment).
Proof.
  unfold namesTarget, barePhrase. cbn [onDeploymentChecks].
  split_conditions; reflexivity.
Qed.

(** The comment ["<trigger> to <e>"] names [e] by the third rule. *)
Lemma namesTarget_to (e body trigger noop_trigger stable_branch : string) :
  e <> "" -> trim e = e -> body = trigger ++ " to " ++ e ->
  namesTarget e body trigger noop_trigger stable_branch = true.
Proof.
  intros Hne Ht ->. unfold namesTarget.
  rewrite replace_prefix, (trim_to e Hne Ht), String.eqb_refl.
  rewrite orb_true_r. reflexivity.
Qed.

(** What the explicit rules make of the bare trigger phrase. *)
Lemma namesTarget_bare_trigger (target trigger noop_trigger stable_branch : string) :
  trim trigger = trigger ->
  namesTarget target trigger trigger noop_trigger stable_branch =
  (("" =? target) || (trigger =? target) || (trigger =? "to " ++ target)).
Proof.
  intros Ht. unfold namesTarget.
  rewrite replace_self.
  rewrite !replace_too_long
    by (rewrite !length_app; cbn; lia).
  change (trim "") with "". rewrite Ht.
  change ("" =? "to " ++ target) with false.
  destruct ("" =? target), (trigger =? target), (trigger =? "to " ++ target);
    reflexivity.
Qed.

(** C1, as the code has it: for a comment of the exact form
    ["<trigger> to <e>"], where [e] is a configured target that is not
    empty and has no white space around it, resolution returns [e]
    provided no target configured before the first [e] is itself
    accepted by a rule of the resolver on that comment (always so when
    [e] comes first). Targets are tried in the configured order and the
    first accepted one wins, so a duplicate of [e] later in the list
    changes nothing. *)
Theorem explicit_target_resolution
    (before after : list string)
    (e body trigger noop_trigger stable_branch environment : string) :
  e <> "" ->
  trim e = e ->
  body = trigger ++ " to " ++ e ->
  (forall t, In t before ->
     namesTarget t body trigger noop_trigger stable_branch = false
     /\ barePhrase body trigger noop_trigger stable_branch = false) ->
  outcome (onDeploymentChecks (before ++ e :: after) body trigger noop_trigger
             stable_branch environment) = Ret (Some e).
Proof.
  intros Hne Ht Hbody Hbefore.
  induction before as [|t before IH]; cbn [app]; rewrite onDeploymentChecks_cons.
  - now rewrite (namesTarget_to e body trigger noop_trigger stable_branch Hne Ht Hbody).
  - destruct (Hbefore t (or_introl eq_refl)) as [-> ->].
    apply IH. intros t' Hin. apply Hbefore. now right.
Qed.

Lemma explicit_target_resolution_witness :
  outcome (onDeploymentChecks (["production"] ++ "staging" :: ["staging"])
             ".deploy to staging" ".deploy" "noop" "main" "production")
  = Ret (Some "staging").
Proof.
  apply (explicit_target_resolution ["production"] ["staging"] "staging"
           ".deploy to staging" ".deploy" "noop" "main" "production").
  - discriminate.
  - reflexivity.
  - reflexivity.
  - intros t [ <- | Hnone ]; [split; reflexivity|destruct Hnone].
Defined.

(** C1 as stated fails: a target configured before [e] can be accepted
    first. With the targets ["to staging"] and ["staging"], the comment
    [".deploy to staging"] resolves to ["to staging"]. *)
Lemma explicit_target_counterexample :
  ~ (forall (E : list string) (e body trigger noop_trigger stable_branch
             environment : string),
       E <> [] -> In e E -> body = trigger ++ " to " ++ e ->
       outcome (onDeploymentChecks E body trigger noop_trigger stable_branch
                  environment) = Ret (Some e)).
Proof.
  intros H.
  specialize (H ["to staging"; "staging"] "staging" ".deploy to staging"
                ".deploy" "noop" "main" "production").
  assert (Hin : In "staging" ["to staging"; "staging"]) by (right; left; reflexivity).
  specialize (H ltac:(discriminate) Hin eq_refl).
  vm_compute in H. discriminate H.
Qed.

(** C2, as the code has it: for a target list whose first target is
    not the empty name and a comment that trims to exactly the trigger
    phrase, the trigger and noop phrase, or the trigger and
    stable-branch phrase, resolution never fails. It returns the
    default environment unless the first configured target is itself
    accepted by one of the explicit-target rules on that comment (a
    target spelled like the noop trigger or the stable branch, for
    one), and then it returns that first target. *)
Theorem bare_phrase_resolution
    (target : string) (rest : list string)
    (body trigger noop_trigger stable_branch environment : string) :
  target <> "" ->
  trim body = trigger
  \/ trim body = trigger ++ " " ++ noop_trigger
  \/ trim body = trigger ++ " " ++ stable_branch ->
  outcome (onDeploymentChecks (target :: rest) body trigger noop_trigger
             stable_branch environment)
  = Ret (Some (if namesTarget target body trigger noop_trigger stable_branch
               then target else environment)).
Proof.
  intros _ Hbare. rewrite onDeploymentChecks_cons.
  assert (Hb : barePhrase body trigger noop_trigger stable_branch = true).
  { unfold barePhrase.
    destruct Hbare as [ -> | [ -> | -> ] ]; rewrite String.eqb_refl;
      rewrite ?orb_true_r; reflexivity. }
  rewrite Hb. destruct (namesTarget _ _ _ _ _); reflexivity.
Qed.

Lemma bare_phrase_resolution_witness :
  outcome (onDeploymentChecks ("production" :: ["staging"]) ".deploy noop"
             ".deploy" "noop" "main" "production")
  = Ret (Some "production").
Proof.
  apply (bare_phrase_resolution "production" ["staging"] ".deploy noop"
           ".deploy" "noop" "main" "production").
  - discriminate.
  - right; left; reflexivity.
Defined.

(** For the bare trigger phrase the condition is explicit: the default
    environment is returned when the first target is not empty, is not
    the trigger itself and does not turn the trigger into
    ["to <target>"]. *)
Corollary bare_trigger_default
    (target : string) (rest : list string)
    (trigger noop_trigger stable_branch environment : string) :
  trim trigger = trigger ->
  target <> "" -> target <> trigger -> trigger <> "to " ++ target ->
  outcome (onDeploymentChecks (target :: rest) trigger trigger noop_trigger
             stable_branch environment) = Ret (Some environment).
Proof.
  intros Ht H1 H2 H3.
  rewrite onDeploymentChecks_cons, (namesTarget_bare_trigger _ _ _ _ Ht).
  unfold barePhrase. rewrite Ht, String.eqb_refl.
  apply not_eq_sym in H1, H2.
  apply String.eqb_neq in H1, H2, H3. now rewrite H1, H2, H3.
Qed.

(** C2 as stated fails: the explicit-target rules come first, so a
    target that is spelled like the stable branch is named by the
    trigger and stable-branch phrase. With the targets [main] and
    [production], the stable branch [main] and the default environment
    [production], the comment [.deploy main] resolves to [main]. *)
Lemma bare_phrase_counterexample :
  ~ (forall (E : list string) (body trigger noop_trigger stable_branch
             environment : string),
       E <> [] ->
       body = trigger
       \/ body = trigger ++ " " ++ noop_trigger
       \/ body = trigger ++ " " ++ stable_branch ->
       outcome (onDeploymentChecks E body trigger noop_trigger stable_branch
                  environment) = Ret (Some environment)).
Proof.
  intros H.
  specialize (H ["main"; "production"] ".deploy main" ".deploy" "noop" "main"
                "production" ltac:(discriminate) (or_intror (or_intror eq_refl))).
  vm_compute in H. discriminate H.
Qed.

End Resolution.

(** ** The completion phase *)

Module Completion.
Import JS Core Core.Notations PostDeploy Shapes JSFacts.

Lemma strictEqStr_true (v : jsval) (lit : string) :
  strictEqStr v lit = true <-> v = VStr lit.
Proof.
  destruct v; cbn; try (split; [discriminate|congruence]).
  rewrite String.eqb_eq. split; congruence.
Qed.

Lemma strictEqStr_false (v : jsval) (lit : string) :
  strictEqStr v lit = false <-> v <> VStr lit.
Proof.
  rewrite <- strictEqStr_true. destruct (strictEqStr v lit); split; congruence.
Qed.

Lemma missingOrEmpty_notProvided (v : jsval) :
  missingOrEmpty v -> notProvided v = true.
Proof. intros [ -> | [ -> | -> ] ]; reflexivity. Qed.

Lemma showsEnvironmentUrl_true
    (status noop environment_url environment_url_in_comment : jsval) :
  showsEnvironmentUrl status noop environment_url environment_url_in_comment = true
  <-> urlPresent environment_url
      /\ status = VStr "success"
      /\ noop <> VStr "true"
      /\ environment_url_in_comment = VBool true.
Proof.
  unfold showsEnvironmentUrl, urlPresent.
  rewrite !andb_true_iff, negb_true_iff, strictEqStr_true, strictEqStr_false.
  split.
  - intros [[[[[Ht Hl] Hb] Hs] Hn] Hf]. repeat split; try assumption.
    + destruct environment_url as [| | | |s]; try discriminate.
      exists s. split; [reflexivity|].
      cbn in Hb. apply negb_true_iff, String.eqb_neq in Hb. exact Hb.
    + destruct environment_url_in_comment as [| |[|]| |]; congruence.
  - intros [[s [ -> Hb]] [Hs [Hn -> ]]]. repeat split; try assumption.
    + destruct s; [now elim Hb|reflexivity].
    + destruct s; [now elim Hb|reflexivity].
    + cbn. now apply negb_true_iff, String.eqb_neq.
Qed.

Lemma short_https (rest : string) :
  environment_url_short ("https://" ++ rest) = replace rest "http://" "".
Proof. unfold environment_url_short. now rewrite replace_prefix. Qed.

Lemma short_http (rest : string) :
  environment_url_short ("http://" ++ rest) = replace rest "https://" "".
Proof.
  unfold environment_url_short.
  assert (E : replace ("http://" ++ rest) "https://" ""
              = "http://" ++ replace rest "https://" "") by reflexivity.
  rewrite E. apply replace_prefix.
Qed.

(** C3: the environment URL line is appended to the comment exactly
    when the URL is present and not blank, the status is ['success'],
    noop is not ['true'] and the caller asked for the URL in the
    comment; when any of the four fails the comment is left as it was.
    The appended line links to the full URL and shows it without its
    [http://] or [https://] scheme. *)
Theorem environment_url_line
    (x : externals) (ctx : context)
    (status customMessage ref noop environment environment_url
     environment_url_in_comment : jsval) :
  let body := messageBody x ctx status customMessage ref noop environment in
  let message :=
    message_fmt x ctx status customMessage ref noop environment environment_url
      environment_url_in_comment in
  let url := toString environment_url in
  let line :=
    nl ++ nl ++ "> **Environment URL:** [" ++ environment_url_short url
       ++ "](" ++ url ++ ")" in
  let shown :=
    urlPresent environment_url
    /\ status = VStr "success"
    /\ noop <> VStr "true"
    /\ environment_url_in_comment = VBool true in
  (message = body ++ line <-> shown)
  /\ (~ shown -> message = body)
  /\ (shown -> environment_url = VStr url)
  /\ (forall rest,
        includes rest "http://" = false -> includes rest "https://" = false ->
        environment_url_short ("https://" ++ rest) = rest
        /\ environment_url_short ("http://" ++ rest) = rest).
Proof.
  cbv zeta. unfold message_fmt.
  pose proof (showsEnvironmentUrl_true status noop environment_url
                environment_url_in_comment) as Hshow.
  assert (Hshort : forall rest,
            includes rest "http://" = false -> includes rest "https://" = false ->
            environment_url_short ("https://" ++ rest) = rest
            /\ environment_url_short ("http://" ++ rest) = rest).
  { intros rest H1 H2. rewrite short_https, short_http.
    split; now apply replace_absent. }
  destruct (showsEnvironmentUrl status noop environment_url
              environment_url_in_comment).
  - assert (Hs : urlPresent environment_url /\ status = VStr "success"
                 /\ noop <> VStr "true" /\ environment_url_in_comment = VBool true)
      by now apply Hshow.
    split; [tauto|]. split; [tauto|]. split; [|exact Hshort].
    intros _. destruct Hs as [[s [ -> _]] _]. reflexivity.
  - assert (Hn : ~ (urlPresent environment_url /\ status = VStr "success"
                    /\ noop <> VStr "true"
                    /\ environment_url_in_comment = VBool true)).
    { intros H. apply Hshow in H. discriminate. }
    split; [|split; [tauto|split; [tauto|exact Hshort]]].
    split; [|tauto].
    intros H. apply app_same_l in H. discriminate H.
Qed.

Lemma checkInputs_events
    (comment_id status ref noop deployment_id environment : jsval) :
  events (checkInputs comment_id status ref noop deployment_id environment) = [].
Proof.
  unfold checkInputs.
  repeat match goal with
         | |- context [if ?c then _ else _] => destruct c
         end; reflexivity.
Qed.

Lemma checkInputs_throws
    (comment_id status ref noop deployment_id environment : jsval) :
  missingOrEmpty comment_id \/ missingOrEmpty status \/ missingOrEmpty ref
  \/ missingOrEmpty noop
  \/ (noop <> VStr "true"
      /\ (missingOrEmpty deployment_id \/ missingOrEmpty environment)) ->
  exists msg,
    checkInputs comment_id status ref noop deployment_id environment
    = throw (mkError "Error" msg).
Proof.
  intros H. unfold checkInputs.
  destruct (notProvided comment_id) eqn:E1; [eexists; reflexivity|].
  destruct (notProvided status) eqn:E2; [eexists; reflexivity|].
  destruct (notProvided ref) eqn:E3; [eexists; reflexivity|].
  destruct (notProvided noop) eqn:E4; [eexists; reflexivity|].
  destruct H as [H|[H|[H|[H|[Hn H]]]]];
    try (apply missingOrEmpty_notProvided in H; congruence).
  apply strictEqStr_false in Hn. rewrite Hn. cbn [negb].
  destruct (notProvided deployment_id) eqn:E5; [eexists; reflexivity|].
  destruct (notProvided environment) eqn:E6; [eexists; reflexivity|].
  destruct H as [H|H]; apply missingOrEmpty_notProvided in H; congruence.
Qed.

Lemma checkInputs_passes
    (comment_id status ref noop deployment_id environment : jsval) :
  notProvided comment_id = false -> notProvided status = false ->
  notProvided ref = false -> notProvided noop = false ->
  (noop = VStr "true"
   \/ (notProvided deployment_id = false /\ notProvided environment = false)) ->
  checkInputs comment_id status ref noop deployment_id environment = ret tt.
Proof.
  unfold checkInputs. intros -> -> -> -> H.
  destruct (strictEqStr noop "true") eqn:E; [reflexivity|].
  destruct H as [H|[ -> -> ]]; [|reflexivity].
  apply strictEqStr_true in H. congruence.
Qed.

(** C4: when [comment_id], [status], [ref] or [noop] is missing or
    empty, and when noop is not ['true'] and [deployment_id] or
    [environment] is missing or empty, [postDeploy] throws, and it does
    so before anything else happens: no comment update and no
    deployment status is attempted. *)
Theorem postDeploy_precondition
    (x : externals) (ctx : context)
    (comment_id reaction_id status customMessage ref noop deployment_id
     environment environment_url environment_url_in_comment : jsval) :
  missingOrEmpty comment_id \/ missingOrEmpty status \/ missingOrEmpty ref
  \/ missingOrEmpty noop
  \/ (noop <> VStr "true"
      /\ (missingOrEmpty deployment_id \/ missingOrEmpty environment)) ->
  exists msg,
    postDeploy x ctx comment_id reaction_id status customMessage ref noop
      deployment_id environment environment_url environment_url_in_comment
    = ([], Throw (mkError "Error" msg)).
Proof.
  intros H.
  destruct (checkInputs_throws comment_id status ref noop deployment_id
              environment H) as [msg E].
  exists msg. unfold postDeploy. rewrite E. reflexivity.
Qed.

Lemma postDeploy_precondition_witness :
  exists msg,
    postDeploy Scenario.collaborators (Scenario.commentContext ".deploy")
      (VStr "1001") (VStr "7") (VStr "success") VNull (VStr "feature")
      (VStr "false") (VStr "") (VStr "production") VNull (VBool true)
    = ([], Throw (mkError "Error" msg)).
Proof.
  apply (postDeploy_precondition Scenario.collaborators
           (Scenario.commentContext ".deploy")
           (VStr "1001") (VStr "7") (VStr "success") VNull (VStr "feature")
           (VStr "false") (VStr "") (VStr "production") VNull (VBool true)).
  right; right; right; right. split; [discriminate|].
  left. right; right; reflexivity.
Defined.

(** The sentence of a status is one line when the actor, the ref and
    the environment are. *)
Lemma sentence_oneLine (ctx : context) (status ref noop environment : jsval) :
  oneLine (toString (actor ctx)) = true ->
  oneLine (toString ref) = true ->
  oneLine (toString environment) = true ->
  oneLine (fst (statusMessage ctx status ref noop environment)) = true.
Proof.
  intros Ha Hr He. unfold statusMessage, deployTypeString.
  destruct (strictEqStr status "success"); [|destruct (strictEqStr status "failure")];
    destruct (strictEqStr noop "true"); cbn [fst];
    rewrite ?DedentFacts.oneLine_app, ?Ha, ?Hr, ?He; reflexivity.
Qed.

(** The text that [messageBody] hands to dedent, for the sentence and
    the mark of the status. *)
Lemma messageBody_text
    (x : externals) (ctx : context)
    (status customMessage ref noop environment : jsval) (sentence mark : string) :
  statusMessage ctx status ref noop environment = (sentence, mark) ->
  messageBody x ctx status customMessage ref noop environment
  = dedent x
      (if truthy customMessage && length_gt_0 customMessage then
         nl ++ "    ### Deployment Results " ++ mark ++ nl
      ++ nl
      ++ "    " ++ sentence ++ nl
      ++ "  " ++ nl
      ++ "    <details><summary>Show Results</summary>" ++ nl
      ++ "  " ++ nl
      ++ "    " ++ unescape "t" tab (unescape "n" nl (toString customMessage)) ++ nl
      ++ "  " ++ nl
      ++ "    </details>" ++ nl
      ++ "    "
       else
         nl ++ "    ### Deployment Results " ++ mark ++ nl
      ++ "  " ++ nl
      ++ "    " ++ sentence ++ nl
      ++ "    ").
Proof.
  intros E. unfold messageBody. rewrite E.
  destruct (truthy customMessage && length_gt_0 customMessage); reflexivity.
Qed.

(** [message_fmt] is the body, followed by the environment URL line
    when that is shown. *)
Lemma message_fmt_body
    (x : externals) (ctx : context)
    (status customMessage ref noop environment environment_url
     environment_url_in_comment : jsval) :
  message_fmt x ctx status customMessage ref noop environment environment_url
    environment_url_in_comment
  = messageBody x ctx status customMessage ref noop environment
    ++ (if showsEnvironmentUrl status noop environment_url
             environment_url_in_comment
        then environmentUrlLine (toString environment_url) else "").
Proof.
  unfold message_fmt.
  destruct (showsEnvironmentUrl status noop environment_url
              environment_url_in_comment); [reflexivity|].
  symmetry. apply DedentFacts.append_nil_r.
Qed.

(** With inputs that pass the checks, the first thing [postDeploy] does
    is the comment update. *)
Lemma postDeploy_first_event
    (x : externals) (ctx : context)
    (comment_id reaction_id status customMessage ref noop deployment_id
     environment environment_url environment_url_in_comment : jsval) :
  notProvided comment_id = false -> notProvided status = false ->
  notProvided ref = false -> notProvided noop = false ->
  (noop = VStr "true"
   \/ (notProvided deployment_id = false /\ notProvided environment = false)) ->
  exists rest r,
    postDeploy x ctx comment_id reaction_id status customMessage ref noop
      deployment_id environment environment_url environment_url_in_comment
    = (ActionStatus (parseInt x reaction_id)
         (VStr (message_fmt x ctx status customMessage ref noop environment
                  environment_url environment_url_in_comment))
         (VBool (successOf status)) :: rest, r).
Proof.
  intros Hc Hs Hr Hn Hv. unfold postDeploy.
  rewrite (checkInputs_passes _ _ _ _ _ _ Hc Hs Hr Hn Hv).
  unfold call. cbn [bind ret].
  destruct (actionStatus x _ _ _) as [[]|e]; [|eexists; eexists; reflexivity].
  destruct (strictEqStr noop "true"); [eexists; eexists; reflexivity|].
  cbn [bind].
  destruct (createDeploymentStatus x ref _ deployment_id environment
              environment_url) as [[]|e]; eexists; eexists; reflexivity.
Qed.

(** With inputs that pass the checks and collaborators that answer,
    [postDeploy] returns. *)
Lemma postDeploy_answers
    (x : externals) (ctx : context)
    (comment_id reaction_id status customMessage ref noop deployment_id
     environment environment_url environment_url_in_comment : jsval) :
  notProvided comment_id = false -> notProvided status = false ->
  notProvided ref = false -> notProvided noop = false ->
  (noop = VStr "true"
   \/ (notProvided deployment_id = false /\ notProvided environment = false)) ->
  (forall rid message success, actionStatus x rid message success = Ret tt) ->
  (forall r state d e u, createDeploymentStatus x r state d e u = Ret tt) ->
  outcome (postDeploy x ctx comment_id reaction_id status customMessage ref noop
             deployment_id environment environment_url
             environment_url_in_comment)
  = Ret (if strictEqStr noop "true" then "success - noop" else "success").
Proof.
  intros Hc Hs Hr Hn Hv Hact Hdep. unfold postDeploy.
  rewrite (checkInputs_passes _ _ _ _ _ _ Hc Hs Hr Hn Hv).
  unfold call. cbn [bind ret]. rewrite Hact.
  destruct (strictEqStr noop "true"); [reflexivity|].
  cbn [bind]. rewrite Hdep. reflexivity.
Qed.

(** What follows for a status whose sentence, mark and success flag are
    known. *)
Lemma status_outcome
    (x : externals) (ctx : context)
    (comment_id reaction_id status customMessage ref noop deployment_id
     environment environment_url environment_url_in_comment : jsval)
    (mark sentence : string) (flag : bool) :
  statusMessage ctx status ref noop environment = (sentence, mark) ->
  successOf status = flag ->
  oneLine mark = true ->
  let text :=
    if truthy customMessage && length_gt_0 customMessage then
      nl ++ "    ### Deployment Results " ++ mark ++ nl
      ++ nl
      ++ "    " ++ sentence ++ nl
      ++ "  " ++ nl
      ++ "    <details><summary>Show Results</summary>" ++ nl
      ++ "  " ++ nl
      ++ "    " ++ unescape "t" tab (unescape "n" nl (toString customMessage)) ++ nl
      ++ "  " ++ nl
      ++ "    </details>" ++ nl
      ++ "    "
    else
      nl ++ "    ### Deployment Results " ++ mark ++ nl
      ++ "  " ++ nl
      ++ "    " ++ sentence ++ nl
      ++ "    " in
  successOf status = flag
  /\ messageBody x ctx status customMessage ref noop environment = dedent x text
  /\ (notProvided comment_id = false -> notProvided status = false ->
      notProvided ref = false -> notProvided noop = false ->
      (noop = VStr "true"
       \/ (notProvided deployment_id = false /\ notProvided environment = false)) ->
      (exists rest r,
         postDeploy x ctx comment_id reaction_id status customMessage ref noop
           deployment_id environment environment_url environment_url_in_comment
         = (ActionStatus (parseInt x reaction_id)
              (VStr (dedent x text
                     ++ (if showsEnvironmentUrl status noop environment_url
                              environment_url_in_comment
                         then environmentUrlLine (toString environment_url)
                         else "")))
              (VBool flag) :: rest, r))
      /\ ((forall rid message success,
             actionStatus x rid message success = Ret tt) ->
          (forall r state d e u,
             createDeploymentStatus x r state d e u = Ret tt) ->
          outcome (postDeploy x ctx comment_id reaction_id status customMessage
                     ref noop deployment_id environment environment_url
                     environment_url_in_comment)
          = Ret (if strictEqStr noop "true" then "success - noop" else "success")))
  /\ ((forall s, dedent x s = dedentJs s) ->
      truthy customMessage && length_gt_0 customMessage = false ->
      oneLine sentence = true ->
      messageBody x ctx status customMessage ref noop environment
      = "  ### Deployment Results " ++ mark ++ nl ++ nl ++ "  " ++ sentence).
Proof.
  intros Hsm Hflag Hmark. cbv zeta.
  pose proof (messageBody_text x ctx status customMessage ref noop environment
                sentence mark Hsm) as Hbody.
  split; [exact Hflag|]. split; [exact Hbody|]. split.
  - intros Hc Hs Hr Hn Hv. split.
    + destruct (postDeploy_first_event x ctx comment_id reaction_id status
                  customMessage ref noop deployment_id environment
                  environment_url environment_url_in_comment Hc Hs Hr Hn Hv)
        as [rest [r E]].
      exists rest, r. rewrite E, message_fmt_body, Hbody, Hflag. reflexivity.
    + now apply postDeploy_answers.
  - intros Hd Hcustom Hline. rewrite Hbody, Hcustom, Hd.
    now apply DedentFacts.dedent_results.
Qed.

(** C8: the formatter has three outcomes, one for each kind of status,
    and no other: ['success'] gives the affirmative sentence with the
    check mark and the success flag, ['failure'] the negative sentence
    with the cross and no success flag, and every other status the
    cautionary sentence with the warning sign and no success flag. In
    each case the comment is the dedented text of the heading with the
    mark, the sentence and, for a custom message, the block that shows
    it; with inputs that pass the checks, [postDeploy] hands it to the
    comment update first, with the flag and with the environment URL
    line where that is shown, and it returns when the collaborators
    answer. With dedent-js, no custom message and a sentence of one
    line, the comment is the heading, an empty line and the sentence,
    each behind two spaces. *)
Theorem statusMessage_cases
    (x : externals) (ctx : context)
    (comment_id reaction_id status customMessage ref noop deployment_id
     environment environment_url environment_url_in_comment : jsval) :
  let text := fun mark sentence : string =>
    if truthy customMessage && length_gt_0 customMessage then
      nl ++ "    ### Deployment Results " ++ mark ++ nl
      ++ nl
      ++ "    " ++ sentence ++ nl
      ++ "  " ++ nl
      ++ "    <details><summary>Show Results</summary>" ++ nl
      ++ "  " ++ nl
      ++ "    " ++ unescape "t" tab (unescape "n" nl (toString customMessage)) ++ nl
      ++ "  " ++ nl
      ++ "    </details>" ++ nl
      ++ "    "
    else
      nl ++ "    ### Deployment Results " ++ mark ++ nl
      ++ "  " ++ nl
      ++ "    " ++ sentence ++ nl
      ++ "    " in
  let posted := fun (mark sentence : string) (flag : bool) =>
    successOf status = flag
    /\ messageBody x ctx status customMessage ref noop environment
       = dedent x (text mark sentence)
    /\ (notProvided comment_id = false -> notProvided status = false ->
        notProvided ref = false -> notProvided noop = false ->
        (noop = VStr "true"
         \/ (notProvided deployment_id = false
             /\ notProvided environment = false)) ->
        (exists rest r,
           postDeploy x ctx comment_id reaction_id status customMessage ref noop
             deployment_id environment environment_url
             environment_url_in_comment
           = (ActionStatus (parseInt x reaction_id)
                (VStr (dedent x (text mark sentence)
                       ++ (if showsEnvironmentUrl status noop environment_url
                                environment_url_in_comment
                           then environmentUrlLine (toString environment_url)
                           else "")))
                (VBool flag) :: rest, r))
        /\ ((forall rid message success,
               actionStatus x rid message success = Ret tt) ->
            (forall r state d e u,
               createDeploymentStatus x r state d e u = Ret tt) ->
            outcome (postDeploy x ctx comment_id reaction_id status
                       customMessage ref noop deployment_id environment
                       environment_url environment_url_in_comment)
            = Ret (if strictEqStr noop "true"
                   then "success - noop" else "success")))
    /\ ((forall s, dedent x s = dedentJs s) ->
        truthy customMessage && length_gt_0 customMessage = false ->
        oneLine sentence = true ->
        messageBody x ctx status customMessage ref noop environment
        = "  ### Deployment Results " ++ mark ++ nl ++ nl ++ "  " ++ sentence) in
  (status = VStr "success" ->
     posted "✅"
       ("**" ++ toString (actor ctx) ++ "** successfully" ++ deployTypeString noop
          ++ "deployed branch `" ++ toString ref ++ "` to **"
          ++ toString environment ++ "**")
       true)
  /\ (status = VStr "failure" ->
        posted "❌"
          ("**" ++ toString (actor ctx) ++ "** had a failure when"
             ++ deployTypeString noop ++ "deploying branch `" ++ toString ref
             ++ "` to **" ++ toString environment ++ "**")
          false)
  /\ (status <> VStr "success" -> status <> VStr "failure" ->
        posted "⚠️"
          ("Warning:" ++ deployTypeString noop
             ++ "deployment status is unknown, please use caution")
          false).
Proof.
  cbv zeta. split; [|split].
  - intros ->. now apply status_outcome.
  - intros ->. now apply status_outcome.
  - intros Hs Hf. apply strictEqStr_false in Hs, Hf.
    apply status_outcome; [|unfold successOf; exact Hs|reflexivity].
    unfold statusMessage. now rewrite Hs, Hf.
Qed.

Lemma statusMessage_cases_witness :
  messageBody Scenario.collaborators (Scenario.commentContext ".deploy")
    (VStr "success") VNull (VStr "feature") (VStr "false") (VStr "production")
  = "  ### Deployment Results ✅" ++ nl ++ nl
    ++ "  **monalisa** successfully deployed branch `feature` to **production**"
  /\ postDeploy Scenario.collaborators (Scenario.commentContext ".deploy")
       (VStr "1001") (VStr "7") (VStr "success") VNull (VStr "feature")
       (VStr "false") (VStr "42") (VStr "production") VNull (VBool true)
     = ([ActionStatus (VNum 7)
           (VStr ("  ### Deployment Results ✅" ++ nl ++ nl
                  ++ "  **monalisa** successfully deployed branch `feature` to **production**"))
           (VBool true);
         CreateDeploymentStatus (VStr "feature") "success" (VStr "42")
           (VStr "production") VNull],
        Ret "success").
Proof.
  destruct (proj1 (statusMessage_cases Scenario.collaborators
                     (Scenario.commentContext ".deploy")
                     (VStr "1001") (VStr "7") (VStr "success") VNull
                     (VStr "feature") (VStr "false") (VStr "42")
                     (VStr "production") VNull (VBool true)) eq_refl)
    as [_ [_ [_ Hshown]]].
  split; [|reflexivity].
  apply Hshown; reflexivity.
Defined.

(** C10: with valid inputs and noop not ['true'], [postDeploy] updates
    the comment and then sets the deployment status, to ['success']
    exactly when the status it was given is ['success'] and to
    ['failure'] in every other case. A status that is neither
    ['success'] nor ['failure'] therefore gets the cautionary comment
    and the deployment status ['failure']: the comment is the dedented
    text of the heading with the warning sign and the sentence of
    caution, with the custom message block when there is a custom
    message and never with an environment URL line; with dedent-js and
    no custom message it reads as the heading, an empty line and the
    sentence, each behind two spaces. *)
Theorem postDeploy_deployment_status
    (x : externals) (ctx : context)
    (comment_id reaction_id status customMessage ref noop deployment_id
     environment environment_url environment_url_in_comment : jsval) :
  notProvided comment_id = false -> notProvided status = false ->
  notProvided ref = false -> notProvided noop = false ->
  noop <> VStr "true" ->
  notProvided deployment_id = false -> notProvided environment = false ->
  (forall rid message success, actionStatus x rid message success = Ret tt) ->
  let message :=
    message_fmt x ctx status customMessage ref noop environment environment_url
      environment_url_in_comment in
  let state := if successOf status then "success" else "failure" in
  let mark := "⚠️" in
  let sentence := "Warning: deployment status is unknown, please use caution" in
  events (postDeploy x ctx comment_id reaction_id status customMessage ref noop
            deployment_id environment environment_url environment_url_in_comment)
  = [ActionStatus (parseInt x reaction_id) (VStr message) (VBool (successOf status));
     CreateDeploymentStatus ref state deployment_id environment environment_url]
  /\ (state = "success" <-> status = VStr "success")
  /\ (status <> VStr "success" -> state = "failure")
  /\ (status <> VStr "success" -> status <> VStr "failure" ->
        statusMessage ctx status ref noop environment = (sentence, mark)
        /\ message = messageBody x ctx status customMessage ref noop environment
        /\ message
           = dedent x
               (if truthy customMessage && length_gt_0 customMessage then
                  nl ++ "    ### Deployment Results " ++ mark ++ nl
      ++ nl
      ++ "    " ++ sentence ++ nl
      ++ "  " ++ nl
      ++ "    <details><summary>Show Results</summary>" ++ nl
      ++ "  " ++ nl
      ++ "    " ++ unescape "t" tab (unescape "n" nl (toString customMessage)) ++ nl
      ++ "  " ++ nl
      ++ "    </details>" ++ nl
      ++ "    "
                else
                  nl ++ "    ### Deployment Results " ++ mark ++ nl
      ++ "  " ++ nl
      ++ "    " ++ sentence ++ nl
      ++ "    ")
        /\ ((forall s, dedent x s = dedentJs s) ->
            truthy customMessage && length_gt_0 customMessage = false ->
            message
            = "  ### Deployment Results ⚠️" ++ nl ++ nl
              ++ "  Warning: deployment status is unknown, please use caution")).
Proof.
  intros Hc Hs Hr Hn Hnoop Hd He Hact. cbv zeta.
  pose proof (proj2 (strictEqStr_false noop "true") Hnoop) as Hnoop'.
  split; [|split; [|split]].
  - unfold postDeploy.
    rewrite (checkInputs_passes _ _ _ _ _ _ Hc Hs Hr Hn (or_intror (conj Hd He))).
    rewrite Hnoop'. cbn [bind ret]. unfold call.
    rewrite Hact. cbn.
    destruct (createDeploymentStatus x ref _ deployment_id environment
                environment_url); reflexivity.
  - unfold successOf. rewrite <- strictEqStr_true.
    destruct (strictEqStr status "success"); split; congruence.
  - intros H. unfold successOf. apply strictEqStr_false in H. now rewrite H.
  - intros H1 H2. apply strictEqStr_false in H1, H2.
    assert (Hsm : statusMessage ctx status ref noop environment
                  = ("Warning: deployment status is unknown, please use caution",
                     "⚠️")).
    { unfold statusMessage, deployTypeString. now rewrite H1, H2, Hnoop'. }
    assert (Hm : message_fmt x ctx status customMessage ref noop environment
                   environment_url environment_url_in_comment
                 = messageBody x ctx status customMessage ref noop environment).
    { unfold message_fmt, showsEnvironmentUrl.
      rewrite H1, !andb_false_r. reflexivity. }
    pose proof (messageBody_text x ctx status customMessage ref noop environment
                  _ _ Hsm) as Hbody.
    split; [exact Hsm|]. split; [exact Hm|]. rewrite Hm. split; [exact Hbody|].
    intros Hdj Hcustom. rewrite Hbody, Hcustom, Hdj.
    now apply DedentFacts.dedent_results.
Qed.

Lemma postDeploy_deployment_status_witness :
  events (postDeploy Scenario.collaborators (Scenario.commentContext ".deploy")
            (VStr "1001") (VStr "7") (VStr "cancelled") VNull (VStr "feature")
            (VStr "false") (VStr "42") (VStr "production") VNull (VBool true))
  = [ActionStatus (VNum 7)
       (VStr ("  ### Deployment Results ⚠️" ++ nl ++ nl
              ++ "  Warning: deployment status is unknown, please use caution"))
       (VBool false);
     CreateDeploymentStatus (VStr "feature") "failure" (VStr "42")
       (VStr "production") VNull].
Proof.
  apply (postDeploy_deployment_status Scenario.collaborators
           (Scenario.commentContext ".deploy")
           (VStr "1001") (VStr "7") (VStr "cancelled") VNull (VStr "feature")
           (VStr "false") (VStr "42") (VStr "production") VNull (VBool true));
    try reflexivity.
  discriminate.
Defined.

Lemma environment_url_line_witness :
  message_fmt Scenario.collaborators (Scenario.commentContext ".deploy")
    (VStr "success") VNull (VStr "feature") (VStr "false") (VStr "production")
    (VStr "https://example.com") (VBool true)
  = messageBody Scenario.collaborators (Scenario.commentContext ".deploy")
      (VStr "success") VNull (VStr "feature") (VStr "false") (VStr "production")
    ++ nl ++ nl ++ "> **Environment URL:** [example.com](https://example.com)".
Proof.
  apply (environment_url_line Scenario.collaborators
           (Scenario.commentContext ".deploy")
           (VStr "success") VNull (VStr "feature") (VStr "false")
           (VStr "production") (VStr "https://example.com") (VBool true)).
  split; [exists "https://example.com"; split; [reflexivity|discriminate]|].
  split; [reflexivity|]. split; [discriminate|reflexivity].
Defined.

End Completion.

(** ** The first phase of a run *)

Module Lifecycle.
Import Shapes JS Core Core.Notations EnvironmentTargets PostDeploy Main JSFacts.

Ltac run_steps :=
  cbn [bind ret throw emit ask call tryCatch andb negb orb fst snd app
       multipleTriggersLoop events outcome].

(** C5: when both the deploy trigger and the help trigger are found in
    the comment, [run] returns ['failure'] after saving the bypass
    state, setting the output [triggered] to ['false'] and marking the
    run as failed, and it ends there: no reaction, comment or other
    platform call has been made. The hypotheses say that the run gets
    as far as looking at the comment: the required inputs are there,
    the client is created, merge deploy mode is off and the event
    context is a valid one. *)
Theorem run_multiple_commands
    (x : externals) (inputs : string -> string) (ctx : context)
    (penv : processEnv) (cmt : comment) (issue : jsval)
    (ownerRepo : string * string) :
  inputs "github_token" <> "" ->
  inputs "environment" <> "" ->
  getOctokit x (trim (inputs "github_token")) = Ret tt ->
  trim (inputs "merge_deploy_mode") <> "true" ->
  payload_comment ctx = Some cmt ->
  contextCheck x ctx = Ret true ->
  payload_issue_number ctx = Some issue ->
  repo ctx = Some ownerRepo ->
  triggerCheck x (trim (inputs "prefix_only") =? "true") (trim (c_body cmt))
    (trim (inputs "trigger")) = Ret true ->
  triggerCheck x (trim (inputs "prefix_only") =? "true") (trim (c_body cmt))
    (trim (inputs "help_trigger")) = Ret true ->
  let r := run x inputs ctx penv in
  outcome r = Ret (VStr "failure")
  /\ output "triggered" (events r) = Some (VStr "false")
  /\ savedState "bypass" (events r) = Some (VStr "true")
  /\ In (SetFailed
           (VStr "IssueOps message contains multiple commands, only one is allowed"))
        (events r)
  /\ noPlatformCall (events r) = true.
Proof.
  intros Htoken Henv Hoct Hmerge Hcmt Hctx Hissue Hrepo Hdeploy Hhelp.
  apply String.eqb_neq in Htoken, Henv, Hmerge.
  assert (E : run x inputs ctx penv =
              ([SaveState "isPost" (VStr "true");
                SaveState "actionsToken" (VStr (trim (inputs "github_token")));
                SaveState "bypass" (VStr "true");
                SetOutput "triggered" (VStr "false");
                Info ("body: " ++ trim (c_body cmt));
                SetFailed
                  (VStr "IssueOps message contains multiple commands, only one is allowed")],
               Ret (VStr "failure"))).
  { unfold run, runTry, getInput.
    run_steps. rewrite Htoken. run_steps. rewrite Henv. run_steps.
    rewrite Hoct. run_steps. rewrite Hmerge, Hcmt. run_steps.
    rewrite Hctx. run_steps. rewrite Hissue. run_steps. rewrite Hrepo.
    destruct ownerRepo as [owner repoName]. run_steps.
    rewrite Hdeploy. run_steps. rewrite Hhelp. reflexivity. }
  cbv zeta. rewrite E.
  repeat split; cbn; auto 10.
Qed.

Lemma run_multiple_commands_witness :
  let inputs := fun name =>
    if name =? "prefix_only" then "false"
    else Scenario.workflowInputs "production,staging" name in
  let r := run Scenario.collaborators inputs
             (Scenario.commentContext ".deploy .help")
             (mkProcessEnv (VStr "https://github.com") (VStr "99")) in
  outcome r = Ret (VStr "failure")
  /\ output "triggered" (events r) = Some (VStr "false")
  /\ savedState "bypass" (events r) = Some (VStr "true")
  /\ In (SetFailed
           (VStr "IssueOps message contains multiple commands, only one is allowed"))
        (events r)
  /\ noPlatformCall (events r) = true.
Proof.
  intros inputs.
  apply (run_multiple_commands Scenario.collaborators inputs
           (Scenario.commentContext ".deploy .help")
           (mkProcessEnv (VStr "https://github.com") (VStr "99"))
           (mkComment ".deploy .help" (VNum 1001) (Some (VStr "monalisa")))
           (VNum 5) ("octo", "app"));
    try reflexivity; discriminate.
Defined.

(** *** Runs without a deployment call *)

Lemma quiet_bind {A B} (m : M A) (f : A -> M B) :
  quiet m -> (forall a, outcome m = Ret a -> quiet (f a)) -> quiet (bind m f).
Proof.
  unfold quiet, noDeployment. destruct m as [t [a|e]]; cbn; intros Hm Hf.
  - specialize (Hf a eq_refl). destruct (f a) as [t' r]. cbn in *.
    now rewrite forallb_app, Hm, Hf.
  - exact Hm.
Qed.

Lemma quiet_tryCatch {A} (m : M A) (h : thrown -> M A) :
  quiet m -> (forall e, quiet (h e)) -> quiet (tryCatch m h).
Proof.
  unfold quiet, noDeployment. destruct m as [t [a|e]]; cbn; intros Hm Hh.
  - exact Hm.
  - specialize (Hh e). destruct (h e) as [t' r]. cbn in *.
    now rewrite forallb_app, Hm, Hh.
Qed.

Lemma quiet_getInput (inputs : string -> string) (name : string) (required : bool) :
  quiet (getInput inputs name required).
Proof. unfold getInput. destruct (required && _); reflexivity. Qed.

Ltac quiet_step :=
  first
    [ apply quiet_getInput
    | apply quiet_bind; [|intros ? ?]
    | reflexivity
    | match goal with
      | |- quiet (if ?c then _ else _) => destruct c eqn:?
      | |- quiet (match ?v with _ => _ end) => destruct v eqn:?
      | |- quiet (let '(_, _) := ?v in _) => destruct v eqn:?
      end ].

Lemma quiet_onDeploymentChecks (targets : list string)
    (body trigger noop_trigger stable_branch environment : string) :
  quiet (onDeploymentChecks targets body trigger noop_trigger stable_branch
           environment).
Proof.
  induction targets as [|target rest IH]; [reflexivity|].
  cbn [onDeploymentChecks].
  repeat match goal with
         | |- quiet (if ?c then _ else _) => destruct c; [reflexivity|]
         end.
  exact IH.
Qed.

Lemma quiet_findEnvironmentUrl (environment : string) (environment_urls : jsval) :
  quiet (findEnvironmentUrl environment environment_urls).
Proof.
  unfold findEnvironmentUrl.
  destruct environment_urls as [| | | |s]; try reflexivity.
  destruct (trim s =? ""); [reflexivity|].
  induction (split "," (trim s)) as [|entry rest IH]; [reflexivity|].
  cbn [findEnvironmentUrlLoop].
  repeat quiet_step; assumption.
Qed.

Lemma quiet_environmentTargets (x : externals) (inputs : string -> string)
    (environment body trigger alt_trigger stable_branch : string)
    (reactionId environment_urls : jsval) :
  quiet (environmentTargets x inputs environment body trigger alt_trigger
           stable_branch reactionId environment_urls).
Proof.
  unfold environmentTargets.
  apply quiet_bind; [apply quiet_getInput|intros ? _].
  apply quiet_bind; [apply quiet_onDeploymentChecks|intros [detected|] _].
  - apply quiet_bind; [apply quiet_findEnvironmentUrl|intros ? _]. reflexivity.
  - repeat quiet_step.
Qed.

Lemma quiet_helpCommand (x : externals) (reactionId : jsval) :
  quiet (helpCommand x reactionId).
Proof. unfold helpCommand. repeat quiet_step. Qed.

Lemma quiet_multipleTriggersLoop (triggers : list bool) (multipleTriggers : bool)
    (body : string) :
  quiet (multipleTriggersLoop triggers multipleTriggers body).
Proof.
  revert multipleTriggers.
  induction triggers as [|t rest IH]; intros m; [reflexivity|].
  cbn [multipleTriggersLoop]. destruct t; [destruct m|]; try apply IH.
  reflexivity.
Qed.

(** The deploy branch makes no deployment call when the prechecks
    report noop mode. *)
Lemma quiet_deployCommand (x : externals) (inputs : string -> string)
    (ctx : context) (penv : processEnv) (owner repoName : string)
    (environment body trigger noop_trigger stable_branch : string)
    (required_contexts production_environment update_branch : string)
    (environment_urls : string) (reactionId : jsval) :
  (forall b e r, prechecks x b e = Ret r -> pr_noopMode r = true) ->
  quiet (deployCommand x inputs ctx penv owner repoName environment body trigger
           noop_trigger stable_branch required_contexts production_environment
           update_branch environment_urls reactionId).
Proof.
  intros Hnoop. unfold deployCommand.
  apply quiet_bind; [apply quiet_environmentTargets|intros eo _].
  destruct (negb (truthy (eo_environment eo))); [reflexivity|].
  do 3 (apply quiet_bind; [reflexivity|intros _ _]).
  apply quiet_bind; [reflexivity|intros r Hr].
  apply Hnoop in Hr.
  do 3 (apply quiet_bind; [reflexivity|intros _ _]).
  destruct (negb (pr_status r)); [repeat quiet_step|].
  apply quiet_bind; [reflexivity|intros _ _].
  rewrite Hr. reflexivity.
Qed.

Lemma quiet_run (x : externals) (inputs : string -> string) (ctx : context)
    (penv : processEnv) :
  (forall b e r, prechecks x b e = Ret r -> pr_noopMode r = true) ->
  quiet (run x inputs ctx penv).
Proof.
  intros Hnoop. unfold run.
  apply quiet_tryCatch; [|intros [e|[| | | |]]; reflexivity].
  unfold runTry.
  do 18 (apply quiet_bind; [apply quiet_getInput|intros ? _]).
  do 3 (apply quiet_bind; [reflexivity|intros _ _]).
  destruct (_ =? "true"); [reflexivity|].
  apply quiet_bind; [destruct (payload_comment ctx); reflexivity|intros cmt _].
  apply quiet_bind; [reflexivity|intros [|] _]; [|reflexivity]. cbn [negb].
  apply quiet_bind;
    [destruct (payload_issue_number ctx); reflexivity|intros issue _].
  apply quiet_bind; [destruct (repo ctx); reflexivity|intros [owner repoName] _].
  apply quiet_bind; [reflexivity|intros isDeploy _].
  apply quiet_bind; [reflexivity|intros isHelp _].
  apply quiet_bind; [apply quiet_multipleTriggersLoop|intros [early|] _];
    [reflexivity|].
  destruct (negb isDeploy && negb isHelp); [reflexivity|].
  do 2 (apply quiet_bind; [reflexivity|intros _ _]).
  apply quiet_bind; [reflexivity|intros reactRes _].
  do 2 (apply quiet_bind; [reflexivity|intros _ _]).
  apply quiet_bind; [destruct reactRes; reflexivity|intros reactionId _].
  do 2 (apply quiet_bind; [reflexivity|intros _ _]).
  apply quiet_bind; [destruct (c_user_login cmt); reflexivity|intros login _].
  apply quiet_bind; [reflexivity|intros _ _].
  destruct isHelp; [apply quiet_helpCommand|].
  now apply quiet_deployCommand.
Qed.

(** A deploy command whose prechecks pass in noop mode ends the run
    with ['success - noop']. *)
Lemma run_noop_returns
    (x : externals) (inputs : string -> string) (ctx : context)
    (penv : processEnv) (cmt : comment) (issue : jsval)
    (ownerRepo : string * string) (reactionId login : jsval)
    (resolution : list event) (environmentObj : environmentObj)
    (precheckResults : precheckResults) :
  inputs "github_token" <> "" ->
  inputs "environment" <> "" ->
  getOctokit x (trim (inputs "github_token")) = Ret tt ->
  trim (inputs "merge_deploy_mode") <> "true" ->
  payload_comment ctx = Some cmt ->
  contextCheck x ctx = Ret true ->
  payload_issue_number ctx = Some issue ->
  repo ctx = Some ownerRepo ->
  triggerCheck x (trim (inputs "prefix_only") =? "true") (trim (c_body cmt))
    (trim (inputs "trigger")) = Ret true ->
  triggerCheck x (trim (inputs "prefix_only") =? "true") (trim (c_body cmt))
    (trim (inputs "help_trigger")) = Ret false ->
  reactEmote x (trim (inputs "reaction")) = Ret (Some reactionId) ->
  c_user_login cmt = Some login ->
  environmentTargets x inputs (trim (inputs "environment")) (trim (c_body cmt))
    (trim (inputs "trigger")) (trim (inputs "noop_trigger"))
    (trim (inputs "stable_branch")) reactionId
    (VStr (trim (inputs "environment_urls")))
  = (resolution, Ret environmentObj) ->
  truthy (eo_environment environmentObj) = true ->
  prechecks x (trim (c_body cmt)) (eo_environment environmentObj)
  = Ret precheckResults ->
  pr_status precheckResults = true ->
  pr_noopMode precheckResults = true ->
  (forall b, createComment x b = Ret tt) ->
  outcome (run x inputs ctx penv) = Ret (VStr "success - noop").
Proof.
  intros Htoken Henv Hoct Hmerge Hcmt Hctx Hissue Hrepo Hdeploy Hhelp Hreact
    Hlogin Htargets Htruthy Hpre Hstatus Hnoop Hcomment.
  apply String.eqb_neq in Htoken, Henv, Hmerge.
  unfold run, runTry, getInput.
  run_steps. rewrite Htoken. run_steps. rewrite Henv. run_steps.
  rewrite Hoct. run_steps. rewrite Hmerge, Hcmt. run_steps.
  rewrite Hctx. run_steps. rewrite Hissue. run_steps. rewrite Hrepo.
  destruct ownerRepo as [owner repoName]. run_steps.
  rewrite Hdeploy. run_steps. rewrite Hhelp. run_steps.
  rewrite Hreact. run_steps. rewrite Hlogin. run_steps.
  unfold deployCommand. rewrite Htargets. run_steps.
  rewrite Htruthy. run_steps. rewrite Hpre. run_steps.
  rewrite Hstatus. run_steps. rewrite Hcomment. run_steps.
  rewrite Hnoop. reflexivity.
Qed.

(** In noop mode [postDeploy] makes no deployment call. *)
Lemma quiet_postDeploy_noop
    (x : externals) (ctx : context)
    (comment_id reaction_id status customMessage ref deployment_id environment
     environment_url environment_url_in_comment : jsval) :
  quiet (postDeploy x ctx comment_id reaction_id status customMessage ref
           (VStr "true") deployment_id environment environment_url
           environment_url_in_comment).
Proof.
  unfold postDeploy.
  apply quiet_bind.
  - unfold quiet. now rewrite Completion.checkInputs_events.
  - intros _ _. apply quiet_bind; [reflexivity|intros _ _]. reflexivity.
Qed.

(** With valid inputs it updates the comment and returns. *)
Lemma postDeploy_noop_returns
    (x : externals) (ctx : context)
    (comment_id reaction_id status customMessage ref deployment_id environment
     environment_url environment_url_in_comment : jsval) :
  notProvided comment_id = false -> notProvided status = false ->
  notProvided ref = false ->
  (forall rid message success, actionStatus x rid message success = Ret tt) ->
  postDeploy x ctx comment_id reaction_id status customMessage ref
    (VStr "true") deployment_id environment environment_url
    environment_url_in_comment
  = ([ActionStatus (parseInt x reaction_id)
        (VStr (message_fmt x ctx status customMessage ref (VStr "true")
                 environment environment_url environment_url_in_comment))
        (VBool (successOf status))],
     Ret "success - noop").
Proof.
  intros Hc Hs Hr Hact. unfold postDeploy.
  rewrite (Completion.checkInputs_passes comment_id status ref (VStr "true")
             deployment_id environment Hc Hs Hr eq_refl (or_introl eq_refl)).
  unfold call. cbn [bind ret]. now rewrite Hact.
Qed.

(** C6: in noop mode no deployment record is created or moved. A run
    whose prechecks report noop mode makes no deployment call at all,
    and when the prechecks pass it returns ['success - noop'] right
    after the deployment comment. [postDeploy] with noop ['true'] makes
    no deployment call either: with valid inputs it updates the comment
    and returns ['success - noop']. *)
Theorem noop_makes_no_deployment_call :
  (forall (x : externals) (inputs : string -> string) (ctx : context)
          (penv : processEnv),
     (forall b e r, prechecks x b e = Ret r -> pr_noopMode r = true) ->
     noDeployment (events (run x inputs ctx penv)) = true)
  /\ (forall (x : externals) (inputs : string -> string) (ctx : context)
             (penv : processEnv) (cmt : comment) (issue : jsval)
             (ownerRepo : string * string) (reactionId login : jsval)
             (resolution : list event) (environmentObj : environmentObj)
             (precheckResults : precheckResults),
        inputs "github_token" <> "" ->
        inputs "environment" <> "" ->
        getOctokit x (trim (inputs "github_token")) = Ret tt ->
        trim (inputs "merge_deploy_mode") <> "true" ->
        payload_comment ctx = Some cmt ->
        contextCheck x ctx = Ret true ->
        payload_issue_number ctx = Some issue ->
        repo ctx = Some ownerRepo ->
        triggerCheck x (trim (inputs "prefix_only") =? "true")
          (trim (c_body cmt)) (trim (inputs "trigger")) = Ret true ->
        triggerCheck x (trim (inputs "prefix_only") =? "true")
          (trim (c_body cmt)) (trim (inputs "help_trigger")) = Ret false ->
        reactEmote x (trim (inputs "reaction")) = Ret (Some reactionId) ->
        c_user_login cmt = Some login ->
        environmentTargets x inputs (trim (inputs "environment"))
          (trim (c_body cmt)) (trim (inputs "trigger"))
          (trim (inputs "noop_trigger")) (trim (inputs "stable_branch"))
          reactionId (VStr (trim (inputs "environment_urls")))
        = (resolution, Ret environmentObj) ->
        truthy (eo_environment environmentObj) = true ->
        prechecks x (trim (c_body cmt)) (eo_environment environmentObj)
        = Ret precheckResults ->
        pr_status precheckResults = true ->
        pr_noopMode precheckResults = true ->
        (forall b, createComment x b = Ret tt) ->
        outcome (run x inputs ctx penv) = Ret (VStr "success - noop")
        /\ noDeployment (events (run x inputs ctx penv)) = true)
  /\ (forall (x : externals) (ctx : context)
             (comment_id reaction_id status customMessage ref deployment_id
              environment environment_url environment_url_in_comment : jsval),
        noDeployment
          (events (postDeploy x ctx comment_id reaction_id status customMessage
                     ref (VStr "true") deployment_id environment environment_url
                     environment_url_in_comment)) = true)
  /\ (forall (x : externals) (ctx : context)
             (comment_id reaction_id status customMessage ref deployment_id
              environment environment_url environment_url_in_comment : jsval),
        notProvided comment_id = false -> notProvided status = false ->
        notProvided ref = false ->
        (forall rid message success,
           actionStatus x rid message success = Ret tt) ->
        postDeploy x ctx comment_id reaction_id status customMessage ref
          (VStr "true") deployment_id environment environment_url
          environment_url_in_comment
        = ([ActionStatus (parseInt x reaction_id)
              (VStr (message_fmt x ctx status customMessage ref (VStr "true")
                       environment environment_url environment_url_in_comment))
              (VBool (successOf status))],
           Ret "success - noop")).
Proof.
  split; [|split; [|split]].
  - intros x inputs ctx penv Hnoop. now apply quiet_run.
  - intros x inputs ctx penv cmt issue ownerRepo reactionId login resolution
      environmentObj precheckResults Htoken Henv Hoct Hmerge Hcmt Hctx Hissue
      Hrepo Hdeploy Hhelp Hreact Hlogin Htargets Htruthy Hpre Hstatus Hnoop
      Hcomment.
    split.
    + now apply (run_noop_returns x inputs ctx penv cmt issue ownerRepo
                   reactionId login resolution environmentObj precheckResults).
    + pose proof Hpre as Hpre'. pose proof Hnoop as Hnoop'.
      apply String.eqb_neq in Htoken, Henv, Hmerge.
      unfold run, runTry, getInput.
      run_steps. rewrite Htoken. run_steps. rewrite Henv. run_steps.
      rewrite Hoct. run_steps. rewrite Hmerge, Hcmt. run_steps.
      rewrite Hctx. run_steps. rewrite Hissue. run_steps. rewrite Hrepo.
      destruct ownerRepo as [owner repoName]. run_steps.
      rewrite Hdeploy. run_steps. rewrite Hhelp. run_steps.
      rewrite Hreact. run_steps. rewrite Hlogin. run_steps.
      unfold deployCommand. rewrite Htargets. run_steps.
      rewrite Htruthy. run_steps. rewrite Hpre. run_steps.
      rewrite Hstatus. run_steps. rewrite Hcomment. run_steps.
      rewrite Hnoop. run_steps.
      pose proof (quiet_environmentTargets x inputs
                    (trim (inputs "environment")) (trim (c_body cmt))
                    (trim (inputs "trigger")) (trim (inputs "noop_trigger"))
                    (trim (inputs "stable_branch")) reactionId
                    (VStr (trim (inputs "environment_urls")))) as Hq.
      unfold quiet in Hq. rewrite Htargets in Hq. cbn [events fst] in Hq.
      unfold noDeployment in *. cbn [forallb touchesDeployment negb andb].
      rewrite forallb_app, Hq. reflexivity.
  - intros. apply quiet_postDeploy_noop.
  - intros. now apply postDeploy_noop_returns.
Qed.

Lemma noop_makes_no_deployment_call_witness :
  let r := run Scenario.collaborators
             (Scenario.workflowInputs "production,staging")
             (Scenario.commentContext ".deploy noop")
             (mkProcessEnv (VStr "https://github.com") (VStr "99")) in
  outcome r = Ret (VStr "success - noop") /\ noDeployment (events r) = true.
Proof.
  intros r.
  apply (proj1 (proj2 noop_makes_no_deployment_call) Scenario.collaborators
           (Scenario.workflowInputs "production,staging")
           (Scenario.commentContext ".deploy noop")
           (mkProcessEnv (VStr "https://github.com") (VStr "99"))
           (mkComment ".deploy noop" (VNum 1001) (Some (VStr "monalisa")))
           (VNum 5) ("octo", "app") (VNum 7) (VStr "monalisa")
           [Debug "Using default environment for noop trigger"]
           (mkEnvironmentObj (VStr "production") VNull)
           (mkPrecheckResults true (VStr "ok") (VStr "feature") (VStr "abc123")
              true));
    try reflexivity; discriminate.
Defined.

(** *** The bypass state *)

Lemma savedState_app (name : string) (t1 t2 : list event) :
  savedState name (t1 ++ t2)
  = match savedState name t2 with
    | Some v => Some v
    | None => savedState name t1
    end.
Proof.
  induction t1 as [|ev t1 IH]; cbn [app savedState].
  - now destruct (savedState name t2).
  - rewrite IH. now destruct (savedState name t2).
Qed.

Lemma bind_ret_l {A B} (a : A) (f : A -> M B) : bind (ret a) f = f a.
Proof. unfold bind, ret. now destruct (f a). Qed.

Lemma flagged_bind {A} (m : M A) (f : A -> M jsval) :
  (forall a, outcome m = Ret a -> flagged (f a)) -> flagged (bind m f).
Proof.
  unfold flagged. destruct m as [t [a|e]]; cbn; intros Hf; [|discriminate].
  specialize (Hf a eq_refl). destruct (f a) as [t' r]. cbn in *.
  intros Hr. now rewrite savedState_app, (Hf Hr).
Qed.

Ltac flagged_leaf :=
  solve [ unfold flagged; cbn; intros Hfail;
          first [discriminate Hfail | reflexivity] ].

Ltac flagged_step :=
  first
    [ flagged_leaf
    | apply flagged_bind; intros ? ?
    | match goal with
      | |- flagged (if ?c then _ else _) => destruct c eqn:?
      | |- flagged (match ?v with _ => _ end) => destruct v eqn:?
      end ].

Lemma flagged_helpCommand (x : externals) (reactionId : jsval) :
  flagged (helpCommand x reactionId).
Proof. unfold helpCommand. repeat flagged_step. Qed.

Lemma flagged_createAndStart (x : externals) (ctx : context)
    (required_contexts production_environment update_branch : string)
    (environment environmentUrl reactionId : jsval)
    (precheckResults : precheckResults) :
  flagged (createAndStart x ctx required_contexts production_environment
             update_branch environment environmentUrl reactionId precheckResults).
Proof. unfold createAndStart. repeat flagged_step. Qed.

Lemma flagged_deployCommand (x : externals) (inputs : string -> string)
    (ctx : context) (penv : processEnv) (owner repoName : string)
    (environment body trigger noop_trigger stable_branch : string)
    (required_contexts production_environment update_branch : string)
    (environment_urls : string) (reactionId : jsval) :
  flagged (deployCommand x inputs ctx penv owner repoName environment body trigger
             noop_trigger stable_branch required_contexts production_environment
             update_branch environment_urls reactionId).
Proof.
  unfold deployCommand.
  apply flagged_bind; intros eo _.
  destruct (negb (truthy (eo_environment eo))); [flagged_leaf|].
  do 4 (apply flagged_bind; intros ? _).
  do 3 (apply flagged_bind; intros ? _).
  destruct (negb (pr_status _)); [repeat flagged_step|].
  apply flagged_bind; intros ? _.
  destruct (pr_noopMode _); [flagged_leaf|].
  do 2 (apply flagged_bind; intros ? _).
  apply flagged_createAndStart.
Qed.

Lemma flagged_runTry (x : externals) (inputs : string -> string) (ctx : context)
    (penv : processEnv) :
  flagged (runTry x inputs ctx penv).
Proof.
  unfold runTry.
  do 18 (apply flagged_bind; intros ? _).
  do 3 (apply flagged_bind; intros ? _).
  destruct (_ =? "true"); [flagged_leaf|].
  apply flagged_bind; intros cmt _.
  apply flagged_bind; intros [|] _; [|flagged_leaf]. cbn [negb].
  do 2 (apply flagged_bind; intros ? _).
  match goal with |- flagged (let '(_, _) := ?p in _) => destruct p end.
  apply flagged_bind; intros isDeploy _.
  apply flagged_bind; intros isHelp _.
  destruct isDeploy, isHelp; cbn [multipleTriggersLoop];
    try flagged_leaf;
    rewrite bind_ret_l; cbn [negb andb]; try flagged_leaf.
  - do 10 (apply flagged_bind; intros ? _). apply flagged_deployCommand.
  - do 10 (apply flagged_bind; intros ? _). apply flagged_helpCommand.
Qed.

(** Every run that returns ['failure'] and every run that ends in the
    [catch] block has saved the bypass state as ['true']; the [catch]
    block ends the run with [undefined] unless what was thrown is
    [null] or [undefined]. *)
Theorem run_failure_sets_bypass
    (x : externals) (inputs : string -> string) (ctx : context)
    (penv : processEnv) :
  (outcome (run x inputs ctx penv) = Ret (VStr "failure") ->
   savedState "bypass" (events (run x inputs ctx penv)) = Some (VStr "true"))
  /\ (forall e, outcome (runTry x inputs ctx penv) = Throw e ->
        (nullish e = false -> outcome (run x inputs ctx penv) = Ret VUndefined)
        /\ savedState "bypass" (events (run x inputs ctx penv))
           = Some (VStr "true")).
Proof.
  pose proof (flagged_runTry x inputs ctx penv) as Hf.
  unfold run, flagged in *. destruct (runTry x inputs ctx penv) as [t [v|e]].
  - split; [exact Hf|]. cbn. discriminate.
  - split; [destruct e as [e|[| | | |]]; cbn; discriminate|].
    intros e' E. cbn in E. injection E as <-.
    destruct e as [e|[| | | |]]; cbn;
      (split; [try reflexivity; discriminate|now rewrite savedState_app]).
Qed.

(** C9 fails on the code: with an empty first environment target (the
    input [",production"]) the comment [".deploy"] resolves to the
    empty name, [run] takes it for a failed lookup and returns
    ['safe-exit'], and the bypass state has never been saved. *)
Theorem run_safe_exit_without_bypass :
  let r := run Scenario.collaborators (Scenario.workflowInputs ",production")
             (Scenario.commentContext ".deploy")
             (mkProcessEnv (VStr "https://github.com") (VStr "99")) in
  outcome r = Ret (VStr "safe-exit")
  /\ savedState "bypass" (events r) = None.
Proof. split; reflexivity. Qed.

(** *** The environment URL lookup *)

(** C7 fails on the code: a pair that names the environment but has no
    [|] leaves the URL undefined, and the schema test then throws a
    TypeError instead of skipping the pair. *)
Theorem findEnvironmentUrl_throws :
  findEnvironmentUrl "production" (VStr "production")
  = ([], Throw (typeError "Cannot read properties of undefined (reading 'match')")).
Proof. reflexivity. Qed.

(** When every pair has a URL part the lookup returns, with [null] or
    with a URL of the http(s) schema. *)
Lemma findEnvironmentUrl_returns (environment environment_urls : string) :
  (forall entry, In entry (split "," (trim environment_urls)) ->
     nth_error (split "|" (trim entry)) 1 <> None) ->
  exists v,
    outcome (findEnvironmentUrl environment (VStr environment_urls)) = Ret v
    /\ (v = VNull \/ exists url, v = VStr url /\ matchesHttpSchema url = true).
Proof.
  unfold findEnvironmentUrl.
  destruct (trim environment_urls =? ""); [intros _; exists VNull; auto|].
  induction (split "," (trim environment_urls)) as [|entry rest IH]; intros Hall.
  - exists VNull. auto.
  - assert (Hrest : forall e, In e rest -> nth_error (split "|" (trim e)) 1 <> None)
      by (intros e He; apply Hall; now right).
    specialize (IH Hrest). specialize (Hall entry (or_introl eq_refl)).
    cbn [findEnvironmentUrlLoop].
    destruct (nth_error (split "|" (trim entry)) 0) as [name|]; [|exact IH].
    destruct (name =? environment); [|exact IH].
    destruct (nth_error (split "|" (trim entry)) 1) as [url|]; [|congruence].
    destruct (url =? "disabled"); [exists VNull; auto|].
    destruct (matchesHttpSchema url) eqn:Hm; cbn [negb].
    + exists (VStr url). split; [reflexivity|]. right. now exists url.
    + destruct IH as [v [Hv Hshape]]. exists v. split; [|exact Hshape].
      cbn. destruct (findEnvironmentUrlLoop environment rest) as [t r].
      exact Hv.
Qed.

End Lifecycle.

(** ** More on environment resolution *)

Module TargetsProps.
Import JS Core Core.Notations EnvironmentTargets Shapes JSFacts Resolution.

Lemma append_assoc (a b c : string) : (a ++ b) ++ c = a ++ b ++ c.
Proof. induction a as [|x a IH]; cbn; congruence. Qed.

(** The remainder [" e"] of a comment trims to [e]. *)
Lemma trim_space (e : string) : trim e = e -> trim (" " ++ e) = e.
Proof.
  intros Ht. destruct (trim_fixed e Ht) as [Hs He].
  unfold trim. change (trimStart (" " ++ e)) with (trimStart e).
  now rewrite Hs.
Qed.

Lemma resolved_in_targets
    (targets : list string)
    (body trigger noop_trigger stable_branch environment r : string) :
  outcome (onDeploymentChecks targets body trigger noop_trigger stable_branch
             environment) = Ret (Some r) ->
  In r targets \/ r = environment.
Proof.
  induction targets as [|t rest IH]; [discriminate|].
  rewrite onDeploymentChecks_cons.
  destruct (namesTarget t body trigger noop_trigger stable_branch).
  - intros H. injection H as <-. left. now left.
  - destruct (barePhrase body trigger noop_trigger stable_branch).
    + intros H. injection H as <-. now right.
    + intros H. destruct (IH H) as [Hin|Heq]; [left; now right|now right].
Qed.

(** X1: whatever the comment, the environment that [onDeploymentChecks]
    returns is one of the configured targets or the default
    environment. *)
Theorem resolved_is_configured
    (targets : list string)
    (body trigger noop_trigger stable_branch environment r : string) :
  outcome (onDeploymentChecks targets body trigger noop_trigger stable_branch
             environment) = Ret (Some r) ->
  In r targets \/ r = environment.
Proof.
  exact (resolved_in_targets targets body trigger noop_trigger stable_branch
           environment r).
Qed.

Lemma resolved_is_configured_witness :
  In "staging" ["production"; "staging"] \/ "staging" = "production".
Proof.
  apply (resolved_is_configured ["production"; "staging"] ".deploy staging"
           ".deploy" "noop" "main" "production" "staging").
  reflexivity.
Defined.

(** X2: [onDeploymentChecks] returns [false] exactly when none of the
    targets is named by the comment and the comment is not one of the
    three bare phrases; with an empty target list it always does. It
    never throws. *)
Theorem not_found_iff
    (targets : list string)
    (body trigger noop_trigger stable_branch environment : string) :
  (outcome (onDeploymentChecks targets body trigger noop_trigger stable_branch
              environment) = Ret None
   <-> (forall t, In t targets ->
          namesTarget t body trigger noop_trigger stable_branch = false)
       /\ (targets = []
           \/ barePhrase body trigger noop_trigger stable_branch = false))
  /\ exists r,
       outcome (onDeploymentChecks targets body trigger noop_trigger
                  stable_branch environment) = Ret r.
Proof.
  induction targets as [|t rest [IH [r Hr]]].
  - split; [|now exists None].
    split; [intros _; split; [intros t []|now left]|reflexivity].
  - rewrite onDeploymentChecks_cons.
    destruct (namesTarget t body trigger noop_trigger stable_branch) eqn:Hn.
    { split; [|now exists (Some t)].
      split; [discriminate|].
      intros [Hall _]. rewrite (Hall t (or_introl eq_refl)) in Hn. discriminate. }
    destruct (barePhrase body trigger noop_trigger stable_branch) eqn:Hb.
    { split; [|now exists (Some environment)].
      split; [discriminate|].
      intros [_ [Hnil|Hbare]]; discriminate. }
    split; [|now exists r].
    rewrite IH. split.
    + intros [Hall _]. split; [|now right].
      intros t' [ <- |Hin]; [exact Hn|now apply Hall].
    + intros [Hall _]. split; [|now right].
      intros t' Hin. apply Hall. now right.
Qed.

Lemma not_found_iff_witness :
  outcome (onDeploymentChecks ["production"; "staging"] ".deploy to qa"
             ".deploy" "noop" "main" "production") = Ret None.
Proof.
  apply (proj1 (not_found_iff ["production"; "staging"] ".deploy to qa"
                  ".deploy" "noop" "main" "production")).
  split; [|now right].
  intros t [ <- |[ <- |Hnone]]; [reflexivity|reflexivity|destruct Hnone].
Defined.

Lemma namesTarget_phrasing (e body trigger noop_trigger stable_branch : string) :
  e <> "" -> trim e = e ->
  phrasing body trigger noop_trigger stable_branch e ->
  namesTarget e body trigger noop_trigger stable_branch = true.
Proof.
  intros Hne Ht Hp. unfold namesTarget.
  pose proof (trim_space e Ht) as Hsp. pose proof (trim_to e Hne Ht) as Hto.
  assert (Hassoc : forall m rest : string,
            trigger ++ " " ++ m ++ rest = (trigger ++ " " ++ m) ++ rest).
  { intros m rest. rewrite append_assoc. reflexivity. }
  destruct Hp as [ -> | [ -> | [ -> | [ -> | [ -> | -> ]]]]].
  - rewrite replace_prefix, Hsp, String.eqb_refl. reflexivity.
  - rewrite replace_prefix, Hto, String.eqb_refl.
    rewrite !orb_true_r. reflexivity.
  - rewrite (Hassoc noop_trigger), replace_prefix, Hsp, String.eqb_refl.
    rewrite !orb_true_r. reflexivity.
  - rewrite (Hassoc noop_trigger), replace_prefix, Hto, String.eqb_refl.
    rewrite !orb_true_r. reflexivity.
  - rewrite (Hassoc stable_branch), replace_prefix, Hsp, String.eqb_refl.
    rewrite !orb_true_r. reflexivity.
  - rewrite (Hassoc stable_branch), replace_prefix, Hto, String.eqb_refl.
    rewrite !orb_true_r. reflexivity.
Qed.

(** X3: a comment that puts a target [e] (not empty, no white space
    around it) after the trigger, after the trigger and the noop
    trigger, or after the trigger and the stable branch, with or
    without the word [to], resolves to [e], as long as no target
    configured before [e] is accepted first. *)
Theorem every_phrasing_resolves
    (before after : list string)
    (e body trigger noop_trigger stable_branch environment : string) :
  e <> "" ->
  trim e = e ->
  phrasing body trigger noop_trigger stable_branch e ->
  (forall t, In t before ->
     namesTarget t body trigger noop_trigger stable_branch = false
     /\ barePhrase body trigger noop_trigger stable_branch = false) ->
  outcome (onDeploymentChecks (before ++ e :: after) body trigger noop_trigger
             stable_branch environment) = Ret (Some e).
Proof.
  intros Hne Ht Hp Hbefore.
  induction before as [|t before IH]; cbn [app]; rewrite onDeploymentChecks_cons.
  - now rewrite (namesTarget_phrasing e body trigger noop_trigger stable_branch
                   Hne Ht Hp).
  - destruct (Hbefore t (or_introl eq_refl)) as [ -> -> ].
    apply IH. intros t' Hin. apply Hbefore. now right.
Qed.

Lemma every_phrasing_resolves_witness :
  outcome (onDeploymentChecks (["production"] ++ "staging" :: [])
             ".deploy noop to staging" ".deploy" "noop" "main" "production")
  = Ret (Some "staging").
Proof.
  apply (every_phrasing_resolves ["production"] [] "staging"
           ".deploy noop to staging" ".deploy" "noop" "main" "production").
  - discriminate.
  - reflexivity.
  - right; right; right; left. reflexivity.
  - intros t [ <- |Hnone]; [split; reflexivity|destruct Hnone].
Defined.

End TargetsProps.

(** ** The environment URL lookup *)

Module UrlProps.
Import JS Core Core.Notations EnvironmentTargets Shapes JSFacts.

Lemma avoids_bind {A B} (p : event -> bool) (m : M A) (f : A -> M B) :
  avoids p m -> (forall a, outcome m = Ret a -> avoids p (f a)) ->
  avoids p (bind m f).
Proof.
  unfold avoids. destruct m as [t [a|e]]; cbn; intros Hm Hf.
  - specialize (Hf a eq_refl). destruct (f a) as [t' r]. cbn in *.
    now rewrite forallb_app, Hm, Hf.
  - exact Hm.
Qed.

Lemma getInput_optional (inputs : string -> string) (name : string) :
  getInput inputs name false = ret (trim (inputs name)).
Proof. reflexivity. Qed.

Lemma onDeploymentChecks_no_bypass (targets : list string)
    (body trigger noop_trigger stable_branch environment : string) :
  avoids savesBypass
    (onDeploymentChecks targets body trigger noop_trigger stable_branch
       environment).
Proof.
  induction targets as [|target rest IH]; [reflexivity|].
  cbn [onDeploymentChecks].
  repeat match goal with
         | |- avoids _ (if ?c then _ else _) => destruct c; [reflexivity|]
         end.
  exact IH.
Qed.

Lemma findEnvironmentUrl_no_bypass (environment : string) (environment_urls : jsval) :
  avoids savesBypass (findEnvironmentUrl environment environment_urls).
Proof.
  unfold findEnvironmentUrl.
  destruct environment_urls as [| | | |s]; try reflexivity.
  destruct (trim s =? ""); [reflexivity|].
  induction (split "," (trim s)) as [|entry rest IH]; [reflexivity|].
  cbn [findEnvironmentUrlLoop].
  destruct (nth_error (split "|" (trim entry)) 0) as [name|]; [|exact IH].
  destruct (name =? environment); [|exact IH].
  destruct (nth_error (split "|" (trim entry)) 1) as [url|]; [|reflexivity].
  destruct (url =? "disabled"); [reflexivity|].
  destruct (negb (matchesHttpSchema url)); [|reflexivity].
  apply avoids_bind; [reflexivity|intros _ _; exact IH].
Qed.

Lemma loop_state_agrees (environment : string) (entries : list string) :
  forall t v,
    findEnvironmentUrlLoop environment entries = (t, Ret v) ->
    savedState "environment_url" t = Some (recorded v)
    /\ output "environment_url" t = Some (recorded v)
    /\ (v = VNull
        \/ exists url, v = VStr url /\ matchesHttpSchema url = true
                       /\ url <> "disabled").
Proof.
  induction entries as [|entry rest IH]; intros t v; cbn [findEnvironmentUrlLoop].
  - cbn. intros H. injection H as <- <-. cbn. auto.
  - destruct (nth_error (split "|" (trim entry)) 0) as [name|]; [|apply IH].
    destruct (name =? environment); [|apply IH].
    destruct (nth_error (split "|" (trim entry)) 1) as [url|]; [|discriminate].
    destruct (url =? "disabled") eqn:Hd.
    { cbn. intros H. injection H as <- <-. cbn. auto. }
    destruct (matchesHttpSchema url) eqn:Hm; cbn [negb].
    + cbn. intros H. injection H as <- <-. cbn.
      split; [reflexivity|split; [reflexivity|]].
      right. exists url. apply String.eqb_neq in Hd. auto.
    + cbn. destruct (findEnvironmentUrlLoop environment rest) as [t' r'] eqn:E.
      intros H. injection H as <- ->.
      destruct (IH t' v eq_refl) as [Hs [Ho Hv]].
      cbn [savedState output]. rewrite Hs, Ho. auto.
Qed.

(** X4: what [findEnvironmentUrl] returns is what it records. For a
    null or blank input it returns [null] and records nothing. For a
    text that is not blank, whenever it returns, the state and the
    output [environment_url] hold the returned URL, or the text
    ['null'] when it returns [null]; a returned URL always has the
    http(s) schema and is never the word [disabled]. It returns for no
    input that is neither null nor a text. *)
Theorem url_state_agrees (environment : string) (environment_urls : jsval) :
  let r := findEnvironmentUrl environment environment_urls in
  (environment_urls = VNull
   \/ (exists s, environment_urls = VStr s /\ trim s = "") ->
   r = ([], Ret VNull))
  /\ (forall s v,
        environment_urls = VStr s -> trim s <> "" -> outcome r = Ret v ->
        savedState "environment_url" (events r) = Some (recorded v)
        /\ output "environment_url" (events r) = Some (recorded v)
        /\ (v = VNull
            \/ exists url, v = VStr url /\ matchesHttpSchema url = true
                           /\ url <> "disabled"))
  /\ (forall v,
        outcome r = Ret v ->
        environment_urls = VNull \/ exists s, environment_urls = VStr s).
Proof.
  cbv zeta. unfold findEnvironmentUrl. split; [|split].
  - intros [ -> |[s [ -> Hs]]]; [reflexivity|]. now rewrite Hs.
  - intros s v -> Hs. apply String.eqb_neq in Hs. rewrite Hs.
    destruct (findEnvironmentUrlLoop environment (split "," (trim s)))
      as [t r] eqn:E.
    cbn. intros ->. exact (loop_state_agrees _ _ _ _ E).
  - intros v. destruct environment_urls as [| | | |s]; try discriminate.
    + intros _. now left.
    + intros _. right. now exists s.
Qed.

Lemma url_state_agrees_witness :
  let r := findEnvironmentUrl "staging"
             (VStr "production|https://example.com,staging|http://stage.example.com") in
  savedState "environment_url" (events r) = Some (VStr "http://stage.example.com")
  /\ output "environment_url" (events r) = Some (VStr "http://stage.example.com").
Proof.
  intros r.
  destruct (proj1 (proj2 (url_state_agrees "staging"
              (VStr "production|https://example.com,staging|http://stage.example.com")))
              "production|https://example.com,staging|http://stage.example.com"
              (VStr "http://stage.example.com") eq_refl ltac:(discriminate) eq_refl)
    as [Hs [Ho _]].
  split; [exact Hs|exact Ho].
Defined.

(** *** Well-formed pairs *)

Lemma visible_ws1 (c : ascii) : visible c = true -> ws1 c = false.
Proof.
  unfold visible, ws1. intros H. apply andb_true_iff in H as [H _].
  remember (code c) as n eqn:E. clear E.
  do 33 (destruct n as [|n]; [discriminate H|]).
  reflexivity.
Qed.

Lemma visible_not_lead (c : ascii) (k : nat) :
  visible c = true -> 126 < k -> (code c =? k)%nat = false.
Proof.
  unfold visible. intros H Hk. apply andb_true_iff in H as [_ H].
  apply Nat.leb_le in H. apply Nat.eqb_neq. lia.
Qed.

Lemma visible_ws2 (c c2 : ascii) : visible c = true -> ws2 c c2 = false.
Proof.
  intros H. unfold ws2. now rewrite (visible_not_lead c 194 H) by lia.
Qed.

Lemma visible_ws3 (c c2 c3 : ascii) : visible c = true -> ws3 c c2 c3 = false.
Proof.
  intros H. unfold ws3. cbv zeta.
  rewrite (visible_not_lead c 225 H), (visible_not_lead c 226 H),
    (visible_not_lead c 227 H), (visible_not_lead c 239 H) by lia.
  reflexivity.
Qed.

(** A text that starts with a visible character has no leading white
    space. *)
Lemma trimStart_visible (c : ascii) (r : string) :
  visible c = true -> trimStart (String c r) = String c r.
Proof.
  intros H. cbn [trimStart]. rewrite (visible_ws1 c H).
  destruct r as [|c2 r2]; [reflexivity|]. rewrite (visible_ws2 c c2 H).
  destruct r2 as [|c3 r3]; [reflexivity|]. now rewrite (visible_ws3 c c2 c3 H).
Qed.

Lemma trimEnd_visible (s : string) :
  allChars visible s = true -> trimEnd s = s.
Proof.
  induction s as [|c r IH]; [reflexivity|].
  cbn [allChars]. intros H. apply andb_true_iff in H as [Hc Hr].
  cbn [trimEnd]. unfold blank. rewrite (trimStart_visible c r Hc).
  now rewrite (IH Hr).
Qed.

Lemma trim_visible (s : string) : allChars visible s = true -> trim s = s.
Proof.
  intros H. unfold trim. destruct s as [|c r]; [reflexivity|].
  pose proof H as H'. cbn [allChars] in H'. apply andb_true_iff in H' as [Hc _].
  rewrite (trimStart_visible c r Hc). now apply trimEnd_visible.
Qed.

Lemma allChars_app (p : ascii -> bool) (a b : string) :
  allChars p (a ++ b) = allChars p a && allChars p b.
Proof.
  induction a as [|c a IH]; [reflexivity|].
  cbn. rewrite IH. now rewrite andb_assoc.
Qed.

Lemma allChars_weaken (p q : ascii -> bool) (s : string) :
  (forall c, p c = true -> q c = true) ->
  allChars p s = true -> allChars q s = true.
Proof.
  intros Hpq. induction s as [|c r IH]; [reflexivity|].
  cbn. intros H. apply andb_true_iff in H as [Hc Hr].
  now rewrite (Hpq c Hc), (IH Hr).
Qed.

Lemma plain_visible (s : string) : plain s = true -> allChars visible s = true.
Proof.
  apply allChars_weaken. unfold plainChar. intros c H.
  apply andb_true_iff in H as [H _]. now apply andb_true_iff in H as [H _].
Qed.

Lemma plain_no_comma (s : string) :
  plain s = true -> allChars (fun a => negb (Ascii.eqb a ",")) s = true.
Proof.
  apply allChars_weaken. unfold plainChar. intros c H.
  apply andb_true_iff in H as [H _]. now apply andb_true_iff in H as [_ H].
Qed.

Lemma plain_no_bar (s : string) :
  plain s = true -> allChars (fun a => negb (Ascii.eqb a "|")) s = true.
Proof.
  apply allChars_weaken. unfold plainChar. intros c H.
  now apply andb_true_iff in H as [_ H].
Qed.

(** Splitting a text that lacks the separator gives the text. *)
Lemma split_lacks (c : ascii) (s : string) :
  allChars (fun a => negb (Ascii.eqb a c)) s = true -> split c s = [s].
Proof.
  induction s as [|a r IH]; [reflexivity|].
  cbn [allChars split]. intros H. apply andb_true_iff in H as [Ha Hr].
  apply negb_true_iff in Ha. now rewrite Ha, (IH Hr).
Qed.

(** Splitting cuts at the first separator. *)
Lemma split_app (c : ascii) (s t : string) :
  allChars (fun a => negb (Ascii.eqb a c)) s = true ->
  split c (s ++ String c t) = s :: split c t.
Proof.
  induction s as [|a r IH]; cbn [allChars append split].
  - intros _. now rewrite Ascii.eqb_refl.
  - intros H. apply andb_true_iff in H as [Ha Hr].
    apply negb_true_iff in Ha. now rewrite Ha, (IH Hr).
Qed.

Lemma renderPair_visible (p : string * string) :
  plainPair p -> allChars visible (renderPair p) = true.
Proof.
  intros [H1 H2]. unfold renderPair. rewrite allChars_app.
  rewrite (plain_visible _ H1). cbn. now apply plain_visible.
Qed.

Lemma renderPair_no_comma (p : string * string) :
  plainPair p ->
  allChars (fun a => negb (Ascii.eqb a ",")) (renderPair p) = true.
Proof.
  intros [H1 H2]. unfold renderPair. rewrite allChars_app.
  rewrite (plain_no_comma _ H1). cbn. now apply plain_no_comma.
Qed.

Lemma renderPair_split (p : string * string) :
  plainPair p -> split "|" (trim (renderPair p)) = [fst p; snd p].
Proof.
  intros Hp. rewrite (trim_visible _ (renderPair_visible p Hp)).
  destruct Hp as [H1 H2]. unfold renderPair.
  change (fst p ++ "|" ++ snd p) with (fst p ++ String "|" (snd p)).
  rewrite (split_app "|" _ _ (plain_no_bar _ H1)).
  now rewrite (split_lacks "|" _ (plain_no_bar _ H2)).
Qed.

Lemma renderPairs_visible (ps : list (string * string)) :
  Forall plainPair ps -> allChars visible (renderPairs ps) = true.
Proof.
  unfold renderPairs. induction 1 as [|p ps Hp Hps IH]; [reflexivity|].
  cbn [map join]. destruct (map renderPair ps) as [|q qs] eqn:E.
  - now apply renderPair_visible.
  - rewrite !allChars_app, (renderPair_visible p Hp). cbn. exact IH.
Qed.

Lemma renderPairs_split (ps : list (string * string)) :
  Forall plainPair ps -> ps <> [] ->
  split "," (renderPairs ps) = map renderPair ps.
Proof.
  unfold renderPairs. induction 1 as [|p ps Hp Hps IH]; [congruence|].
  intros _. cbn [map join]. destruct ps as [|q qs].
  - cbn [map]. now apply split_lacks, renderPair_no_comma.
  - cbn [map] in *.
    change (renderPair p ++ "," ++ join "," (renderPair q :: map renderPair qs))
      with (renderPair p ++ String "," (join "," (renderPair q :: map renderPair qs))).
    rewrite (split_app "," _ _ (renderPair_no_comma p Hp)).
    f_equal. apply IH. discriminate.
Qed.

Lemma loop_refines (environment : string) (ps : list (string * string)) :
  Forall plainPair ps ->
  outcome (findEnvironmentUrlLoop environment (map renderPair ps))
  = Ret (lookupUrl environment ps).
Proof.
  induction 1 as [|[name url] ps Hp Hps IH]; [reflexivity|].
  cbn [map findEnvironmentUrlLoop lookupUrl].
  rewrite (renderPair_split (name, url) Hp). cbn [nth_error fst snd].
  destruct (name =? environment); [|exact IH].
  destruct (url =? "disabled"); [reflexivity|].
  destruct (matchesHttpSchema url); cbn [negb]; [reflexivity|].
  cbn. destruct (findEnvironmentUrlLoop environment (map renderPair ps)).
  exact IH.
Qed.

(** X5: on an input made of well-formed pairs (names and URLs of
    visible characters without comma or bar, joined as
    [name|url,name|url,...]) [findEnvironmentUrl] is the lookup in the
    list of pairs: the first pair of the environment decides, [disabled]
    gives [null], a URL without the http(s) schema is passed over, and
    an environment without a usable pair gives [null]. *)
Theorem findEnvironmentUrl_refines
    (environment : string) (ps : list (string * string)) :
  Forall plainPair ps ->
  outcome (findEnvironmentUrl environment (VStr (renderPairs ps)))
  = Ret (lookupUrl environment ps).
Proof.
  intros Hps. unfold findEnvironmentUrl.
  destruct ps as [|p ps']; [reflexivity|].
  rewrite (trim_visible _ (renderPairs_visible _ Hps)).
  rewrite (renderPairs_split _ Hps) by discriminate.
  assert (Hne : (renderPairs (p :: ps') =? "") = false).
  { apply String.eqb_neq. intros E.
    apply (f_equal (split ",")) in E.
    rewrite (renderPairs_split _ Hps) in E by discriminate.
    cbn [split map] in E. injection E as E _.
    apply (f_equal String.length) in E. unfold renderPair in E.
    rewrite length_app in E. cbn in E. lia. }
  rewrite Hne. now apply loop_refines.
Qed.

Lemma findEnvironmentUrl_refines_witness :
  outcome (findEnvironmentUrl "staging"
             (VStr (renderPairs [("production", "https://example.com");
                                 ("staging", "stage.example.com");
                                 ("staging", "disabled");
                                 ("staging", "https://late.example.com")])))
  = Ret VNull.
Proof.
  apply (findEnvironmentUrl_refines "staging"
           [("production", "https://example.com");
            ("staging", "stage.example.com");
            ("staging", "disabled");
            ("staging", "https://late.example.com")]).
  repeat constructor.
Defined.

(** *** The environment of a run *)

(** A search that finds nothing says nothing. *)
Lemma not_found_silent (targets : list string)
    (body trigger noop_trigger stable_branch environment : string) :
  outcome (onDeploymentChecks targets body trigger noop_trigger stable_branch
             environment) = Ret None ->
  onDeploymentChecks targets body trigger noop_trigger stable_branch environment
  = ([], Ret None).
Proof.
  induction targets as [|target rest IH]; [reflexivity|].
  cbn [onDeploymentChecks].
  repeat match goal with
         | |- outcome (if ?c then _ else _) = _ -> _ =>
             destruct c; [discriminate|]
         end.
  exact IH.
Qed.

Lemma environmentTargets_cases
    (x : externals) (inputs : string -> string)
    (environment body trigger alt_trigger stable_branch : string)
    (reactionId environment_urls : jsval) (eo : environmentObj) :
  let r := environmentTargets x inputs environment body trigger alt_trigger
             stable_branch reactionId environment_urls in
  outcome r = Ret eo ->
  exists target,
    eo_environment eo = VStr target
    /\ (In target (map trim (split "," (trim (inputs "environment_targets"))))
        \/ target = environment)
    /\ noBypass (events r) = true.
Proof.
  cbv zeta. unfold environmentTargets. cbv zeta.
  rewrite getInput_optional, Lifecycle.bind_ret_l.
  pose proof (onDeploymentChecks_no_bypass
                (map trim (split "," (trim (inputs "environment_targets"))))
                body trigger alt_trigger stable_branch environment) as Hquiet.
  pose proof (TargetsProps.resolved_in_targets
                (map trim (split "," (trim (inputs "environment_targets"))))
                body trigger alt_trigger stable_branch environment) as Hconf.
  unfold avoids in Hquiet.
  destruct (onDeploymentChecks _ body trigger alt_trigger stable_branch environment)
    as [t [[detected|]|e]]; cbn [events outcome fst snd] in *; cbn [bind].
  - match goal with
    | |- context [findEnvironmentUrl detected ?u] =>
        pose proof (findEnvironmentUrl_no_bypass detected u) as Hurl;
        unfold avoids in Hurl;
        destruct (findEnvironmentUrl detected u) as [t' [url|e]]
    end; cbn [events fst] in Hurl; cbn; [|discriminate].
    intros H. injection H as <-. exists detected.
    split; [reflexivity|]. split; [now apply Hconf|].
    unfold noBypass. rewrite ?app_nil_r, !forallb_app, Hquiet, Hurl. reflexivity.
  - cbn. discriminate.
  - cbn. discriminate.
Qed.

(** What [environmentTargets] does when the search finds nothing. *)
Lemma environmentTargets_not_found
    (x : externals) (inputs : string -> string)
    (environment body trigger alt_trigger stable_branch : string)
    (reactionId environment_urls : jsval) :
  let targets := map trim (split "," (trim (inputs "environment_targets"))) in
  outcome (onDeploymentChecks targets body trigger alt_trigger stable_branch
             environment) = Ret None ->
  environmentTargets x inputs environment body trigger alt_trigger stable_branch
    reactionId environment_urls
  = ([Warning (noTargetMessage x (join "," targets));
      SaveState "bypass" (VStr "true")],
     Throw (referenceError "actionStatus is not defined")).
Proof.
  cbv zeta. intros H. unfold environmentTargets. cbv zeta.
  rewrite getInput_optional, Lifecycle.bind_ret_l.
  rewrite (not_found_silent _ _ _ _ _ _ H). reflexivity.
Qed.

(** X6: [environmentTargets] returns only with a target. When it
    returns, the environment is the text of a configured target
    (trimmed) or of the default environment, and the bypass state has
    not been touched. When the search finds nothing it warns with the
    list of the targets, saves the bypass state as ['true'] and then
    fails with a ReferenceError, because the file calls an
    [actionStatus] that it does not import: no comment is sent and the
    object with the environment [false] is never returned. *)
Theorem environmentTargets_result
    (x : externals) (inputs : string -> string)
    (environment body trigger alt_trigger stable_branch : string)
    (reactionId environment_urls : jsval) :
  let targets := map trim (split "," (trim (inputs "environment_targets"))) in
  let r := environmentTargets x inputs environment body trigger alt_trigger
             stable_branch reactionId environment_urls in
  (forall eo,
     outcome r = Ret eo ->
     exists target,
       eo_environment eo = VStr target
       /\ (In target targets \/ target = environment)
       /\ noBypass (events r) = true)
  /\ (outcome (onDeploymentChecks targets body trigger alt_trigger stable_branch
                 environment) = Ret None ->
      r = ([Warning (noTargetMessage x (join "," targets));
            SaveState "bypass" (VStr "true")],
           Throw (referenceError "actionStatus is not defined"))).
Proof.
  cbv zeta. split.
  - intros eo.
    exact (environmentTargets_cases x inputs environment body trigger alt_trigger
             stable_branch reactionId environment_urls eo).
  - exact (environmentTargets_not_found x inputs environment body trigger
             alt_trigger stable_branch reactionId environment_urls).
Qed.

Lemma environmentTargets_result_witness :
  environmentTargets Scenario.collaborators
    (Scenario.workflowInputs "production, staging") "production"
    ".deploy to qa" ".deploy" "noop" "main" (VNum 7) (VStr "")
  = ([Warning
        ("No matching environment target found. Please check your command and try again. You can read more about environment targets in the README of this Action."
         ++ nl ++ nl
         ++ "> The following environment targets are available: `production,staging`");
      SaveState "bypass" (VStr "true")],
     Throw (referenceError "actionStatus is not defined")).
Proof.
  apply (environmentTargets_result Scenario.collaborators
           (Scenario.workflowInputs "production, staging") "production"
           ".deploy to qa" ".deploy" "noop" "main" (VNum 7) (VStr "")).
  reflexivity.
Defined.

End UrlProps.

(** ** More on the completion phase *)

Module PostDeployProps.
Import JS Core Core.Notations PostDeploy Shapes JSFacts Completion.

Lemma checkInputs_shape
    (comment_id status ref noop deployment_id environment : jsval) :
  (checkInputs comment_id status ref noop deployment_id environment = ret tt
   /\ notProvided comment_id = false /\ notProvided status = false
   /\ notProvided ref = false /\ notProvided noop = false
   /\ (noop <> VStr "true" ->
       notProvided deployment_id = false /\ notProvided environment = false))
  \/ exists msg,
       checkInputs comment_id status ref noop deployment_id environment
       = throw (mkError "Error" msg).
Proof.
  unfold checkInputs.
  destruct (notProvided comment_id); [right; eexists; reflexivity|].
  destruct (notProvided status); [right; eexists; reflexivity|].
  destruct (notProvided ref); [right; eexists; reflexivity|].
  destruct (notProvided noop); [right; eexists; reflexivity|].
  destruct (strictEqStr noop "true") eqn:E; cbn [negb].
  - left. repeat split; try reflexivity;
      apply strictEqStr_true in E; congruence.
  - destruct (notProvided deployment_id); [right; eexists; reflexivity|].
    destruct (notProvided environment); [right; eexists; reflexivity|].
    left. repeat split; reflexivity.
Qed.

(** X7: when the comment update fails, [postDeploy] fails with it and
    the deployment status is left alone: whatever the inputs, no
    deployment call is made and the result is a thrown error, the one
    of [actionStatus] or, before that, one of the input checks. *)
Theorem comment_failure_stops
    (x : externals) (ctx : context) (e : thrown)
    (comment_id reaction_id status customMessage ref noop deployment_id
     environment environment_url environment_url_in_comment : jsval) :
  (forall rid message success, actionStatus x rid message success = Throw e) ->
  let r := postDeploy x ctx comment_id reaction_id status customMessage ref noop
             deployment_id environment environment_url
             environment_url_in_comment in
  noDeployment (events r) = true
  /\ (outcome r = Throw e
      \/ exists msg, r = ([], Throw (mkError "Error" msg))).
Proof.
  intros Hact. cbv zeta. unfold postDeploy.
  destruct (checkInputs_shape comment_id status ref noop deployment_id environment)
    as [[-> _]|[msg ->]].
  - unfold call. cbn [bind ret]. rewrite Hact. cbn. auto.
  - cbn. split; [reflexivity|]. right. now exists msg.
Qed.

Lemma comment_failure_stops_witness :
  let x := {| dedent := dedent Scenario.collaborators;
              parseInt := parseInt Scenario.collaborators;
              getOctokit := getOctokit Scenario.collaborators;
              contextCheck := contextCheck Scenario.collaborators;
              triggerCheck := triggerCheck Scenario.collaborators;
              reactEmote := reactEmote Scenario.collaborators;
              validPermissions := validPermissions Scenario.collaborators;
              actionStatus := fun _ _ _ => Throw (mkError "HttpError" "Not Found");
              help := help Scenario.collaborators;
              prechecks := prechecks Scenario.collaborators;
              createComment := createComment Scenario.collaborators;
              createDeployment := createDeployment Scenario.collaborators;
              createDeploymentStatus :=
                createDeploymentStatus Scenario.collaborators |} in
  let r := postDeploy x (Scenario.commentContext ".deploy")
             (VStr "1001") (VStr "7") (VStr "success") VNull (VStr "feature")
             (VStr "false") (VStr "42") (VStr "production") VNull (VBool true) in
  noDeployment (events r) = true
  /\ (outcome r = Throw (mkError "HttpError" "Not Found")
      \/ exists msg, r = ([], Throw (mkError "Error" msg))).
Proof.
  intros x.
  apply (comment_failure_stops x (Scenario.commentContext ".deploy")
           (mkError "HttpError" "Not Found")).
  reflexivity.
Defined.

(** X8: a [postDeploy] that returns has had valid inputs and has made
    its calls. It returns ['success - noop'] only for noop ['true'],
    after the comment update alone; it returns ['success'] only for
    another noop value, after the comment update and then the
    deployment status; and it returns nothing else. *)
Theorem postDeploy_returns
    (x : externals) (ctx : context)
    (comment_id reaction_id status customMessage ref noop deployment_id
     environment environment_url environment_url_in_comment : jsval)
    (v : string) :
  let r := postDeploy x ctx comment_id reaction_id status customMessage ref noop
             deployment_id environment environment_url
             environment_url_in_comment in
  let update :=
    ActionStatus (parseInt x reaction_id)
      (VStr (message_fmt x ctx status customMessage ref noop environment
               environment_url environment_url_in_comment))
      (VBool (successOf status)) in
  outcome r = Ret v ->
  notProvided comment_id = false /\ notProvided status = false
  /\ notProvided ref = false /\ notProvided noop = false
  /\ ((v = "success - noop" /\ noop = VStr "true" /\ events r = [update])
      \/ (v = "success" /\ noop <> VStr "true"
          /\ notProvided deployment_id = false
          /\ notProvided environment = false
          /\ events r
             = [update;
                CreateDeploymentStatus ref
                  (if successOf status then "success" else "failure")
                  deployment_id environment environment_url])).
Proof.
  cbv zeta. unfold postDeploy.
  destruct (checkInputs_shape comment_id status ref noop deployment_id environment)
    as [[-> [Hc [Hs [Hr [Hn Hrest]]]]]|[msg ->]]; [|discriminate].
  unfold call. cbn [bind ret].
  destruct (actionStatus x _ _ _) as [[]|e]; [|discriminate].
  destruct (strictEqStr noop "true") eqn:E.
  - cbn. intros H. injection H as <-.
    apply strictEqStr_true in E. repeat split; try assumption. now left.
  - apply strictEqStr_false in E. destruct (Hrest E) as [Hd He].
    destruct (createDeploymentStatus x ref _ deployment_id environment
                environment_url) as [[]|e]; [|discriminate].
    cbn. intros H. injection H as <-.
    repeat split; try assumption. right. repeat split; assumption.
Qed.

Lemma postDeploy_returns_witness :
  let r := postDeploy Scenario.collaborators (Scenario.commentContext ".deploy")
             (VStr "1001") (VStr "7") (VStr "failure") VNull (VStr "feature")
             (VStr "false") (VStr "42") (VStr "production") VNull (VBool true) in
  events r
  = [ActionStatus (VNum 7)
       (VStr ("  ### Deployment Results ❌" ++ nl ++ nl
              ++ "  **monalisa** had a failure when deploying branch `feature` to **production**"))
       (VBool false);
     CreateDeploymentStatus (VStr "feature") "failure" (VStr "42")
       (VStr "production") VNull].
Proof.
  intros r.
  destruct (postDeploy_returns Scenario.collaborators
              (Scenario.commentContext ".deploy")
              (VStr "1001") (VStr "7") (VStr "failure") VNull (VStr "feature")
              (VStr "false") (VStr "42") (VStr "production") VNull (VBool true)
              "success" eq_refl) as [_ [_ [_ [_ [[H _]|[_ [_ [_ [_ H]]]]]]]]].
  - discriminate H.
  - exact H.
Defined.

(** *** Escapes in the custom message *)

Lemma not_backslash (a : ascii) :
  negb (Ascii.eqb a backslash) = true -> (code a =? 92)%nat = false.
Proof.
  intros H. apply negb_true_iff, Ascii.eqb_neq in H.
  apply Nat.eqb_neq. intros E. apply H.
  unfold code in E. unfold backslash. rewrite <- E.
  symmetry. apply ascii_nat_embedding.
Qed.

Lemma unescape_cons_other (x a : ascii) (rep w : string) :
  (code a =? 92)%nat = false ->
  unescape x rep (String a w) = String a (unescape x rep w).
Proof.
  intros H. cbn [unescape]. destruct w as [|b r]; [reflexivity|].
  now rewrite H.
Qed.

Lemma unescape_text (x : ascii) (rep s rest : string) :
  noBackslash s = true ->
  unescape x rep (s ++ rest) = s ++ unescape x rep rest.
Proof.
  induction s as [|a s IH]; [reflexivity|].
  unfold noBackslash in *. cbn [allChars append]. intros H.
  apply andb_true_iff in H as [Ha Hs].
  rewrite (unescape_cons_other x a rep _ (not_backslash a Ha)).
  now rewrite (IH Hs).
Qed.

Lemma unescape_newlines (ps : list piece) :
  Forall (fun p => textWithoutBackslash p = true) ps ->
  unescape "n" nl (written ps) = afterNewlines ps.
Proof.
  induction 1 as [|p ps Hp Hps IH]; [reflexivity|].
  destruct p as [s| |]; cbn [written afterNewlines].
  - now rewrite (unescape_text "n" nl s _ Hp), IH.
  - change (unescape "n" nl (String backslash (String "n" (written ps))))
      with (nl ++ unescape "n" nl (written ps)).
    now rewrite IH.
  - change (unescape "n" nl (String backslash (String "t" (written ps))))
      with (String backslash (unescape "n" nl (String "t" (written ps)))).
    rewrite (unescape_cons_other "n" "t" nl _ eq_refl). now rewrite IH.
Qed.

Lemma unescape_tabs (ps : list piece) :
  Forall (fun p => textWithoutBackslash p = true) ps ->
  unescape "t" tab (afterNewlines ps) = shown ps.
Proof.
  induction 1 as [|p ps Hp Hps IH]; [reflexivity|].
  destruct p as [s| |]; cbn [afterNewlines shown].
  - now rewrite (unescape_text "t" tab s _ Hp), IH.
  - change (nl ++ afterNewlines ps)
      with (String (ascii_of_nat 10) (afterNewlines ps)).
    rewrite (unescape_cons_other "t" (ascii_of_nat 10) tab _ eq_refl).
    now rewrite IH.
  - change (unescape "t" tab (String backslash (String "t" (afterNewlines ps))))
      with (tab ++ unescape "t" tab (afterNewlines ps)).
    now rewrite IH.
Qed.

(** The mark of a status is one of three signs, each on one line. *)
Lemma mark_oneLine (ctx : context) (status ref noop environment : jsval) :
  oneLine (snd (statusMessage ctx status ref noop environment)) = true.
Proof.
  unfold statusMessage.
  destruct (strictEqStr status "success"); [reflexivity|].
  destruct (strictEqStr status "failure"); reflexivity.
Qed.

(** X9: a custom message written as plain text (free of backslashes)
    with [\\n] and [\\t] escapes in between goes into the text of the
    comment, between the lines of the Show Results block, with every
    escape turned into one real line feed or tab and the text left as
    it was. With dedent-js and a sentence of one line, the comment then
    shows the message unchanged, behind two spaces, provided none of
    its line feeds is followed by a tab or a space; such an indentation
    inside the message is what dedent would cut into. *)
Theorem custom_message_escapes
    (x : externals) (ctx : context) (status ref noop environment : jsval)
    (ps : list piece) :
  Forall (fun p => textWithoutBackslash p = true) ps ->
  written ps <> "" ->
  let sentence := fst (statusMessage ctx status ref noop environment) in
  let mark := snd (statusMessage ctx status ref noop environment) in
  unescape "t" tab (unescape "n" nl (written ps)) = shown ps
  /\ messageBody x ctx status (VStr (written ps)) ref noop environment
     = dedent x
         (nl ++ "    ### Deployment Results " ++ mark ++ nl
          ++ nl
          ++ "    " ++ sentence ++ nl
          ++ "  " ++ nl
          ++ "    <details><summary>Show Results</summary>" ++ nl
          ++ "  " ++ nl
          ++ "    " ++ shown ps ++ nl
          ++ "  " ++ nl
          ++ "    </details>" ++ nl
          ++ "    ")
  /\ ((forall s, dedent x s = dedentJs s) ->
      oneLine sentence = true ->
      flushLeft (shown ps) = true ->
      messageBody x ctx status (VStr (written ps)) ref noop environment
      = "  ### Deployment Results " ++ mark ++ nl
        ++ nl
        ++ "  " ++ sentence ++ nl
        ++ nl
        ++ "  <details><summary>Show Results</summary>" ++ nl
        ++ nl
        ++ "  " ++ shown ps ++ nl
        ++ nl
        ++ "  </details>").
Proof.
  intros Hps Hne. cbv zeta.
  assert (E : unescape "t" tab (unescape "n" nl (written ps)) = shown ps)
    by now rewrite unescape_newlines, unescape_tabs.
  assert (Hbody : messageBody x ctx status (VStr (written ps)) ref noop environment
                  = dedent x
                      (nl ++ "    ### Deployment Results "
                       ++ snd (statusMessage ctx status ref noop environment) ++ nl
                       ++ nl
                       ++ "    "
                       ++ fst (statusMessage ctx status ref noop environment) ++ nl
                       ++ "  " ++ nl
                       ++ "    <details><summary>Show Results</summary>" ++ nl
                       ++ "  " ++ nl
                       ++ "    " ++ shown ps ++ nl
                       ++ "  " ++ nl
                       ++ "    </details>" ++ nl
                       ++ "    ")).
  { unfold messageBody.
    destruct (statusMessage ctx status ref noop environment) as [message mark].
    cbn [truthy length_gt_0 lengthOf toString fst snd].
    apply String.eqb_neq in Hne. rewrite Hne.
    destruct (written ps) as [|c w] eqn:Hw; [discriminate Hne|].
    cbn [negb andb String.length]. now rewrite E. }
  split; [exact E|]. split; [exact Hbody|].
  intros Hd Hline Hflush. rewrite Hbody, Hd.
  apply DedentFacts.dedent_results_custom;
    [apply mark_oneLine|exact Hline|exact Hflush].
Qed.

Lemma custom_message_escapes_witness :
  messageBody Scenario.collaborators (Scenario.commentContext ".deploy")
    (VStr "success")
    (VStr (written [Text "plan:"; EscapedNewline; Text "+ 1 to add";
                    EscapedTab; Text "(new)"]))
    (VStr "feature") (VStr "false") (VStr "production")
  = "  ### Deployment Results ✅" ++ nl
    ++ nl
    ++ "  **monalisa** successfully deployed branch `feature` to **production**"
    ++ nl
    ++ nl
    ++ "  <details><summary>Show Results</summary>" ++ nl
    ++ nl
    ++ "  plan:" ++ nl ++ "+ 1 to add" ++ tab ++ "(new)" ++ nl
    ++ nl
    ++ "  </details>".
Proof.
  apply (custom_message_escapes Scenario.collaborators
           (Scenario.commentContext ".deploy") (VStr "success") (VStr "feature")
           (VStr "false") (VStr "production")
           [Text "plan:"; EscapedNewline; Text "+ 1 to add"; EscapedTab;
            Text "(new)"]).
  - repeat constructor.
  - discriminate.
  - reflexivity.
  - reflexivity.
  - reflexivity.
Defined.

(** What dedent cuts into: a tab written right behind a line feed is
    the shortest indentation of the whole text, so it is removed, and
    with it one space of every other line. *)
Example custom_message_indentation :
  messageBody Scenario.collaborators (Scenario.commentContext ".deploy")
    (VStr "success")
    (VStr (written [Text "line one"; EscapedNewline; EscapedTab;
                    Text "line two"]))
    (VStr "feature") (VStr "false") (VStr "production")
  = "   ### Deployment Results ✅" ++ nl
    ++ nl
    ++ "   **monalisa** successfully deployed branch `feature` to **production**"
    ++ nl
    ++ " " ++ nl
    ++ "   <details><summary>Show Results</summary>" ++ nl
    ++ " " ++ nl
    ++ "   line one" ++ nl ++ "line two" ++ nl
    ++ " " ++ nl
    ++ "   </details>".
Proof. reflexivity. Qed.

End PostDeployProps.

(** ** More on the first phase *)

Module RunProps.
Import JS Core Core.Notations EnvironmentTargets PostDeploy Main Shapes JSFacts
  Lifecycle.

(** X10: in merge deploy mode [run] looks at nothing but its inputs:
    whatever the event context, even without a comment, it starts the
    identical-commit check for the default environment, saves the
    bypass state and returns ['success - merge deploy mode']. *)
Theorem run_merge_deploy_mode
    (x : externals) (inputs : string -> string) (ctx : context)
    (penv : processEnv) :
  inputs "github_token" <> "" ->
  inputs "environment" <> "" ->
  getOctokit x (trim (inputs "github_token")) = Ret tt ->
  trim (inputs "merge_deploy_mode") = "true" ->
  run x inputs ctx penv
  = ([SaveState "isPost" (VStr "true");
      SaveState "actionsToken" (VStr (trim (inputs "github_token")));
      IdenticalCommitCheck (trim (inputs "environment"));
      SaveState "bypass" (VStr "true")],
     Ret (VStr "success - merge deploy mode")).
Proof.
  intros Htoken Henv Hoct Hmerge.
  apply String.eqb_neq in Htoken, Henv.
  unfold run, runTry, getInput.
  run_steps. rewrite Htoken. run_steps. rewrite Henv. run_steps.
  rewrite Hoct. run_steps. rewrite Hmerge. reflexivity.
Qed.

Lemma run_merge_deploy_mode_witness :
  let inputs := fun name =>
    if name =? "merge_deploy_mode" then "true"
    else Scenario.workflowInputs "production,staging" name in
  run Scenario.collaborators inputs
    (mkContext (VStr "monalisa") None None None VUndefined)
    (mkProcessEnv VUndefined VUndefined)
  = ([SaveState "isPost" (VStr "true");
      SaveState "actionsToken" (VStr (trim (inputs "github_token")));
      IdenticalCommitCheck (trim (inputs "environment"));
      SaveState "bypass" (VStr "true")],
     Ret (VStr "success - merge deploy mode")).
Proof.
  intros inputs.
  apply (run_merge_deploy_mode Scenario.collaborators inputs
           (mkContext (VStr "monalisa") None None None VUndefined)
           (mkProcessEnv VUndefined VUndefined));
    try reflexivity; discriminate.
Defined.

(** X11: a comment that activates neither trigger ends the run
    quietly: [run] saves the bypass state, sets [triggered] to
    ['false'] and returns ['safe-exit'] without any platform call and
    without marking the run as failed. *)
Theorem run_no_trigger
    (x : externals) (inputs : string -> string) (ctx : context)
    (penv : processEnv) (cmt : comment) (issue : jsval)
    (ownerRepo : string * string) :
  inputs "github_token" <> "" ->
  inputs "environment" <> "" ->
  getOctokit x (trim (inputs "github_token")) = Ret tt ->
  trim (inputs "merge_deploy_mode") <> "true" ->
  payload_comment ctx = Some cmt ->
  contextCheck x ctx = Ret true ->
  payload_issue_number ctx = Some issue ->
  repo ctx = Some ownerRepo ->
  triggerCheck x (trim (inputs "prefix_only") =? "true") (trim (c_body cmt))
    (trim (inputs "trigger")) = Ret false ->
  triggerCheck x (trim (inputs "prefix_only") =? "true") (trim (c_body cmt))
    (trim (inputs "help_trigger")) = Ret false ->
  run x inputs ctx penv
  = ([SaveState "isPost" (VStr "true");
      SaveState "actionsToken" (VStr (trim (inputs "github_token")));
      SaveState "bypass" (VStr "true");
      SetOutput "triggered" (VStr "false");
      Info "no trigger detected in comment - exiting"],
     Ret (VStr "safe-exit")).
Proof.
  intros Htoken Henv Hoct Hmerge Hcmt Hctx Hissue Hrepo Hdeploy Hhelp.
  apply String.eqb_neq in Htoken, Henv, Hmerge.
  unfold run, runTry, getInput.
  run_steps. rewrite Htoken. run_steps. rewrite Henv. run_steps.
  rewrite Hoct. run_steps. rewrite Hmerge, Hcmt. run_steps.
  rewrite Hctx. run_steps. rewrite Hissue. run_steps. rewrite Hrepo.
  destruct ownerRepo as [owner repoName]. run_steps.
  rewrite Hdeploy. run_steps. rewrite Hhelp. reflexivity.
Qed.

Lemma run_no_trigger_witness :
  let inputs := Scenario.workflowInputs "production,staging" in
  run Scenario.collaborators inputs (Scenario.commentContext "looks good to me")
    (mkProcessEnv (VStr "https://github.com") (VStr "99"))
  = ([SaveState "isPost" (VStr "true");
      SaveState "actionsToken" (VStr (trim (inputs "github_token")));
      SaveState "bypass" (VStr "true");
      SetOutput "triggered" (VStr "false");
      Info "no trigger detected in comment - exiting"],
     Ret (VStr "safe-exit")).
Proof.
  intros inputs.
  apply (run_no_trigger Scenario.collaborators inputs
           (Scenario.commentContext "looks good to me")
           (mkProcessEnv (VStr "https://github.com") (VStr "99"))
           (mkComment "looks good to me" (VNum 1001) (Some (VStr "monalisa")))
           (VNum 5) ("octo", "app"));
    try reflexivity; discriminate.
Defined.

(** X12: a run without its token, or with the token but without the
    default environment, ends in the [catch] block before anything
    else has happened: the bypass state is saved, the run is marked as
    failed with the message that names the missing input, and [run]
    returns [undefined]. *)
Theorem run_missing_required_input
    (x : externals) (inputs : string -> string) (ctx : context)
    (penv : processEnv) :
  let caught name :=
    let error := mkError "Error" ("Input required and not supplied: " ++ name) in
    ([SaveState "bypass" (VStr "true"); ErrorLog error;
      SetFailed (VStr (errMessage error))],
     Ret VUndefined) in
  (inputs "github_token" = "" -> run x inputs ctx penv = caught "github_token")
  /\ (inputs "github_token" <> "" -> inputs "environment" = "" ->
      run x inputs ctx penv = caught "environment").
Proof.
  cbv zeta. split.
  - intros Htoken. unfold run, runTry, getInput.
    run_steps. rewrite Htoken. reflexivity.
  - intros Htoken Henv. apply String.eqb_neq in Htoken.
    unfold run, runTry, getInput.
    run_steps. rewrite Htoken. run_steps. rewrite Henv. reflexivity.
Qed.

Lemma run_missing_required_input_witness :
  run Scenario.collaborators (fun _ => "") (Scenario.commentContext ".deploy")
    (mkProcessEnv VUndefined VUndefined)
  = ([SaveState "bypass" (VStr "true");
      ErrorLog (mkError "Error" "Input required and not supplied: github_token");
      SetFailed (VStr "Input required and not supplied: github_token")],
     Ret VUndefined).
Proof.
  apply (proj1 (run_missing_required_input Scenario.collaborators (fun _ => "")
                  (Scenario.commentContext ".deploy")
                  (mkProcessEnv VUndefined VUndefined))).
  reflexivity.
Defined.

(** *** Deploy commands *)

Section DeployCommand.

(** A run that gets as far as the prechecks of a deploy command: the
    inputs are there, the context is valid, only the deploy trigger is
    found, the reaction is added and the comment names an environment. *)
Variable x : externals.
Variable inputs : string -> string.
Variable ctx : context.
Variable penv : processEnv.
Variable cmt : comment.
Variable issue : jsval.
Variables owner repoName : string.
Variables reactionId login : jsval.
Variable resolution : list event.
Variable environmentObj : environmentObj.
Variable precheckResults : precheckResults.

Hypothesis Htoken : inputs "github_token" <> "".
Hypothesis Henvironment : inputs "environment" <> "".
Hypothesis Hoctokit : getOctokit x (trim (inputs "github_token")) = Ret tt.
Hypothesis Hmerge : trim (inputs "merge_deploy_mode") <> "true".
Hypothesis Hcomment : payload_comment ctx = Some cmt.
Hypothesis Hcontext : contextCheck x ctx = Ret true.
Hypothesis Hissue : payload_issue_number ctx = Some issue.
Hypothesis Hrepo : repo ctx = Some (owner, repoName).
Hypothesis Hdeploy :
  triggerCheck x (trim (inputs "prefix_only") =? "true") (trim (c_body cmt))
    (trim (inputs "trigger")) = Ret true.
Hypothesis Hhelp :
  triggerCheck x (trim (inputs "prefix_only") =? "true") (trim (c_body cmt))
    (trim (inputs "help_trigger")) = Ret false.
Hypothesis Hreaction :
  reactEmote x (trim (inputs "reaction")) = Ret (Some reactionId).
Hypothesis Hlogin : c_user_login cmt = Some login.
Hypothesis Htargets :
  environmentTargets x inputs (trim (inputs "environment")) (trim (c_body cmt))
    (trim (inputs "trigger")) (trim (inputs "noop_trigger"))
    (trim (inputs "stable_branch")) reactionId
    (VStr (trim (inputs "environment_urls")))
  = (resolution, Ret environmentObj).
Hypothesis Htruthy : truthy (eo_environment environmentObj) = true.
Hypothesis Hprechecks :
  prechecks x (trim (c_body cmt)) (eo_environment environmentObj)
  = Ret precheckResults.

Let before : list event :=
  (triggeredPrefix (trim (inputs "github_token")) "deploy"
     (trim (inputs "reaction")) (c_id cmt) reactionId login
   ++ resolution
   ++ [Info ("environment: " ++ toString (eo_environment environmentObj));
       SaveState "environment" (eo_environment environmentObj);
       SetOutput "environment" (eo_environment environmentObj);
       SetOutput "ref" (pr_ref precheckResults);
       SaveState "ref" (pr_ref precheckResults);
       SetOutput "sha" (pr_sha precheckResults)])%list.

Let announcement : string :=
  commentBody x ctx penv owner repoName
    (if pr_noopMode precheckResults then "noop" else "branch")
    (eo_environment environmentObj) (pr_ref precheckResults).

Let request : deploymentRequest :=
  mkDeploymentRequest (pr_ref precheckResults)
    (if trim (inputs "update_branch") =? "disabled" then false else true)
    (if truthy (VStr (trim (inputs "required_contexts")))
        && negb (trim (inputs "required_contexts") =? "")
        && negb (trim (inputs "required_contexts") =? "false")
     then map trim (split "," (trim (inputs "required_contexts")))
     else [])
    (eo_environment environmentObj)
    (strictEqStr (eo_environment environmentObj)
       (trim (trim (inputs "production_environment")))).

Ltac to_prechecks :=
  pose proof Htoken as Htoken'; pose proof Henvironment as Henvironment';
  pose proof Hmerge as Hmerge';
  apply String.eqb_neq in Htoken', Henvironment', Hmerge';
  unfold run, runTry, getInput;
  run_steps; rewrite Htoken'; run_steps; rewrite Henvironment'; run_steps;
  rewrite Hoctokit; run_steps; rewrite Hmerge', Hcomment; run_steps;
  rewrite Hcontext; run_steps; rewrite Hissue; run_steps; rewrite Hrepo;
  run_steps; rewrite Hdeploy; run_steps; rewrite Hhelp; run_steps;
  rewrite Hreaction; run_steps; rewrite Hlogin; run_steps;
  unfold deployCommand; rewrite Htargets; run_steps;
  rewrite Htruthy; run_steps; rewrite Hprechecks; run_steps.

(** X13: when the prechecks reject the deployment, [run] reports their
    message on the comment, saves the bypass state, marks the run as
    failed with the same message and returns ['failure']; no deployment
    comment is written and no deployment is requested. *)
Theorem run_prechecks_rejected :
  pr_status precheckResults = false ->
  actionStatus x reactionId (pr_message precheckResults) VUndefined = Ret tt ->
  run x inputs ctx penv
  = ((before
      ++ [ActionStatus reactionId (pr_message precheckResults) VUndefined;
          SaveState "bypass" (VStr "true");
          SetFailed (pr_message precheckResults)])%list,
     Ret (VStr "failure")).
Proof.
  intros Hstatus Haction. to_prechecks.
  rewrite Hstatus. run_steps. rewrite Haction. run_steps.
  unfold before, triggeredPrefix. cbn [app]. rewrite <- !app_assoc. reflexivity.
Qed.

(** X14: a deploy command that passes the prechecks outside noop mode
    and gets a deployment id announces the deployment in a comment,
    saves [noop] as ['false'], requests one deployment for the ref of
    the prechecks and the resolved environment, saves its id, sets its
    status to ['in_progress'] with the environment URL, and returns
    ['success']; the bypass state is not touched after the environment
    lookup. *)
Theorem run_deploys (createDeploy : createDeployData) :
  pr_status precheckResults = true ->
  pr_noopMode precheckResults = false ->
  createComment x announcement = Ret tt ->
  createDeployment x request = Ret createDeploy ->
  cd_id createDeploy <> VUndefined ->
  createDeploymentStatus x (pr_ref precheckResults) "in_progress"
    (cd_id createDeploy) (eo_environment environmentObj)
    (eo_environmentUrl environmentObj) = Ret tt ->
  run x inputs ctx penv
  = ((before
      ++ [CreateComment announcement;
          SetOutput "noop" (VStr "false");
          SaveState "noop" (VStr "false");
          Debug ("production_environment: "
                 ++ toString (VBool (dr_production_environment request)));
          CreateDeployment request;
          SetOutput "deployment_id" (cd_id createDeploy);
          SaveState "deployment_id" (cd_id createDeploy);
          CreateDeploymentStatus (pr_ref precheckResults) "in_progress"
            (cd_id createDeploy) (eo_environment environmentObj)
            (eo_environmentUrl environmentObj);
          SetOutput "continue" (VStr "true")])%list,
     Ret (VStr "success")).
Proof.
  intros Hstatus Hnoop Hannounce Hcreate Hid Hprogress. to_prechecks.
  rewrite Hstatus. run_steps.
  pose proof Hannounce as Hannounce'.
  unfold announcement in Hannounce'. rewrite Hnoop in Hannounce'.
  rewrite Hnoop, Hannounce'. run_steps.
  unfold createAndStart. run_steps.
  unfold request in Hcreate. rewrite Hcreate. run_steps.
  assert (Hm : mergeRequired createDeploy = ret false).
  { unfold mergeRequired. destruct (cd_id createDeploy); congruence. }
  rewrite Hm. run_steps. rewrite Hprogress. run_steps.
  unfold before, triggeredPrefix, request, announcement.
  cbn [app dr_production_environment].
  rewrite <- !app_assoc, ?Hnoop. reflexivity.
Qed.

(** X15: when the platform answers the deployment request without an id
    and with a message that holds [Auto-merged], [run] shows the merge
    warning on the comment, saves the bypass state and returns
    ['safe-exit']; it never sets a deployment status. *)
Theorem run_merge_required (createDeploy : createDeployData) (message : string) :
  pr_status precheckResults = true ->
  pr_noopMode precheckResults = false ->
  createComment x announcement = Ret tt ->
  createDeployment x request = Ret createDeploy ->
  cd_id createDeploy = VUndefined ->
  cd_message createDeploy = VStr message ->
  includes message "Auto-merged" = true ->
  actionStatus x reactionId (VStr (mergeMessage x (VStr message))) VUndefined
  = Ret tt ->
  run x inputs ctx penv
  = ((before
      ++ [CreateComment announcement;
          SetOutput "noop" (VStr "false");
          SaveState "noop" (VStr "false");
          Debug ("production_environment: "
                 ++ toString (VBool (dr_production_environment request)));
          CreateDeployment request;
          SetOutput "deployment_id" VUndefined;
          SaveState "deployment_id" VUndefined;
          ActionStatus reactionId (VStr (mergeMessage x (VStr message)))
            VUndefined;
          Warning (mergeMessage x (VStr message));
          SaveState "bypass" (VStr "true")])%list,
     Ret (VStr "safe-exit")).
Proof.
  intros Hstatus Hnoop Hannounce Hcreate Hid Hmessage Hmerged Haction.
  to_prechecks.
  rewrite Hstatus. run_steps.
  pose proof Hannounce as Hannounce'.
  unfold announcement in Hannounce'. rewrite Hnoop in Hannounce'.
  rewrite Hnoop, Hannounce'. run_steps.
  unfold createAndStart. run_steps.
  unfold request in Hcreate. rewrite Hcreate. run_steps.
  assert (Hm : mergeRequired createDeploy = ret true).
  { unfold mergeRequired. now rewrite Hid, Hmessage, Hmerged. }
  rewrite Hm, Hid, Hmessage. run_steps. rewrite Haction. run_steps.
  unfold before, triggeredPrefix, request, announcement.
  cbn [app dr_production_environment].
  rewrite <- !app_assoc, ?Hnoop. reflexivity.
Qed.

End DeployCommand.

Lemma run_prechecks_rejected_witness :
  outcome (run Variants.rejecting (Scenario.workflowInputs "production,staging")
             (Scenario.commentContext ".deploy to staging")
             (mkProcessEnv (VStr "https://github.com") (VStr "99")))
  = Ret (VStr "failure").
Proof.
  rewrite (run_prechecks_rejected Variants.rejecting
             (Scenario.workflowInputs "production,staging")
             (Scenario.commentContext ".deploy to staging")
             (mkProcessEnv (VStr "https://github.com") (VStr "99"))
             (mkComment ".deploy to staging" (VNum 1001) (Some (VStr "monalisa")))
             (VNum 5) "octo" "app" (VNum 7) (VStr "monalisa")
             [Debug "Found environment target for branch deploy (with 'to'): staging"]
             (mkEnvironmentObj (VStr "staging") VNull)
             (mkPrecheckResults false (VStr "checks are failing") (VStr "feature")
                (VStr "abc123") false));
    try reflexivity; discriminate.
Defined.

Lemma run_deploys_witness :
  outcome (run Scenario.collaborators
             (Scenario.workflowInputs "production,staging")
             (Scenario.commentContext ".deploy to staging")
             (mkProcessEnv (VStr "https://github.com") (VStr "99")))
  = Ret (VStr "success").
Proof.
  rewrite (run_deploys Scenario.collaborators
             (Scenario.workflowInputs "production,staging")
             (Scenario.commentContext ".deploy to staging")
             (mkProcessEnv (VStr "https://github.com") (VStr "99"))
             (mkComment ".deploy to staging" (VNum 1001) (Some (VStr "monalisa")))
             (VNum 5) "octo" "app" (VNum 7) (VStr "monalisa")
             [Debug "Found environment target for branch deploy (with 'to'): staging"]
             (mkEnvironmentObj (VStr "staging") VNull)
             (mkPrecheckResults true (VStr "ok") (VStr "feature") (VStr "abc123")
                false)
             ltac:(discriminate) ltac:(discriminate) eq_refl ltac:(discriminate)
             eq_refl eq_refl eq_refl eq_refl eq_refl eq_refl eq_refl eq_refl
             eq_refl eq_refl eq_refl
             (mkCreateDeployData (VNum 42) VUndefined));
    try reflexivity; discriminate.
Defined.

Lemma run_merge_required_witness :
  outcome (run Variants.mergePending
             (Scenario.workflowInputs "production,staging")
             (Scenario.commentContext ".deploy to staging")
             (mkProcessEnv (VStr "https://github.com") (VStr "99")))
  = Ret (VStr "safe-exit").
Proof.
  rewrite (run_merge_required Variants.mergePending
             (Scenario.workflowInputs "production,staging")
             (Scenario.commentContext ".deploy to staging")
             (mkProcessEnv (VStr "https://github.com") (VStr "99"))
             (mkComment ".deploy to staging" (VNum 1001) (Some (VStr "monalisa")))
             (VNum 5) "octo" "app" (VNum 7) (VStr "monalisa")
             [Debug "Found environment target for branch deploy (with 'to'): staging"]
             (mkEnvironmentObj (VStr "staging") VNull)
             (mkPrecheckResults true (VStr "ok") (VStr "feature") (VStr "abc123")
                false)
             ltac:(discriminate) ltac:(discriminate) eq_refl ltac:(discriminate)
             eq_refl eq_refl eq_refl eq_refl eq_refl eq_refl eq_refl eq_refl
             eq_refl eq_refl eq_refl
             (mkCreateDeployData VUndefined
                (VStr "Auto-merged main into feature on deployment."))
             "Auto-merged main into feature on deployment.");
    try reflexivity; discriminate.
Defined.

(** *** What every run does *)

Lemma early_is_failure (triggers : list bool) (multipleTriggers : bool)
    (body : string) (v : jsval) :
  outcome (multipleTriggersLoop triggers multipleTriggers body) = Ret (Some v) ->
  v = VStr "failure".
Proof.
  revert multipleTriggers.
  induction triggers as [|t rest IH]; intros m; [discriminate|].
  cbn [multipleTriggersLoop]. destruct t; [destruct m|]; try apply IH.
  cbn. intros H. now injection H as <-.
Qed.

Lemma documented_bind {A} (m : M A) (f : A -> M jsval) :
  (forall a, outcome m = Ret a -> documented (f a)) -> documented (bind m f).
Proof.
  unfold documented. destruct m as [t [a|e]]; cbn; intros Hf v; [|discriminate].
  specialize (Hf a eq_refl v). destruct (f a) as [t' r]. exact Hf.
Qed.

Lemma documented_ret (v : jsval) :
  documentedReturn v = true -> documented (ret v).
Proof. intros H w E. injection E as <-. exact H. Qed.

Lemma documented_throw (e : thrown) : documented (throw e).
Proof. intros w E. discriminate E. Qed.

Ltac documented_walk :=
  repeat first
    [ apply documented_throw
    | apply documented_ret; reflexivity
    | match goal with
      | H : outcome (multipleTriggersLoop _ _ _) = Ret (Some ?v)
        |- documented (ret ?v) =>
          rewrite (early_is_failure _ _ _ _ H); apply documented_ret; reflexivity
      end
    | apply documented_bind; intros ? ?
    | match goal with
      | |- documented (if ?c then _ else _) => destruct c eqn:?
      | |- documented (let '(_, _) := ?p in _) => destruct p
      | |- documented (match ?v with _ => _ end) => destruct v eqn:?
      end ].

(** X16: what [run] returns is one of ['success'], ['success - noop'],
    ['success - merge deploy mode'], ['failure'] and ['safe-exit'], or
    [undefined] when it ended in its [catch] block. It returns unless
    what was thrown inside its [try] block is [null] or [undefined]:
    then the [catch] block fails on reading the stack of the error, and
    [run] throws that TypeError. *)
Theorem run_returns_documented
    (x : externals) (inputs : string -> string) (ctx : context)
    (penv : processEnv) :
  (forall v, outcome (run x inputs ctx penv) = Ret v ->
     documentedReturn v = true)
  /\ ((exists v, outcome (run x inputs ctx penv) = Ret v)
      <-> (forall e, outcome (runTry x inputs ctx penv) = Throw e ->
             nullish e = false))
  /\ (forall t, outcome (run x inputs ctx penv) = Throw t ->
        exists msg, t = Err (typeError msg)).
Proof.
  assert (Hd : documented (runTry x inputs ctx penv)).
  { unfold runTry, helpCommand, deployCommand, createAndStart.
    documented_walk. }
  unfold run. unfold documented in Hd.
  destruct (runTry x inputs ctx penv) as [t [v|e]]; cbn [tryCatch outcome snd] in *.
  - split; [exact Hd|]. split; [|discriminate].
    split; [discriminate|]. intros _. now exists v.
  - destruct e as [e|[| |b|n|s]]; cbn;
      (split; [intros v E; try discriminate E; now injection E as <-|]);
      (split;
       [split;
        [intros [v E] e' E'; try discriminate E; now injection E' as <-
        |intros H; try (now eexists);
         specialize (H _ eq_refl); discriminate H]
       |intros t' E; try discriminate E; injection E as <-; now eexists]).
Qed.

Lemma run_returns_documented_witness :
  let r := run Scenario.collaborators
             (Scenario.workflowInputs "production,staging")
             (Scenario.commentContext ".deploy noop")
             (mkProcessEnv (VStr "https://github.com") (VStr "99")) in
  outcome r = Ret (VStr "success - noop")
  /\ documentedReturn (VStr "success - noop") = true.
Proof.
  intros r. split; [reflexivity|].
  apply (proj1 (run_returns_documented Scenario.collaborators
                  (Scenario.workflowInputs "production,staging")
                  (Scenario.commentContext ".deploy noop")
                  (mkProcessEnv (VStr "https://github.com") (VStr "99")))).
  reflexivity.
Defined.

(** *** Handing over to the completion phase *)

Lemma ready_bind {A} (m : M A) (f : A -> M jsval) :
  (forall a, outcome m = Ret a ->
     ready (f a) /\ (handsOver (f a) -> noBypass (events m) = true)) ->
  ready (bind m f).
Proof.
  unfold ready, handsOver, noBypass.
  destruct m as [t [a|e]]; cbn; intros Hf; [|intros [H|H]; discriminate H].
  destruct (Hf a eq_refl) as [Hr Hm]. destruct (f a) as [t' r]. cbn in *.
  intros H. now rewrite forallb_app, (Hm H), (Hr H).
Qed.

Lemma ready_bind_clean {A} (m : M A) (f : A -> M jsval) :
  noBypass (events m) = true ->
  (forall a, outcome m = Ret a -> ready (f a)) ->
  ready (bind m f).
Proof.
  intros Hm Hf. apply ready_bind. intros a Ha. split; [now apply Hf|now intros _].
Qed.

Lemma getInput_no_bypass (inputs : string -> string) (name : string)
    (required : bool) :
  noBypass (events (getInput inputs name required)) = true.
Proof. unfold getInput. destruct (required && _); reflexivity. Qed.

Lemma mergeRequired_no_bypass (createDeploy : createDeployData) :
  noBypass (events (mergeRequired createDeploy)) = true.
Proof.
  unfold mergeRequired.
  destruct (cd_id createDeploy); try reflexivity.
  destruct (cd_message createDeploy); reflexivity.
Qed.

Ltac ready_leaf :=
  solve [ unfold ready, handsOver; cbn; intros [Hover|Hover];
          first [discriminate Hover | reflexivity] ].

Ltac ready_walk :=
  repeat first
    [ match goal with
      | |- ready (bind (match ?v with _ => _ end) _) => destruct v eqn:?
      | |- ready (if ?c then _ else _) => destruct c eqn:?
      | |- ready (let '(_, _) := ?p in _) => destruct p
      | |- ready (match ?v with _ => _ end) => destruct v eqn:?
      end
    | apply ready_bind_clean;
        [ first [ reflexivity | apply getInput_no_bypass
                | apply mergeRequired_no_bypass ]
        | intros ? ? ]
    | ready_leaf ].

Ltac ready_clean_step :=
  apply ready_bind_clean;
    [ first
        [ reflexivity
        | match goal with
          | |- noBypass (events (match ?v with _ => _ end)) = true =>
              destruct v; reflexivity
          end ]
    | intros ? _ ].

Lemma ready_helpCommand (x : externals) (reactionId : jsval) :
  ready (helpCommand x reactionId).
Proof. unfold helpCommand. ready_walk. Qed.

Lemma ready_createAndStart (x : externals) (ctx : context)
    (required_contexts production_environment update_branch : string)
    (environment environmentUrl reactionId : jsval)
    (precheckResults : precheckResults) :
  ready (createAndStart x ctx required_contexts production_environment
           update_branch environment environmentUrl reactionId precheckResults).
Proof. unfold createAndStart. ready_walk. Qed.

Lemma ready_deployCommand (x : externals) (inputs : string -> string)
    (ctx : context) (penv : processEnv) (owner repoName : string)
    (environment body trigger noop_trigger stable_branch : string)
    (required_contexts production_environment update_branch : string)
    (environment_urls : string) (reactionId : jsval) :
  ready (deployCommand x inputs ctx penv owner repoName environment body trigger
           noop_trigger stable_branch required_contexts production_environment
           update_branch environment_urls reactionId).
Proof.
  unfold deployCommand. apply ready_bind. intros eo Heo.
  destruct (UrlProps.environmentTargets_cases x inputs environment body trigger
              noop_trigger stable_branch reactionId (VStr environment_urls) eo Heo)
    as [target [Htarget [_ Hclean]]].
  split; [|intros _; exact Hclean].
  destruct (negb (truthy (eo_environment eo))); [ready_leaf|].
  do 7 (apply ready_bind_clean; [reflexivity|intros ? ?]).
  destruct (negb (pr_status _)); [ready_walk|].
  apply ready_bind_clean; [reflexivity|intros ? ?].
  destruct (pr_noopMode _); [ready_walk|].
  do 2 (apply ready_bind_clean; [reflexivity|intros ? ?]).
  apply ready_createAndStart.
Qed.

Lemma ready_runTry (x : externals) (inputs : string -> string) (ctx : context)
    (penv : processEnv) :
  ready (runTry x inputs ctx penv).
Proof.
  unfold runTry.
  do 18 (apply ready_bind_clean; [apply getInput_no_bypass|intros ? _]).
  do 3 (apply ready_bind_clean; [reflexivity|intros ? _]).
  destruct (_ =? "true"); [ready_leaf|].
  apply ready_bind_clean; [destruct (payload_comment ctx); reflexivity|intros cmt _].
  apply ready_bind_clean; [reflexivity|intros [|] _]; [|ready_leaf]. cbn [negb].
  apply ready_bind_clean;
    [destruct (payload_issue_number ctx); reflexivity|intros ? _].
  apply ready_bind_clean; [destruct (repo ctx); reflexivity|intros [owner repoName] _].
  apply ready_bind_clean; [reflexivity|intros isDeploy _].
  apply ready_bind_clean; [reflexivity|intros isHelp _].
  destruct isDeploy, isHelp; cbn [multipleTriggersLoop];
    try ready_leaf;
    rewrite bind_ret_l; cbn [negb andb]; try ready_leaf.
  - do 10 ready_clean_step. apply ready_deployCommand.
  - do 10 ready_clean_step. apply ready_helpCommand.
Qed.

Lemma hasState_app (name : string) (t1 t2 : list event) :
  hasState name (t1 ++ t2) = hasState name t1 || hasState name t2.
Proof.
  unfold hasState. rewrite savedState_app.
  destruct (savedState name t2), (savedState name t1); reflexivity.
Qed.

Lemma keeps_here {A} (name r : string) (m : M A) (f : A -> M jsval) :
  hasState name (events m) = true -> keeps name r (bind m f).
Proof.
  unfold keeps. destruct m as [t [a|e]]; cbn; intros Hm; [|now intros _].
  destruct (f a) as [t' r']. cbn. intros _. now rewrite hasState_app, Hm.
Qed.

Lemma keeps_later {A} (name r : string) (m : M A) (f : A -> M jsval) :
  (forall a, outcome m = Ret a -> keeps name r (f a)) -> keeps name r (bind m f).
Proof.
  unfold keeps. destruct m as [t [a|e]]; cbn; intros Hf; [|discriminate].
  specialize (Hf a eq_refl). destruct (f a) as [t' r']. cbn in *.
  intros H. rewrite hasState_app, (Hf H). apply orb_true_r.
Qed.

Lemma keeps_ret_other (name r : string) (v : jsval) :
  v <> VStr r -> keeps name r (ret v).
Proof. intros Hv H. cbn in H. congruence. Qed.

Lemma keeps_throw (name r : string) (e : thrown) : keeps name r (throw e).
Proof. intros H. discriminate H. Qed.

Ltac keeps_walk :=
  repeat first
    [ apply keeps_throw
    | apply keeps_ret_other; discriminate
    | match goal with
      | H : outcome (multipleTriggersLoop _ _ _) = Ret (Some ?v)
        |- keeps _ _ (ret ?v) =>
          rewrite (early_is_failure _ _ _ _ H);
          apply keeps_ret_other; discriminate
      end
    | apply keeps_here; reflexivity
    | apply keeps_later; intros ? ?
    | match goal with
      | |- keeps _ _ (if ?c then _ else _) => destruct c eqn:?
      | |- keeps _ _ (let '(_, _) := ?p in _) => destruct p
      | |- keeps _ _ (match ?v with _ => _ end) => destruct v eqn:?
      end ].

Ltac keeps_run :=
  unfold runTry, helpCommand, deployCommand, createAndStart; keeps_walk.

Lemma runTry_keeps (x : externals) (inputs : string -> string) (ctx : context)
    (penv : processEnv) (name r : string) :
  In name ["isPost"; "comment_id"; "reaction_id"; "environment"; "ref"; "noop"] ->
  r = "success" \/ r = "success - noop" ->
  keeps name r (runTry x inputs ctx penv).
Proof.
  intros Hname Hr. cbn [In] in Hname.
  destruct Hr as [ -> | -> ];
    destruct Hname as [ <- |[ <- |[ <- |[ <- |[ <- |[ <- |Hnone]]]]]];
    try destruct Hnone; keeps_run.
Qed.

Lemma runTry_keeps_deployment_id (x : externals) (inputs : string -> string)
    (ctx : context) (penv : processEnv) :
  keeps "deployment_id" "success" (runTry x inputs ctx penv).
Proof. keeps_run. Qed.

Lemma noBypass_savedState (t : list event) :
  noBypass t = true -> savedState "bypass" t = None.
Proof.
  induction t as [|ev t IH]; [reflexivity|].
  unfold noBypass. cbn [forallb savedState]. intros H.
  apply andb_true_iff in H as [Hev Ht]. rewrite (IH Ht).
  destruct ev; try reflexivity. cbn in Hev.
  apply negb_true_iff in Hev. now rewrite Hev.
Qed.

(** X17: a run that returns ['success'] or ['success - noop'] leaves
    the completion phase what it needs: it has never saved the bypass
    state, and it has saved [isPost], [comment_id], [reaction_id],
    [environment], [ref] and [noop]; when it returns ['success'] it has
    saved [deployment_id] as well. *)
Theorem run_hands_over
    (x : externals) (inputs : string -> string) (ctx : context)
    (penv : processEnv) :
  let r := run x inputs ctx penv in
  outcome r = Ret (VStr "success") \/ outcome r = Ret (VStr "success - noop") ->
  savedState "bypass" (events r) = None
  /\ (forall name,
        In name ["isPost"; "comment_id"; "reaction_id"; "environment"; "ref";
                 "noop"] ->
        hasState name (events r) = true)
  /\ (outcome r = Ret (VStr "success") ->
      hasState "deployment_id" (events r) = true).
Proof.
  cbv zeta.
  pose proof (ready_runTry x inputs ctx penv) as Hready.
  pose proof (runTry_keeps x inputs ctx penv) as Hkeeps.
  pose proof (runTry_keeps_deployment_id x inputs ctx penv) as Hid.
  unfold run, ready, handsOver, keeps in *.
  destruct (runTry x inputs ctx penv) as [t [v|e]];
    [|destruct e as [e|[| | | |]]]; cbn in *;
    try (intros [H|H]; discriminate H).
  intros Hv. split; [now apply noBypass_savedState, Hready|].
  split; [|exact Hid].
  intros name Hname. destruct Hv as [Hv|Hv].
  - apply (Hkeeps name "success" Hname (or_introl eq_refl) Hv).
  - apply (Hkeeps name "success - noop" Hname (or_intror eq_refl) Hv).
Qed.

Lemma run_hands_over_witness :
  let r := run Scenario.collaborators
             (Scenario.workflowInputs "production,staging")
             (Scenario.commentContext ".deploy to staging")
             (mkProcessEnv (VStr "https://github.com") (VStr "99")) in
  savedState "bypass" (events r) = None
  /\ (forall name,
        In name ["isPost"; "comment_id"; "reaction_id"; "environment"; "ref";
                 "noop"] ->
        hasState name (events r) = true)
  /\ (outcome r = Ret (VStr "success") ->
      hasState "deployment_id" (events r) = true).
Proof.
  intros r.
  apply (run_hands_over Scenario.collaborators
           (Scenario.workflowInputs "production,staging")
           (Scenario.commentContext ".deploy to staging")
           (mkProcessEnv (VStr "https://github.com") (VStr "99"))).
  left. reflexivity.
Defined.

(** *** The order of the deployment calls *)

Lemma order_skip (stage : nat) (t1 t2 : list event) :
  noDeployment t1 = true ->
  deploymentOrder stage (t1 ++ t2) = deploymentOrder stage t2.
Proof.
  unfold noDeployment. induction t1 as [|ev t1 IH]; [reflexivity|].
  cbn [forallb app]. intros H. apply andb_true_iff in H as [Hev Ht].
  destruct ev; cbn in Hev; try discriminate Hev; cbn [deploymentOrder];
    now apply IH.
Qed.

Lemma order_quiet (stage : nat) (t : list event) :
  noDeployment t = true -> deploymentOrder stage t = true.
Proof.
  intros H. rewrite <- (app_nil_r t). now rewrite order_skip.
Qed.

Lemma order_then_quiet (t1 t2 : list event) :
  noDeployment t2 = true ->
  forall stage,
    deploymentOrder stage (t1 ++ t2) = deploymentOrder stage t1.
Proof.
  intros H2. induction t1 as [|ev t1 IH]; intros stage; cbn [app].
  - now rewrite order_quiet.
  - destruct ev; cbn [deploymentOrder]; try apply IH.
    + destruct stage; [apply IH|reflexivity].
    + destruct stage as [|[|n]]; try reflexivity. now rewrite IH.
Qed.

Lemma ordered_bind {A} (m : M A) (f : A -> M jsval) :
  quiet m -> (forall a, outcome m = Ret a -> ordered (f a)) ->
  ordered (bind m f).
Proof.
  unfold quiet, ordered. destruct m as [t [a|e]]; cbn; intros Hm Hf.
  - specialize (Hf a eq_refl). destruct (f a) as [t' r]. cbn in *.
    now rewrite order_skip.
  - now apply order_quiet.
Qed.

Lemma ordered_quiet (m : M jsval) : quiet m -> ordered m.
Proof. unfold quiet, ordered. apply order_quiet. Qed.

Ltac ordered_step :=
  apply ordered_bind;
    [ first
        [ reflexivity
        | apply quiet_getInput
        | match goal with
          | |- quiet (match ?v with _ => _ end) => destruct v; reflexivity
          end ]
    | intros ? _ ].

Lemma ordered_createAndStart (x : externals) (ctx : context)
    (required_contexts production_environment update_branch : string)
    (environment environmentUrl reactionId : jsval)
    (precheckResults : precheckResults) :
  ordered (createAndStart x ctx required_contexts production_environment
             update_branch environment environmentUrl reactionId precheckResults).
Proof.
  unfold createAndStart, ordered, call, mergeRequired. cbn [bind emit].
  destruct (createDeployment x _) as [createDeploy|e]; [|reflexivity].
  cbn [bind emit].
  destruct (cd_id createDeploy); cbn [bind ret];
    try (destruct (createDeploymentStatus x _ _ _ _ _); reflexivity).
  destruct (cd_message createDeploy) as [| | | |message]; try reflexivity.
  cbn [bind ret]. destruct (includes message "Auto-merged").
  - destruct (actionStatus x _ _ _); reflexivity.
  - destruct (createDeploymentStatus x _ _ _ _ _); reflexivity.
Qed.

Lemma ordered_deployCommand (x : externals) (inputs : string -> string)
    (ctx : context) (penv : processEnv) (owner repoName : string)
    (environment body trigger noop_trigger stable_branch : string)
    (required_contexts production_environment update_branch : string)
    (environment_urls : string) (reactionId : jsval) :
  ordered (deployCommand x inputs ctx penv owner repoName environment body
             trigger noop_trigger stable_branch required_contexts
             production_environment update_branch environment_urls reactionId).
Proof.
  unfold deployCommand.
  apply ordered_bind; [apply quiet_environmentTargets|intros eo _].
  destruct (negb (truthy (eo_environment eo))); [reflexivity|].
  do 7 ordered_step.
  destruct (negb (pr_status _)).
  { do 3 ordered_step. reflexivity. }
  ordered_step.
  destruct (pr_noopMode _); [reflexivity|].
  do 2 ordered_step. apply ordered_createAndStart.
Qed.

(** X18: in every run the deployment calls come in order: a deployment
    is requested at most once, a deployment status is set at most once,
    only after the request, and only to ['in_progress']. *)
Theorem run_deployment_order
    (x : externals) (inputs : string -> string) (ctx : context)
    (penv : processEnv) :
  deploymentOrder 0 (events (run x inputs ctx penv)) = true.
Proof.
  assert (Ho : ordered (runTry x inputs ctx penv)).
  { unfold runTry.
    do 21 ordered_step.
    destruct (_ =? "true"); [reflexivity|].
    do 2 ordered_step.
    match goal with |- ordered (if ?c then _ else _) => destruct c end;
      [reflexivity|].
    do 2 ordered_step.
    match goal with |- ordered (let '(_, _) := ?p in _) => destruct p end.
    do 2 ordered_step.
    apply ordered_bind; [apply quiet_multipleTriggersLoop|intros [early|] _];
      [reflexivity|].
    match goal with |- ordered (if ?c then _ else _) => destruct c end;
      [reflexivity|].
    do 10 ordered_step.
    match goal with |- ordered (if ?c then _ else _) => destruct c end.
    - apply ordered_quiet, quiet_helpCommand.
    - apply ordered_deployCommand. }
  unfold run, ordered in *.
  destruct (runTry x inputs ctx penv) as [t [v|e]];
    [|destruct e as [e|[| | | |]]]; cbn in *; [exact Ho|..];
    now rewrite order_then_quiet.
Qed.

(** *** Help commands *)

(** X19: a help command (only the help trigger is found) never gets to
    the environment or to a deployment. With valid permissions [run]
    posts the help, saves the bypass state and returns ['safe-exit'];
    otherwise it reports the answer of the permission check on the
    comment, saves the bypass state, marks the run as failed with that
    answer and returns ['failure']. *)
Theorem run_help
    (x : externals) (inputs : string -> string) (ctx : context)
    (penv : processEnv) (cmt : comment) (issue : jsval)
    (ownerRepo : string * string) (reactionId login permission : jsval) :
  inputs "github_token" <> "" ->
  inputs "environment" <> "" ->
  getOctokit x (trim (inputs "github_token")) = Ret tt ->
  trim (inputs "merge_deploy_mode") <> "true" ->
  payload_comment ctx = Some cmt ->
  contextCheck x ctx = Ret true ->
  payload_issue_number ctx = Some issue ->
  repo ctx = Some ownerRepo ->
  triggerCheck x (trim (inputs "prefix_only") =? "true") (trim (c_body cmt))
    (trim (inputs "trigger")) = Ret false ->
  triggerCheck x (trim (inputs "prefix_only") =? "true") (trim (c_body cmt))
    (trim (inputs "help_trigger")) = Ret true ->
  reactEmote x (trim (inputs "reaction")) = Ret (Some reactionId) ->
  c_user_login cmt = Some login ->
  validPermissions x = Ret permission ->
  help x reactionId = Ret tt ->
  actionStatus x reactionId permission VUndefined = Ret tt ->
  let before :=
    (triggeredPrefix (trim (inputs "github_token")) "help"
       (trim (inputs "reaction")) (c_id cmt) reactionId login
     ++ [Debug "help command detected"])%list in
  (permission = VBool true ->
   run x inputs ctx penv
   = ((before ++ [Help reactionId; SaveState "bypass" (VStr "true")])%list,
      Ret (VStr "safe-exit")))
  /\ (permission <> VBool true ->
      run x inputs ctx penv
      = ((before
          ++ [ActionStatus reactionId permission VUndefined;
              SaveState "bypass" (VStr "true");
              SetFailed permission])%list,
         Ret (VStr "failure"))).
Proof.
  intros Htoken Henv Hoct Hmerge Hcmt Hctx Hissue Hrepo Hdeploy Hhelp Hreact
    Hlogin Hperm Hhelped Haction.
  apply String.eqb_neq in Htoken, Henv, Hmerge.
  assert (E : run x inputs ctx penv
              = tryCatch
                  (let '(t, r) := helpCommand x reactionId in
                   ((triggeredPrefix (trim (inputs "github_token")) "help"
                       (trim (inputs "reaction")) (c_id cmt) reactionId login
                     ++ t)%list, r))
                  catchBlock).
  { unfold run, runTry, getInput.
    run_steps. rewrite Htoken. run_steps. rewrite Henv. run_steps.
    rewrite Hoct. run_steps. rewrite Hmerge, Hcmt. run_steps.
    rewrite Hctx. run_steps. rewrite Hissue. run_steps. rewrite Hrepo.
    destruct ownerRepo as [owner repoName]. run_steps.
    rewrite Hdeploy. run_steps. rewrite Hhelp. run_steps.
    rewrite Hreact. run_steps. rewrite Hlogin. run_steps.
    destruct (helpCommand x reactionId) as [t r]. reflexivity. }
  cbv zeta. rewrite E. unfold helpCommand, call, ask. rewrite Hperm.
  split.
  - intros ->. rewrite Hhelped. reflexivity.
  - intros Hno.
    destruct permission as [| |[|]| |]; try congruence;
      cbn [bind ret]; rewrite Haction; reflexivity.
Qed.

Lemma run_help_witness :
  run Scenario.collaborators (Scenario.workflowInputs "production,staging")
    (Scenario.commentContext ".help")
    (mkProcessEnv (VStr "https://github.com") (VStr "99"))
  = ((triggeredPrefix "token" "help" "eyes" (VNum 1001) (VNum 7) (VStr "monalisa")
      ++ [Debug "help command detected"]
      ++ [Help (VNum 7); SaveState "bypass" (VStr "true")])%list,
     Ret (VStr "safe-exit")).
Proof.
  apply (proj1 (run_help Scenario.collaborators
                  (Scenario.workflowInputs "production,staging")
                  (Scenario.commentContext ".help")
                  (mkProcessEnv (VStr "https://github.com") (VStr "99"))
                  (mkComment ".help" (VNum 1001) (Some (VStr "monalisa")))
                  (VNum 5) ("octo", "app") (VNum 7) (VStr "monalisa") (VBool true)
                  ltac:(discriminate) ltac:(discriminate) eq_refl
                  ltac:(discriminate) eq_refl eq_refl eq_refl eq_refl eq_refl
                  eq_refl eq_refl eq_refl eq_refl eq_refl eq_refl)).
  reflexivity.
Defined.

(** *** Deploy comments that name no target *)

(** X23: a deploy command whose comment names none of the configured
    targets and is no bare phrase ends in the [catch] block of [run]:
    [environmentTargets] warns with the list of the targets, saves the
    bypass state and fails on the [actionStatus] that its file does not
    import; [run] saves the bypass state again, logs the ReferenceError,
    marks the run as failed with its message and returns [undefined].
    No comment is sent and nothing is deployed. *)
Theorem run_no_target
    (x : externals) (inputs : string -> string) (ctx : context)
    (penv : processEnv) (cmt : comment) (issue : jsval)
    (ownerRepo : string * string) (reactionId login : jsval) :
  inputs "github_token" <> "" ->
  inputs "environment" <> "" ->
  getOctokit x (trim (inputs "github_token")) = Ret tt ->
  trim (inputs "merge_deploy_mode") <> "true" ->
  payload_comment ctx = Some cmt ->
  contextCheck x ctx = Ret true ->
  payload_issue_number ctx = Some issue ->
  repo ctx = Some ownerRepo ->
  triggerCheck x (trim (inputs "prefix_only") =? "true") (trim (c_body cmt))
    (trim (inputs "trigger")) = Ret true ->
  triggerCheck x (trim (inputs "prefix_only") =? "true") (trim (c_body cmt))
    (trim (inputs "help_trigger")) = Ret false ->
  reactEmote x (trim (inputs "reaction")) = Ret (Some reactionId) ->
  c_user_login cmt = Some login ->
  let targets := map trim (split "," (trim (inputs "environment_targets"))) in
  outcome (onDeploymentChecks targets (trim (c_body cmt)) (trim (inputs "trigger"))
             (trim (inputs "noop_trigger")) (trim (inputs "stable_branch"))
             (trim (inputs "environment"))) = Ret None ->
  run x inputs ctx penv
  = ((triggeredPrefix (trim (inputs "github_token")) "deploy"
        (trim (inputs "reaction")) (c_id cmt) reactionId login
      ++ [Warning (noTargetMessage x (join "," targets));
          SaveState "bypass" (VStr "true");
          SaveState "bypass" (VStr "true");
          ErrorLog (referenceError "actionStatus is not defined");
          SetFailed (VStr "actionStatus is not defined")])%list,
     Ret VUndefined).
Proof.
  intros Htoken Henv Hoct Hmerge Hcmt Hctx Hissue Hrepo Hdeploy Hhelp Hreact
    Hlogin targets Hnone.
  apply String.eqb_neq in Htoken, Henv, Hmerge.
  pose proof (UrlProps.environmentTargets_not_found x inputs
                (trim (inputs "environment")) (trim (c_body cmt))
                (trim (inputs "trigger")) (trim (inputs "noop_trigger"))
                (trim (inputs "stable_branch")) reactionId
                (VStr (trim (inputs "environment_urls"))) Hnone) as Htargets.
  unfold run, runTry, getInput.
  run_steps. rewrite Htoken. run_steps. rewrite Henv. run_steps.
  rewrite Hoct. run_steps. rewrite Hmerge, Hcmt. run_steps.
  rewrite Hctx. run_steps. rewrite Hissue. run_steps. rewrite Hrepo.
  destruct ownerRepo as [owner repoName]. run_steps.
  rewrite Hdeploy. run_steps. rewrite Hhelp. run_steps.
  rewrite Hreact. run_steps. rewrite Hlogin. run_steps.
  unfold deployCommand. rewrite Htargets. reflexivity.
Qed.

Lemma run_no_target_witness :
  run Scenario.collaborators (Scenario.workflowInputs "production,staging")
    (Scenario.commentContext ".deploy to qa")
    (mkProcessEnv (VStr "https://github.com") (VStr "99"))
  = ((triggeredPrefix "token" "deploy" "eyes" (VNum 1001) (VNum 7)
        (VStr "monalisa")
      ++ [Warning
            ("No matching environment target found. Please check your command and try again. You can read more about environment targets in the README of this Action."
             ++ nl ++ nl
             ++ "> The following environment targets are available: `production,staging`");
          SaveState "bypass" (VStr "true");
          SaveState "bypass" (VStr "true");
          ErrorLog (referenceError "actionStatus is not defined");
          SetFailed (VStr "actionStatus is not defined")])%list,
     Ret VUndefined).
Proof.
  apply (run_no_target Scenario.collaborators
           (Scenario.workflowInputs "production,staging")
           (Scenario.commentContext ".deploy to qa")
           (mkProcessEnv (VStr "https://github.com") (VStr "99"))
           (mkComment ".deploy to qa" (VNum 1001) (Some (VStr "monalisa")))
           (VNum 5) ("octo", "app") (VNum 7) (VStr "monalisa")
           ltac:(discriminate) ltac:(discriminate) eq_refl ltac:(discriminate)
           eq_refl eq_refl eq_refl eq_refl eq_refl eq_refl eq_refl eq_refl).
  reflexivity.
Defined.

(** *** Failures and the bypass state *)

(** X20: every run that returns ['failure'] and every run that ends in
    the [catch] block has saved the bypass state as ['true'], so that
    the completion phase is skipped. After a thrown [Error] object the
    run returns [undefined]; the bypass state is saved whatever was
    thrown, be it no [Error] object at all. *)
Theorem failure_sets_bypass
    (x : externals) (inputs : string -> string) (ctx : context)
    (penv : processEnv) :
  (outcome (run x inputs ctx penv) = Ret (VStr "failure") ->
   savedState "bypass" (events (run x inputs ctx penv)) = Some (VStr "true"))
  /\ (forall e : error, outcome (runTry x inputs ctx penv) = Throw e ->
        outcome (run x inputs ctx penv) = Ret VUndefined
        /\ savedState "bypass" (events (run x inputs ctx penv))
           = Some (VStr "true"))
  /\ (forall t : thrown, outcome (runTry x inputs ctx penv) = Throw t ->
        savedState "bypass" (events (run x inputs ctx penv))
        = Some (VStr "true")).
Proof.
  destruct (run_failure_sets_bypass x inputs ctx penv) as [Hfail Hcatch].
  split; [exact Hfail|]. split.
  - intros e E. destruct (Hcatch e E) as [Hret Hsaved]. split; [|exact Hsaved].
    now apply Hret.
  - intros t E. now destruct (Hcatch t E).
Qed.

Lemma failure_sets_bypass_witness :
  savedState "bypass"
    (events (run Variants.rejecting
               (Scenario.workflowInputs "production,staging")
               (Scenario.commentContext ".deploy to staging")
               (mkProcessEnv (VStr "https://github.com") (VStr "99"))))
  = Some (VStr "true").
Proof.
  apply (proj1 (failure_sets_bypass Variants.rejecting
                  (Scenario.workflowInputs "production,staging")
                  (Scenario.commentContext ".deploy to staging")
                  (mkProcessEnv (VStr "https://github.com") (VStr "99")))).
  reflexivity.
Defined.

End RunProps.

(** ** More on the lookup and on the bare trigger *)

Module LookupProps.
Import JS Core Core.Notations EnvironmentTargets Shapes.

(** X21: when every pair of the input has a URL part (a [|] after the
    name), [findEnvironmentUrl] returns: with [null], or with a URL of
    the http(s) schema. *)
Theorem lookup_returns (environment environment_urls : string) :
  (forall entry, In entry (split "," (trim environment_urls)) ->
     nth_error (split "|" (trim entry)) 1 <> None) ->
  exists v,
    outcome (findEnvironmentUrl environment (VStr environment_urls)) = Ret v
    /\ (v = VNull \/ exists url, v = VStr url /\ matchesHttpSchema url = true).
Proof. exact (Lifecycle.findEnvironmentUrl_returns environment environment_urls). Qed.

Lemma lookup_returns_witness :
  exists v,
    outcome (findEnvironmentUrl "staging"
               (VStr "production|https://example.com, staging|ftp://files"))
    = Ret v
    /\ (v = VNull \/ exists url, v = VStr url /\ matchesHttpSchema url = true).
Proof.
  apply (lookup_returns "staging"
           "production|https://example.com, staging|ftp://files").
  intros entry [ <- |[ <- |Hnone]]; [discriminate|discriminate|destruct Hnone].
Defined.

(** X22: the bare trigger phrase resolves to the default environment
    whenever the first configured target is not empty, is not the
    trigger itself and does not turn the trigger into [to <target>];
    the trigger is assumed free of surrounding white space. *)
Theorem bare_trigger_resolves
    (target : string) (rest : list string)
    (trigger noop_trigger stable_branch environment : string) :
  trim trigger = trigger ->
  target <> "" -> target <> trigger -> trigger <> "to " ++ target ->
  outcome (onDeploymentChecks (target :: rest) trigger trigger noop_trigger
             stable_branch environment) = Ret (Some environment).
Proof.
  exact (Resolution.bare_trigger_default target rest trigger noop_trigger
           stable_branch environment).
Qed.

Lemma bare_trigger_resolves_witness :
  outcome (onDeploymentChecks ("production" :: ["staging"]) ".deploy" ".deploy"
             "noop" "main" "production") = Ret (Some "production").
Proof.
  apply (bare_trigger_resolves "production" ["staging"] ".deploy" "noop" "main"
           "production"); [reflexivity|discriminate|discriminate|discriminate].
Defined.

End LookupProps.
